(** * Paila code-review SDK: a shallow embedding of the review core

    The development follows the Python sources module by module:
    - [PyStr]      : the [str] methods the analyses call ([split], [strip],
                     [startswith], [lower], [in]);
    - [Models]     : paila/models.py ([Severity], [Issue], [Metrics],
                     [FileResult], [ReviewResult]);
    - [Config]     : paila/config.py (the options the core reads);
    - [Ast]        : the part of Python's [ast] trees the analyses inspect;
    - [BaseAnalyzer] : the line helpers of paila/analyzers/base.py;
    - [Complexity] : paila/analyzers/complexity.py;
    - [Re]         : the fragment of [re] the security analyzer uses;
    - [Security]   : paila/analyzers/security.py (hard-coded secrets);
    - [Smells]     : paila/analyzers/smells.py (entry point);
    - [Rules]      : paila/rules/base.py ([Rule], [RuleSet]);
    - [Path]       : [pathlib] paths and the file system;
    - [Float64]    : the float operations of the metrics;
    - [Reviewer]   : paila/reviewer.py;
    - [ComplexityMetrics] : [calculate_metrics] of the complexity analyzer;
    - [Spec]       : definitions that follow the prose of the specification;
    - [Fixtures]   : sample inputs.

    Python [int] is [Z]; [str] is [string], read as a sequence of code points
    below 256; a [dict] is a [gmap] where only lookups matter and an
    association list where insertion order matters; a call that may raise
    returns a [result]. *)

From Stdlib Require Import ZArith List String Ascii Bool Lia Permutation QArith.
From Stdlib Require Import DecimalString Sorted.
From Stdlib Require OrderedTypeEx.
From stdpp Require Import base option list gmap strings.

Import ListNotations.
Local Open Scope string_scope.
Local Open Scope list_scope.
Local Open Scope Z_scope.

(** ** Exceptions

    The handlers of the sources select on three classes: [SyntaxError]
    ([except SyntaxError]), [UnicodeDecodeError] and the catch-all
    [except Exception].  The two errors the reviewer raises itself are
    [FileNotFoundError] and [NotADirectoryError].  Every constructor below is a
    subclass of [Exception]; interpreter signals that are not ([SystemExit],
    [KeyboardInterrupt]) are outside the model. *)

Inductive exception : Type :=
| SyntaxError
| UnicodeDecodeError
| FileNotFoundError (msg : string)
| NotADirectoryError (msg : string)
| OtherException (cls : string).

Inductive result (A : Type) : Type :=
| Ok (a : A)
| Raise (e : exception).

Arguments Ok {A} a.
Arguments Raise {A} e.

Definition is_SyntaxError (e : exception) : bool :=
  match e with SyntaxError => true | _ => false end.

Definition is_UnicodeDecodeError (e : exception) : bool :=
  match e with UnicodeDecodeError => true | _ => false end.

Definition returns {A : Type} (r : result A) : Prop := exists a, r = Ok a.

(** ** The [str] methods used by the analyses *)

Module PyStr.

Definition newline : ascii := ascii_of_nat 10.

(** [len(s)]. *)
Definition len (s : string) : Z := Z.of_nat (String.length s).

(** [s.split("\n")]: never empty, a trailing newline gives a last empty
    line. *)
Fixpoint split (sep : ascii) (s : string) : list string :=
  match s with
  | EmptyString => [EmptyString]
  | String c s' =>
      if Ascii.eqb c sep then EmptyString :: split sep s'
      else match split sep s' with
           | [] => [String c EmptyString]
           | w :: ws => String c w :: ws
           end
  end.

Definition splitlines_nl (s : string) : list string := split newline s.

(** [c.isspace()] for a code point below 256: TAB, LF, VT, FF, CR, the
    four separators FS..US, SPACE, NEL and NBSP.  The same set is what
    [\s] matches in a [str] pattern. *)
Definition isspace (c : ascii) : bool :=
  let n := nat_of_ascii c in
  (((9 <=? n) && (n <=? 13)) || ((28 <=? n) && (n <=? 32))
   || (n =? 133) || (n =? 160))%nat.

Fixpoint lstrip (s : string) : string :=
  match s with
  | EmptyString => EmptyString
  | String c s' => if isspace c then lstrip s' else s
  end.

Fixpoint rstrip (s : string) : string :=
  match s with
  | EmptyString => EmptyString
  | String c s' =>
      match rstrip s' with
      | EmptyString => if isspace c then EmptyString else String c EmptyString
      | r => String c r
      end
  end.

(** [s.strip()]. *)
Definition strip (s : string) : string := rstrip (lstrip s).

(** [s.startswith(p)]. *)
Definition startswith (s p : string) : bool := String.prefix p s.

(** [sub in s]. *)
Fixpoint contains (sub s : string) : bool :=
  String.prefix sub s
  || match s with
     | EmptyString => false
     | String _ s' => contains sub s'
     end.

(** [c.lower()] below 256: A-Z and the Latin-1 capitals (all of
    U+00C0..U+00DE but the multiplication sign). *)
Definition lower_char (c : ascii) : ascii :=
  let n := nat_of_ascii c in
  if (((65 <=? n) && (n <=? 90))
      || ((192 <=? n) && (n <=? 222) && negb (n =? 215)))%nat
  then ascii_of_nat (n + 32) else c.

Fixpoint lower (s : string) : string :=
  match s with
  | EmptyString => EmptyString
  | String c s' => String (lower_char c) (lower s')
  end.

(** [all(p(c) for c in s)]. *)
Fixpoint all_chars (p : ascii -> bool) (s : string) : bool :=
  match s with
  | EmptyString => true
  | String c s' => p c && all_chars p s'
  end.

(** [str(n)] for an [int]. *)
Definition str_of_Z (z : Z) : string := NilZero.string_of_int (Z.to_int z).

(** [sep.join(parts)]. *)
Fixpoint join (sep : string) (parts : list string) : string :=
  match parts with
  | [] => EmptyString
  | [p] => p
  | p :: ps => p +:+ sep +:+ join sep ps
  end.

End PyStr.

(** ** paila/models.py *)

Module Models.

Inductive Severity : Type := CRITICAL | HIGH | MEDIUM | LOW | INFO.

(** [Severity] is a [str] enum: a member hashes and compares as its value,
    so a dict keyed by members is read with the plain string too. *)
Definition Severity_value (s : Severity) : string :=
  match s with
  | CRITICAL => "critical"
  | HIGH => "high"
  | MEDIUM => "medium"
  | LOW => "low"
  | INFO => "info"
  end.

Definition Severity_eqb (a b : Severity) : bool :=
  match a, b with
  | CRITICAL, CRITICAL | HIGH, HIGH | MEDIUM, MEDIUM | LOW, LOW | INFO, INFO => true
  | _, _ => false
  end.

(** Values stored in [Issue.metadata]. *)
Inductive pyvalue : Type :=
| VInt (z : Z)
| VStr (s : string)
| VBool (b : bool).

Record Issue : Type := mkIssue {
  type : string;
  severity : Severity;
  file : string;
  line : Z;
  message : string;
  code : string;
  column : Z;
  end_line : option Z;
  end_column : option Z;
  suggestion : string;
  rule : string;
  ai_explanation : option string;
  ai_fix : option string;
  metadata : list (string * pyvalue)
}.

Record Metrics : Type := mkMetrics {
  lines_of_code : Z;
  total_lines : Z;
  blank_lines : Z;
  comment_lines : Z;
  functions : Z;
  classes : Z;
  avg_complexity : Q;
  max_complexity : Z;
  maintainability_index : Q;
  comment_ratio : Q;
  duplication_ratio : Q
}.

(** [Metrics()] with every field at its dataclass default. *)
Definition Metrics_default : Metrics :=
  {| lines_of_code := 0; total_lines := 0; blank_lines := 0;
     comment_lines := 0; functions := 0; classes := 0;
     avg_complexity := 0%Q; max_complexity := 0;
     maintainability_index := 100%Q; comment_ratio := 0%Q;
     duplication_ratio := 0%Q |}.

Record FileResult : Type := mkFileResult {
  fr_file : string;
  issues : list Issue;
  metrics : option Metrics;
  skipped : bool;
  error : option string
}.

(** [Issue(type=..., severity=..., file=..., line=..., column=...,
    message=..., code=..., suggestion=..., rule=..., metadata=...)]: the
    keyword arguments every analyzer passes; the other fields keep their
    defaults. *)
Definition new_Issue (type : string) (severity : Severity) (file : string)
    (line column : Z) (message code suggestion rule : string)
    (metadata : list (string * pyvalue)) : Issue :=
  {| type := type; severity := severity; file := file; line := line;
     message := message; code := code; column := column;
     end_line := None; end_column := None; suggestion := suggestion;
     rule := rule; ai_explanation := None; ai_fix := None;
     metadata := metadata |}.

(** [d.get(k, default)] on a dict written as a literal. *)
Fixpoint dict_get {K V : Type} (eqb : K -> K -> bool)
    (d : list (K * V)) (k : K) (default : V) : V :=
  match d with
  | [] => default
  | (k', v) :: d' => if eqb k' k then v else dict_get eqb d' k default
  end.

Definition severity_deductions : list (Severity * Z) :=
  [(CRITICAL, 15); (HIGH, 10); (MEDIUM, 5); (LOW, 2); (INFO, 0)].

(** [FileResult.score]: the loop subtracts one deduction per issue. *)
Definition score (r : FileResult) : Z :=
  let score :=
    fold_left
      (fun score issue =>
         score - dict_get Severity_eqb severity_deductions (severity issue) 0)
      (issues r) 100 in
  Z.max 0 (Z.min 100 score).

(** [FileResult.grade]. *)
Definition grade (r : FileResult) : string :=
  let score := score r in
  if score >=? 90 then "A"
  else if score >=? 80 then "B"
  else if score >=? 70 then "C"
  else if score >=? 60 then "D"
  else "F".

Record ReviewResult : Type := mkReviewResult {
  files : list FileResult;
  total_issues : Z;
  issues_by_severity : gmap string Z;
  issues_by_type : gmap string Z;
  issues_by_file : gmap string (list Issue);
  rr_metrics : option Metrics
}.

(** [FileResult.issue_count], [critical_count] and [high_count]. *)
Definition issue_count (r : FileResult) : Z := Z.of_nat (length (issues r)).

Definition critical_count (r : FileResult) : Z :=
  Z.of_nat (length (List.filter
                      (fun i => Severity_eqb (severity i) CRITICAL) (issues r))).

Definition high_count (r : FileResult) : Z :=
  Z.of_nat (length (List.filter
                      (fun i => Severity_eqb (severity i) HIGH) (issues r))).

(** The dict [severity_deductions] of [ReviewResult.score], keyed by the
    severity names. *)
Definition name_deductions : list (string * Z) :=
  [("critical", 15); ("high", 10); ("medium", 5); ("low", 2); ("info", 0)].

(** [ReviewResult.score]: one deduction per entry of [issues_by_severity],
    weighted by its count. *)
Definition ReviewResult_score (r : ReviewResult) : Z :=
  let score :=
    map_fold
      (fun sev count score =>
         score - dict_get String.eqb name_deductions sev 0 * count)
      100 (issues_by_severity r) in
  Z.max 0 (Z.min 100 score).

(** The module-level [calculate_grade]. *)
Definition calculate_grade (score : Z) : string :=
  if score >=? 90 then "A"
  else if score >=? 80 then "B"
  else if score >=? 70 then "C"
  else if score >=? 60 then "D"
  else "F".

(** [ReviewResult.grade]. *)
Definition ReviewResult_grade (r : ReviewResult) : string :=
  let score := ReviewResult_score r in
  if score >=? 90 then "A"
  else if score >=? 80 then "B"
  else if score >=? 70 then "C"
  else if score >=? 60 then "D"
  else "F".

Definition Qltb (x y : Q) : bool := negb (Qle_bool y x).

(** The module-level [calculate_score(issues, metrics)]. *)
Definition calculate_score (l : list Issue) (m : option Metrics) : Z :=
  let score :=
    fold_left
      (fun score issue =>
         score - dict_get Severity_eqb severity_deductions (severity issue) 0)
      l 100 in
  let score :=
    match m with
    | Some metrics =>
        let score :=
          if Qltb (maintainability_index metrics) 50 then score - 10
          else if Qltb (maintainability_index metrics) 65 then score - 5
          else score in
        if max_complexity metrics >? 20 then score - 10
        else if max_complexity metrics >? 10 then score - 5
        else score
    | None => score
    end in
  Z.max 0 (Z.min 100 score).

End Models.

(** ** paila/config.py *)

Module Config.

(** The options read by the review core. *)
Record Config : Type := mkConfig {
  analyzers : list string;
  min_severity : string;
  max_complexity : Z;
  max_nesting_depth : Z;
  max_function_lines : Z;
  max_file_lines : Z;
  max_line_length : Z;
  max_parameters : Z;
  ignore_paths : list string;
  ignore_files : list string;
  output_format : string;
  verbose : bool
}.

(** [Config()]. *)
Definition default_config : Config :=
  {| analyzers := ["complexity"; "security"; "smells"];
     min_severity := "info";
     max_complexity := 10;
     max_nesting_depth := 4;
     max_function_lines := 50;
     max_file_lines := 500;
     max_line_length := 120;
     max_parameters := 5;
     ignore_paths :=
       ["node_modules/"; ".git/"; "__pycache__/"; ".venv/"; "venv/"; "env/";
        ".env/"; "dist/"; "build/"; ".eggs/"; "*.egg-info/"; ".tox/";
        ".pytest_cache/"; ".mypy_cache/"; ".coverage"; "htmlcov/"];
     ignore_files :=
       ["*.pyc"; "*.pyo"; "*.so"; "*.dll"; "*.exe"; "*.log"; "*.lock";
        "*.min.js"; "*.min.css"];
     output_format := "terminal";
     verbose := false |}.

(** [Config.relaxed()]: the preset that reports from [high] on. *)
Definition relaxed : Config :=
  {| analyzers := analyzers default_config;
     min_severity := "high";
     max_complexity := 15;
     max_nesting_depth := 6;
     max_function_lines := 100;
     max_file_lines := 1000;
     max_line_length := 150;
     max_parameters := 8;
     ignore_paths := ignore_paths default_config;
     ignore_files := ignore_files default_config;
     output_format := "terminal";
     verbose := false |}.

Definition str_in (s : string) (l : list string) : bool :=
  existsb (String.eqb s) l.

Definition valid_severities : list string :=
  ["critical"; "high"; "medium"; "low"; "info"].

Definition valid_formats : list string :=
  ["terminal"; "json"; "markdown"; "html"].

(** [__post_init__]: the two validations, each on the lower-cased
    option. *)
Definition post_init (c : Config) : result Config :=
  if negb (str_in (PyStr.lower (min_severity c)) valid_severities)
  then Raise (OtherException "ValueError")
  else if negb (str_in (PyStr.lower (output_format c)) valid_formats)
  then Raise (OtherException "ValueError")
  else Ok c.

(** The property [severity_order]. *)
Definition severity_order : list string :=
  ["critical"; "high"; "medium"; "low"; "info"].

(** [l.index(x)]: the first position of [x], or [ValueError]. *)
Fixpoint list_index (x : string) (l : list string) : result Z :=
  match l with
  | [] => Raise (OtherException "ValueError")
  | y :: l' =>
      if String.eqb y x then Ok 0
      else match list_index x l' with
           | Ok n => Ok (n + 1)
           | Raise e => Raise e
           end
  end.

(** The property [min_severity_index]. *)
Definition min_severity_index (c : Config) : result Z :=
  list_index (PyStr.lower (min_severity c)) severity_order.

(** [should_report_severity(severity)]. *)
Definition should_report_severity (c : Config) (severity : string)
    : result bool :=
  match list_index (PyStr.lower severity) severity_order with
  | Raise e => Raise e
  | Ok severity_index =>
      match min_severity_index c with
      | Raise e => Raise e
      | Ok min_index => Ok (severity_index <=? min_index)
      end
  end.

End Config.


(** ** Python syntax trees

    The tree provider is external.  The embedding keeps one constructor for
    each node class whose fields an analysis reads ([BoolOp.values],
    [comprehension.ifs], the fields of [FunctionDef], [ClassDef], [Expr] and
    [Constant]) and the generic [Node] for every other class, tagged with the
    class when an [isinstance] test looks for it. *)

Module Ast.

Inductive node_class : Type :=
| If | IfExp | For | AsyncFor | While | ExceptHandler
| With | AsyncWith | Assert | Try | Other.

Inductive constant : Type :=
| CStr (s : string)
| CInt (z : Z)
| COther.

(** The names held by an [ast.arguments] node.  The expressions below it
    (annotations and default values) are the [args_exprs] of the
    enclosing [FunctionDef]. *)
Record arguments : Type := mkArguments {
  posonlyargs : list string;
  args : list string;
  vararg : option string;
  kwonlyargs : list string;
  kwarg : option string
}.

#[warnings="-register-all"]
Inductive ast : Type :=
| Node (cls : node_class) (children : list ast)
| BoolOp (values : list ast)
| comprehension (target iter : ast) (ifs : list ast)
| Constant (value : constant)
| Expr (value : ast) (lineno : Z) (end_lineno : option Z)
| FunctionDef (is_async : bool) (name : string)
    (args : arguments) (args_exprs : list ast)
    (body decorator_list : list ast) (returns : option ast)
    (lineno col_offset : Z) (end_lineno : option Z)
| ClassDef (name : string) (bases keywords body decorator_list : list ast)
    (lineno col_offset : Z).

Definition opt_list {A : Type} (o : option A) : list A :=
  match o with Some a => [a] | None => [] end.

(** [ast.iter_child_nodes]: the node-valued fields in field order.  The
    operator of a [BoolOp] and the [arguments] of a function are nodes of
    classes no analysis tests for. *)
Definition iter_child_nodes (n : ast) : list ast :=
  match n with
  | Node _ children => children
  | BoolOp values => Node Other [] :: values
  | comprehension target iter ifs => target :: iter :: ifs
  | Constant _ => []
  | Expr value _ _ => [value]
  | FunctionDef _ _ _ args_exprs body decorator_list returns _ _ _ =>
      Node Other args_exprs :: body ++ decorator_list ++ opt_list returns
  | ClassDef _ bases keywords body decorator_list _ _ =>
      bases ++ keywords ++ body ++ decorator_list
  end.

Definition sum_nat (l : list nat) : nat := fold_right Nat.add 0%nat l.

(** Number of nodes reachable from [n], [n] included. *)
Fixpoint size (n : ast) : nat :=
  S (match n with
     | Node _ children => sum_nat (map size children)
     | BoolOp values => 1 + sum_nat (map size values)
     | comprehension target iter ifs =>
         size target + (size iter + sum_nat (map size ifs))
     | Constant _ => 0
     | Expr value _ _ => size value + 0
     | FunctionDef _ _ _ args_exprs body decorator_list returns _ _ _ =>
         S (sum_nat (map size args_exprs))
         + (sum_nat (map size body) + (sum_nat (map size decorator_list)
            + match returns with Some r => size r | None => 0 end))
     | ClassDef _ bases keywords body decorator_list _ _ =>
         sum_nat (map size bases) + (sum_nat (map size keywords)
         + (sum_nat (map size body) + sum_nat (map size decorator_list)))
     end)%nat.

(** The loop of [ast.walk]: pop the left end of the deque, push the
    children at the right end, yield the node. *)
Fixpoint walk_queue (fuel : nat) (todo : list ast) : list ast :=
  match fuel with
  | O => []
  | S fuel' =>
      match todo with
      | [] => []
      | node :: rest => node :: walk_queue fuel' (rest ++ iter_child_nodes node)
      end
  end.

(** [ast.walk(node)], breadth first. *)
Definition walk (node : ast) : list ast := walk_queue (size node) [node].

Definition is_function (n : ast) : bool :=
  match n with FunctionDef _ _ _ _ _ _ _ _ _ _ => true | _ => false end.

Definition is_class (n : ast) : bool :=
  match n with ClassDef _ _ _ _ _ _ _ => true | _ => false end.

Definition has_class (c : node_class) (n : ast) : bool :=
  match n with
  | Node c' _ =>
      match c, c' with
      | If, If | IfExp, IfExp | For, For | AsyncFor, AsyncFor
      | While, While | ExceptHandler, ExceptHandler | With, With
      | AsyncWith, AsyncWith | Assert, Assert | Try, Try => true
      | _, _ => false
      end
  | _ => false
  end.

End Ast.

(** ** The tree provider

    [ast.parse] is external: it returns a tree or raises.  The sources wrap
    it in [try: return ast.parse(code) except SyntaxError: return None], both
    in [BaseAnalyzer.parse_code] and in [Reviewer._parse_code]. *)

Definition tree_provider : Type := string -> result Ast.ast.

Definition parse_code (ast_parse : tree_provider) (code : string)
    : result (option Ast.ast) :=
  match ast_parse code with
  | Ok tree => Ok (Some tree)
  | Raise e => if is_SyntaxError e then Ok None else Raise e
  end.

(** ** paila/analyzers/base.py: the helpers on source lines *)

Module BaseAnalyzer.

(** [l[start:stop]] for integer bounds: a negative bound counts from the
    end, and both are clipped to the list. *)
Definition slice_index (len i : Z) : Z :=
  if i <? 0 then Z.max 0 (len + i) else Z.min i len.

Definition py_slice {A : Type} (l : list A) (start stop : Z) : list A :=
  let len := Z.of_nat (length l) in
  let a := slice_index len start in
  let b := slice_index len stop in
  firstn (Z.to_nat (b - a)) (skipn (Z.to_nat a) l).

(** [get_code_line(code, line_number)], 1-indexed. *)
Definition get_code_line (code : string) (line_number : Z) : string :=
  let lines := PyStr.splitlines_nl code in
  if (1 <=? line_number) && (line_number <=? Z.of_nat (length lines))
  then PyStr.strip (nth (Z.to_nat (line_number - 1)) lines EmptyString)
  else EmptyString.

(** The lines [get_code_snippet] joins. *)
Definition snippet_lines (code : string) (start_line : Z)
    (end_line : option Z) (max_lines : Z) : list string :=
  let lines := PyStr.splitlines_nl code in
  let end_line :=
    match end_line with
    | None => Z.min (start_line + max_lines - 1) (Z.of_nat (length lines))
    | Some end_line => end_line
    end in
  let start_idx := Z.max 0 (start_line - 1) in
  let end_idx := Z.min (Z.of_nat (length lines)) end_line in
  py_slice lines start_idx end_idx.

(** [get_code_snippet(code, start_line, end_line, max_lines)]. *)
Definition get_code_snippet (code : string) (start_line : Z)
    (end_line : option Z) (max_lines : Z) : string :=
  PyStr.join (String PyStr.newline EmptyString)
    (snippet_lines code start_line end_line max_lines).

End BaseAnalyzer.

(** ** paila/analyzers/complexity.py *)

Module Complexity.
Import Ast Models Config.

Definition lenZ {A : Type} (l : list A) : Z := Z.of_nat (length l).

(** One iteration of the loop of [_calculate_complexity]: the [elif] chain
    over the class of [child]. *)
Definition complexity_step (complexity : Z) (child : ast) : Z :=
  if has_class If child || has_class IfExp child then complexity + 1
  else if has_class For child || has_class AsyncFor child then complexity + 1
  else if has_class While child then complexity + 1
  else if has_class ExceptHandler child then complexity + 1
  else if has_class With child || has_class AsyncWith child then complexity + 1
  else match child with
       | BoolOp values => complexity + (lenZ values - 1)
       | comprehension _ _ ifs => complexity + lenZ ifs
       | _ => if has_class Assert child then complexity + 1 else complexity
       end.

Definition _calculate_complexity (node : ast) : Z :=
  fold_left complexity_step (walk node) 1.

(** [isinstance(child, nesting_nodes)]. *)
Definition is_nesting (child : ast) : bool :=
  has_class If child || has_class For child || has_class AsyncFor child
  || has_class While child || has_class With child
  || has_class AsyncWith child || has_class Try child
  || is_function child || is_class child.

(** [get_depth] of [_calculate_nesting_depth]; the children are visited
    field by field, in the order of [iter_child_nodes]. *)
Fixpoint get_depth (node : ast) (current_depth : Z) {struct node} : Z :=
  let visit (max_depth : Z) (child : ast) : Z :=
    Z.max max_depth
      (if is_nesting child then get_depth child (current_depth + 1)
       else get_depth child current_depth) in
  match node with
  | Node _ children => fold_left visit children current_depth
  | BoolOp values =>
      fold_left visit values (Z.max current_depth current_depth)
  | comprehension target iter ifs =>
      fold_left visit ifs (visit (visit current_depth target) iter)
  | Constant _ => current_depth
  | Expr value _ _ => visit current_depth value
  | FunctionDef _ _ _ args_exprs body decorator_list returns _ _ _ =>
      let in_args :=
        Z.max current_depth (fold_left visit args_exprs current_depth) in
      let in_body :=
        fold_left visit decorator_list (fold_left visit body in_args) in
      match returns with
      | Some r => visit in_body r
      | None => in_body
      end
  | ClassDef _ bases keywords body decorator_list _ _ =>
      fold_left visit decorator_list
        (fold_left visit body
           (fold_left visit keywords
              (fold_left visit bases current_depth)))
  end.

Definition _calculate_nesting_depth (node : ast) : Z := get_depth node 0.

(** [_count_function_lines]; [if docstring_node.end_lineno:] is false
    for [None] and for [0]. *)
Definition _count_function_lines (node : ast) : Z :=
  match node with
  | FunctionDef _ _ _ _ body _ _ lineno _ end_lineno =>
      match end_lineno with
      | None => 0
      | Some end_lineno =>
          let total_lines := end_lineno - lineno + 1 in
          match body with
          | Expr (Constant (CStr _)) doc_lineno (Some doc_end) :: _ =>
              if Z.eqb doc_end 0 then total_lines
              else total_lines - (doc_end - doc_lineno + 1)
          | _ => total_lines
          end
      end
  | _ => 0
  end.

(** The list [params] built by [_get_params_str]. *)
Definition params_of (a : arguments) : list string :=
  args a
  ++ match vararg a with Some v => ["*" +:+ v] | None => [] end
  ++ kwonlyargs a
  ++ match kwarg a with Some k => ["**" +:+ k] | None => [] end.

Definition _get_params_str (a : arguments) : string :=
  let params := params_of a in
  if lenZ params >? 3 then PyStr.join ", " (firstn 3 params) +:+ ", ..."
  else PyStr.join ", " params.

(** [param_count] as [_analyze_function] computes it. *)
Definition param_count (a : arguments) : Z :=
  let param_count := lenZ (args a) + lenZ (kwonlyargs a) in
  let param_count :=
    match vararg a with Some _ => param_count + 1 | None => param_count end in
  match kwarg a with Some _ => param_count + 1 | None => param_count end.

Definition high_complexity_issue (cfg : Config) (name : string)
    (a : arguments) (lineno col_offset complexity : Z) (file_path : string)
    : Issue :=
  new_Issue "high_complexity"
    (if complexity <=? 15 then MEDIUM else HIGH)
    file_path lineno col_offset
    ("Function '" +:+ name +:+ "' has cyclomatic complexity of "
     +:+ PyStr.str_of_Z complexity +:+ " (max: "
     +:+ PyStr.str_of_Z (max_complexity cfg) +:+ ")")
    ("def " +:+ name +:+ "(" +:+ _get_params_str a +:+ "):")
    "Consider breaking this function into smaller, more focused functions"
    "complexity/high-complexity"
    [("complexity", VInt complexity); ("function", VStr name)].

Definition deep_nesting_issue (cfg : Config) (name : string)
    (lineno col_offset nesting : Z) (file_path : string) : Issue :=
  new_Issue "deep_nesting" MEDIUM file_path lineno col_offset
    ("Function '" +:+ name +:+ "' has nesting depth of "
     +:+ PyStr.str_of_Z nesting +:+ " (max: "
     +:+ PyStr.str_of_Z (max_nesting_depth cfg) +:+ ")")
    ("def " +:+ name +:+ "(...):")
    "Extract nested logic into separate functions or use early returns"
    "complexity/deep-nesting"
    [("nesting_depth", VInt nesting); ("function", VStr name)].

Definition long_function_issue (cfg : Config) (name : string)
    (lineno col_offset func_lines : Z) (file_path : string) : Issue :=
  new_Issue "long_function" LOW file_path lineno col_offset
    ("Function '" +:+ name +:+ "' has " +:+ PyStr.str_of_Z func_lines
     +:+ " lines (max: " +:+ PyStr.str_of_Z (max_function_lines cfg) +:+ ")")
    ("def " +:+ name +:+ "(...):")
    "Break this function into smaller, single-purpose functions"
    "complexity/long-function"
    [("lines", VInt func_lines); ("function", VStr name)].

Definition too_many_params_issue (cfg : Config) (name : string)
    (a : arguments) (lineno col_offset count : Z) (file_path : string)
    : Issue :=
  new_Issue "too_many_params" LOW file_path lineno col_offset
    ("Function '" +:+ name +:+ "' has " +:+ PyStr.str_of_Z count
     +:+ " parameters (max: " +:+ PyStr.str_of_Z (max_parameters cfg) +:+ ")")
    ("def " +:+ name +:+ "(" +:+ _get_params_str a +:+ "):")
    "Consider using a configuration object or breaking into smaller functions"
    "complexity/too-many-params"
    [("param_count", VInt count); ("function", VStr name)].

(** [_analyze_function]: four independent threshold checks, each
    appending at most one issue. *)
Definition _analyze_function (cfg : Config) (node : ast)
    (code file_path : string) : list Issue :=
  match node with
  | FunctionDef _ name a _ _ _ _ lineno col_offset _ =>
      let complexity := _calculate_complexity node in
      let nesting := _calculate_nesting_depth node in
      let func_lines := _count_function_lines node in
      let count := param_count a in
      (if complexity >? max_complexity cfg
       then [high_complexity_issue cfg name a lineno col_offset complexity file_path]
       else [])
      ++ (if nesting >? max_nesting_depth cfg
          then [deep_nesting_issue cfg name lineno col_offset nesting file_path]
          else [])
      ++ (if func_lines >? max_function_lines cfg
          then [long_function_issue cfg name lineno col_offset func_lines file_path]
          else [])
      ++ (if count >? max_parameters cfg
          then [too_many_params_issue cfg name a lineno col_offset count file_path]
          else [])
  | _ => []
  end.

(** [_analyze_class]: the god-class check on the methods defined directly
    in the class body. *)
Definition _analyze_class (node : ast) (code file_path : string)
    : list Issue :=
  match node with
  | ClassDef name _ _ body _ lineno col_offset =>
      let method_count := lenZ (List.filter is_function body) in
      if method_count >? 20
      then [new_Issue "god_class" MEDIUM file_path lineno col_offset
              ("Class '" +:+ name +:+ "' has " +:+ PyStr.str_of_Z method_count
               +:+ " methods, which may indicate a 'God Class'")
              ("class " +:+ name +:+ ":")
              "Consider splitting this class into smaller, focused classes"
              "complexity/god-class"
              [("method_count", VInt method_count); ("class", VStr name)]]
      else []
  | _ => []
  end.

(** [enumerate(lines, 1)]. *)
Fixpoint enumerate {A : Type} (start : Z) (l : list A) : list (Z * A) :=
  match l with
  | [] => []
  | x :: l' => (start, x) :: enumerate (start + 1) l'
  end.

Definition _check_line_lengths (cfg : Config) (code file_path : string)
    : list Issue :=
  let max_length := max_line_length cfg in
  flat_map
    (fun '(i, line) =>
       if PyStr.len line >? max_length then
         if PyStr.contains "http://" line || PyStr.contains "https://" line
         then []
         else if PyStr.startswith (PyStr.strip line) "import "
                 || PyStr.startswith (PyStr.strip line) "from "
         then []
         else [new_Issue "long_line" INFO file_path i max_length
                 ("Line is " +:+ PyStr.str_of_Z (PyStr.len line)
                  +:+ " characters (max: " +:+ PyStr.str_of_Z max_length +:+ ")")
                 (if PyStr.len line >? 80
                  then String.substring 0 80 line +:+ "..." else line)
                 "Break this line into multiple lines for better readability"
                 "complexity/long-line"
                 [("length", VInt (PyStr.len line))]]
       else [])
    (enumerate 1 (PyStr.splitlines_nl code)).

Definition _check_file_length (cfg : Config) (code file_path : string)
    : list Issue :=
  let line_count := lenZ (PyStr.splitlines_nl code) in
  if line_count >? max_file_lines cfg
  then [new_Issue "large_file" LOW file_path 1 0
          ("File has " +:+ PyStr.str_of_Z line_count +:+ " lines (max: "
           +:+ PyStr.str_of_Z (max_file_lines cfg) +:+ ")")
          ""
          "Consider splitting this file into multiple modules"
          "complexity/large-file"
          [("lines", VInt line_count)]]
  else [].

(** The body of [analyze] once a tree is at hand. *)
Definition analyze_tree (cfg : Config) (code file_path : string)
    (tree : ast) : list Issue :=
  flat_map
    (fun node =>
       if is_function node then _analyze_function cfg node code file_path
       else if is_class node then _analyze_class node code file_path
       else [])
    (walk tree)
  ++ _check_line_lengths cfg code file_path
  ++ _check_file_length cfg code file_path.

(** [ComplexityAnalyzer.analyze]. *)
Definition analyze (ast_parse : tree_provider) (cfg : Config)
    (code file_path : string) (tree : option ast) : result (list Issue) :=
  match tree with
  | Some tree => Ok (analyze_tree cfg code file_path tree)
  | None =>
      match parse_code ast_parse code with
      | Raise e => Raise e
      | Ok None => Ok []
      | Ok (Some tree) => Ok (analyze_tree cfg code file_path tree)
      end
  end.

End Complexity.

(** ** The fragment of Python's [re] used by the security analyzer

    Patterns are sequences of single-character atoms under the greedy
    quantifiers [*], [+] and [{n}], capture groups and back-references;
    matching is by backtracking, the longest repetition first. *)

Module Re.

Inductive atom : Type :=
| Lit (c : ascii)              (* a literal character *)
| OneOf (chars : list ascii)   (* [...] *)
| NoneOf (chars : list ascii)  (* [^...] *)
| Space.                       (* \s *)

#[warnings="-register-all"]
Inductive re : Type :=
| Atom (a : atom)
| Star (a : atom)
| Plus (a : atom)
| Repeat (n : nat) (a : atom)
| Group (idx : nat) (body : list re)
| Backref (idx : nat).

Definition pattern : Type := list re.
Definition groups : Type := list (nat * string).

Definition mem (c : ascii) (chars : list ascii) : bool :=
  existsb (Ascii.eqb c) chars.

(** With [re.IGNORECASE] a literal matches either case. *)
Definition atom_matches (ignorecase : bool) (a : atom) (c : ascii) : bool :=
  match a with
  | Lit c' =>
      if ignorecase
      then Ascii.eqb (PyStr.lower_char c) (PyStr.lower_char c')
      else Ascii.eqb c c'
  | OneOf chars => mem c chars
  | NoneOf chars => negb (mem c chars)
  | Space => PyStr.isspace c
  end.

Fixpoint lookup (idx : nat) (g : groups) : option string :=
  match g with
  | [] => None
  | (i, text) :: g' => if Nat.eqb i idx then Some text else lookup idx g'
  end.

(** The text consumed between the input [s] and its suffix [rest]. *)
Definition consumed (s rest : string) : string :=
  String.substring 0 (String.length s - String.length rest) s.

Fixpoint drop (n : nat) (s : string) : string :=
  match n, s with
  | O, _ => s
  | S n', String _ s' => drop n' s'
  | S _, EmptyString => EmptyString
  end.

Section Matcher.
Context {R : Type}.
Variable ignorecase : bool.

Definition cont : Type := string -> groups -> option R.

(** [a*]: take one more character when possible, and give that up when
    the rest of the pattern fails. *)
Fixpoint star (a : atom) (s : string) (g : groups) (k : cont) : option R :=
  match s with
  | String c s' =>
      if atom_matches ignorecase a c then
        match star a s' g k with
        | Some r => Some r
        | None => k s g
        end
      else k s g
  | EmptyString => k s g
  end.

Fixpoint repeat (n : nat) (a : atom) (s : string) (g : groups) (k : cont)
    : option R :=
  match n with
  | O => k s g
  | S n' =>
      match s with
      | String c s' =>
          if atom_matches ignorecase a c then repeat n' a s' g k else None
      | EmptyString => None
      end
  end.

Fixpoint step (r : re) (s : string) (g : groups) (k : cont) {struct r}
    : option R :=
  match r with
  | Atom a =>
      match s with
      | String c s' => if atom_matches ignorecase a c then k s' g else None
      | EmptyString => None
      end
  | Star a => star a s g k
  | Plus a =>
      match s with
      | String c s' =>
          if atom_matches ignorecase a c then star a s' g k else None
      | EmptyString => None
      end
  | Repeat n a => repeat n a s g k
  | Group idx body =>
      (fix seq (rs : list re) (s1 : string) (g1 : groups) (k1 : cont)
           {struct rs} : option R :=
         match rs with
         | [] => k1 s1 g1
         | r' :: rs' => step r' s1 g1 (fun s2 g2 => seq rs' s2 g2 k1)
         end)
        body s g (fun s' g' => k s' ((idx, consumed s s') :: g'))
  | Backref idx =>
      match lookup idx g with
      | Some text =>
          if String.prefix text s then k (drop (String.length text) s) g
          else None
      | None => None
      end
  end.

Fixpoint seq (rs : pattern) (s : string) (g : groups) (k : cont)
    : option R :=
  match rs with
  | [] => k s g
  | r :: rs' => step r s g (fun s' g' => seq rs' s' g' k)
  end.

End Matcher.

(** A match of [p] anchored at the start of [s]: the unread rest and the
    groups. *)
Definition match_at (ignorecase : bool) (p : pattern) (s : string)
    : option (string * groups) :=
  seq ignorecase p s [] (fun rest g => Some (rest, g)).

(** [re.search(p, s) is not None]. *)
Fixpoint search (ignorecase : bool) (p : pattern) (s : string) : bool :=
  match match_at ignorecase p s with
  | Some _ => true
  | None =>
      match s with
      | String _ s' => search ignorecase p s'
      | EmptyString => false
      end
  end.

(** A replacement template: literal text and [\n] group references. *)
Inductive tpl_item : Type :=
| TLit (text : string)
| TGroup (idx : nat).

Fixpoint expand (tpl : list tpl_item) (g : groups) : string :=
  match tpl with
  | [] => EmptyString
  | TLit text :: tpl' => text +:+ expand tpl' g
  | TGroup idx :: tpl' =>
      (match lookup idx g with Some t => t | None => EmptyString end
       +:+ expand tpl' g)
  end.

(** [re.sub(p, tpl, s)]: the leftmost match is replaced and the scan
    resumes after it; [skip] counts the characters of the current match
    still to pass over. *)
Fixpoint sub_loop (ignorecase : bool) (p : pattern) (tpl : list tpl_item)
    (s : string) (skip : nat) {struct s} : string :=
  match skip with
  | S skip' =>
      match s with
      | String _ s' => sub_loop ignorecase p tpl s' skip'
      | EmptyString => EmptyString
      end
  | O =>
      match match_at ignorecase p s with
      | Some (rest, g) =>
          let n := (String.length s - String.length rest)%nat in
          (expand tpl g
           +:+ match s with
              | String c s' =>
                  match n with
                  | O => String c (sub_loop ignorecase p tpl s' 0)
                  | S n' => sub_loop ignorecase p tpl s' n'
                  end
              | EmptyString => EmptyString
              end)
      | None =>
          match s with
          | String c s' => String c (sub_loop ignorecase p tpl s' 0)
          | EmptyString => EmptyString
          end
      end
  end.

Definition sub (ignorecase : bool) (p : pattern) (tpl : list tpl_item)
    (s : string) : string :=
  sub_loop ignorecase p tpl s 0.

(** A run of literal characters. *)
Definition lits (s : string) : pattern :=
  map (fun c => Atom (Lit c)) (list_ascii_of_string s).

End Re.

(** ** paila/analyzers/security.py: hard-coded secrets *)

Module Security.
Import Ast Models Config.

Definition dquote : ascii := ascii_of_nat 34.
Definition squote : ascii := ascii_of_nat 39.
Definition quotes : list ascii := [dquote; squote].

(** The shape of every entry of [SECRET_PATTERNS]: the keyword, then
    [\s*=\s*], then [Q], [NQ+], [Q], where [Q] is the class of the two
    quote characters and [NQ] its complement. *)
Definition secret_pattern (kw : string) : Re.pattern :=
  (Re.lits kw
   ++ [Re.Star Re.Space; Re.Atom (Re.Lit "="); Re.Star Re.Space;
       Re.Atom (Re.OneOf quotes); Re.Plus (Re.NoneOf quotes);
       Re.Atom (Re.OneOf quotes)])%list.

Definition SECRET_PATTERNS : list (Re.pattern * string) :=
  [(secret_pattern "password", "hardcoded password");
   (secret_pattern "passwd", "hardcoded password");
   (secret_pattern "pwd", "hardcoded password");
   (secret_pattern "secret", "hardcoded secret");
   (secret_pattern "api_key", "hardcoded API key");
   (secret_pattern "apikey", "hardcoded API key");
   (secret_pattern "token", "hardcoded token");
   (secret_pattern "auth_token", "hardcoded auth token");
   (secret_pattern "access_key", "hardcoded access key");
   (secret_pattern "private_key", "hardcoded private key")].

(** The pattern of [_mask_secret], with [Q] and [NQ] as above:
    [(Q)(NQ{4})NQ*(NQ{2})\1]. *)
Definition mask_pattern : Re.pattern :=
  [Re.Group 1 [Re.Atom (Re.OneOf quotes)];
   Re.Group 2 [Re.Repeat 4 (Re.NoneOf quotes)];
   Re.Star (Re.NoneOf quotes);
   Re.Group 3 [Re.Repeat 2 (Re.NoneOf quotes)];
   Re.Backref 1].

(** The replacement [\1\2****\3\1]. *)
Definition mask_template : list Re.tpl_item :=
  [Re.TGroup 1; Re.TGroup 2; Re.TLit "****"; Re.TGroup 3; Re.TGroup 1].

Definition _mask_secret (line : string) : string :=
  Re.sub false mask_pattern mask_template line.

Definition is_quote (c : ascii) : bool := Re.mem c quotes.

(** A text without any quote character. *)
Definition no_quote (s : string) : Prop :=
  PyStr.all_chars (fun c => negb (is_quote c)) s = true.

(** A text that is over, or goes on with a quote character. *)
Definition at_quote (s : string) : Prop :=
  match s with
  | EmptyString => True
  | String c _ => is_quote c = true
  end.

(** What is left of [mask_pattern] after its star: two more characters
    as group 3, then group 1 again. *)
Definition tail_k {R : Type} (k : @Re.cont R) : @Re.cont R :=
  fun s g =>
    Re.step false (Re.Group 3 [Re.Repeat 2 (Re.NoneOf quotes)]) s g
      (fun s' g' => Re.step false (Re.Backref 1) s' g' k).


Definition final : @Re.cont (string * Re.groups) :=
  fun rest g => Some (rest, g).

Definition placeholders : list string :=
  ["example"; "xxx"; "your_"; "changeme"; "placeholder"; "<"; ">"].

Definition hardcoded_secret_issue (file_path : string) (i : Z)
    (line description : string) : Issue :=
  new_Issue "hardcoded_secret" HIGH file_path i 0
    ("Potential " +:+ description +:+ " found")
    (_mask_secret (PyStr.strip line))
    "Use environment variables or a secrets manager instead of hardcoding secrets"
    "security/hardcoded-secret"
    [("secret_type", VStr description)].

(** The inner loop over [SECRET_PATTERNS] for one line: [continue] on a
    placeholder, [break] after the first issue. *)
Fixpoint scan_patterns (pats : list (Re.pattern * string))
    (file_path : string) (i : Z) (line : string) : list Issue :=
  match pats with
  | [] => []
  | (pattern, description) :: pats' =>
      if Re.search true pattern line then
        if existsb (fun placeholder =>
                      PyStr.contains placeholder (PyStr.lower line))
             placeholders
        then scan_patterns pats' file_path i line
        else [hardcoded_secret_issue file_path i line description]
      else scan_patterns pats' file_path i line
  end.

Definition _check_hardcoded_secrets (code file_path : string)
    : list Issue :=
  flat_map
    (fun '(i, line) =>
       if PyStr.startswith (PyStr.strip line) "#" then []
       else scan_patterns SECRET_PATTERNS file_path i line)
    (Complexity.enumerate 1 (PyStr.splitlines_nl code)).

(** The tree-based detectors ([_check_sql_injection],
    [_check_command_injection] before the secrets scan;
    [_check_dangerous_functions], [_check_insecure_hash],
    [_check_pickle_usage], [_check_insecure_random],
    [_check_path_traversal] after it) are taken as given. *)
Record tree_checks : Type := mkTreeChecks {
  checks_before : string -> string -> ast -> result (list Issue);
  checks_after : string -> string -> ast -> result (list Issue)
}.

Definition analyze_tree (tc : tree_checks) (code file_path : string)
    (tree : ast) : result (list Issue) :=
  match checks_before tc code file_path tree with
  | Raise e => Raise e
  | Ok before =>
      match checks_after tc code file_path tree with
      | Raise e => Raise e
      | Ok after =>
          Ok (before ++ _check_hardcoded_secrets code file_path ++ after)%list
      end
  end.

(** [SecurityAnalyzer.analyze]. *)
Definition analyze (ast_parse : tree_provider) (tc : tree_checks)
    (code file_path : string) (tree : option ast) : result (list Issue) :=
  match tree with
  | Some tree => analyze_tree tc code file_path tree
  | None =>
      match parse_code ast_parse code with
      | Raise e => Raise e
      | Ok None => Ok []
      | Ok (Some tree) => analyze_tree tc code file_path tree
      end
  end.

End Security.

(** ** paila/analyzers/smells.py

    Only the entry point matters to the orchestrator: the ten detectors run
    on a tree, and without one the result is empty. *)

Module Smells.
Import Ast Models.

Definition analyze (ast_parse : tree_provider)
    (detectors : string -> string -> ast -> result (list Issue))
    (code file_path : string) (tree : option ast) : result (list Issue) :=
  match tree with
  | Some tree => detectors code file_path tree
  | None =>
      match parse_code ast_parse code with
      | Raise e => Raise e
      | Ok None => Ok []
      | Ok (Some tree) => detectors code file_path tree
      end
  end.

End Smells.

(** ** paila/rules/base.py *)

Module Rules.
Import Ast Models.

Definition checker_fn : Type :=
  string -> string -> option ast -> result (list Issue).

Record Rule : Type := mkRule {
  id : string;
  name : string;
  description : string;
  severity : Severity;
  category : string;
  checker : checker_fn;
  enabled : bool;
  config : list (string * pyvalue);
  tags : list string
}.

(** [Rule.check]. *)
Definition check (r : Rule) (code file_path : string) (tree : option ast)
    : result (list Issue) :=
  if negb (enabled r) then Ok []
  else checker r code file_path tree.

(** [RuleSet._rules] is a dict from id to rule; iteration follows
    insertion order, so it is kept as an association list with distinct
    keys. *)
Record RuleSet : Type := mkRuleSet {
  rs_name : string;
  _rules : list (string * Rule)
}.

Definition empty (name : string) : RuleSet :=
  {| rs_name := name; _rules := [] |}.

(** [d[k] = v]: an existing key keeps its place. *)
Fixpoint dict_set (d : list (string * Rule)) (k : string) (v : Rule)
    : list (string * Rule) :=
  match d with
  | [] => [(k, v)]
  | (k', v') :: d' =>
      if String.eqb k' k then (k', v) :: d' else (k', v') :: dict_set d' k v
  end.

Definition set_enabled (b : bool) (r : Rule) : Rule :=
  {| id := id r; name := name r; description := description r;
     severity := severity r; category := category r; checker := checker r;
     enabled := b; config := config r; tags := tags r |}.

Definition add (rs : RuleSet) (rule : Rule) : RuleSet :=
  {| rs_name := rs_name rs; _rules := dict_set (_rules rs) (id rule) rule |}.

Definition remove (rs : RuleSet) (rule_id : string) : RuleSet :=
  {| rs_name := rs_name rs;
     _rules := List.filter (fun kv => negb (String.eqb (fst kv) rule_id))
                 (_rules rs) |}.

Definition update_enabled (b : bool) (rs : RuleSet) (rule_id : string)
    : RuleSet :=
  {| rs_name := rs_name rs;
     _rules := map (fun kv => if String.eqb (fst kv) rule_id
                              then (fst kv, set_enabled b (snd kv)) else kv)
                 (_rules rs) |}.

Definition enable : RuleSet -> string -> RuleSet := update_enabled true.
Definition disable : RuleSet -> string -> RuleSet := update_enabled false.

Definition rules (rs : RuleSet) : list Rule := map snd (_rules rs).

Definition enabled_rules (rs : RuleSet) : list Rule :=
  List.filter enabled (rules rs).

(** [check_all]: the handler of the [try] is [pass]. *)
Definition check_all (rs : RuleSet) (code file_path : string)
    (tree : option ast) : list Issue :=
  fold_left
    (fun issues rule =>
       match check rule code file_path tree with
       | Ok rule_issues => issues ++ rule_issues
       | Raise _ => issues
       end)
    (enabled_rules rs) [].

(** [d.get(k)]. *)
Fixpoint dict_lookup (d : list (string * Rule)) (k : string) : option Rule :=
  match d with
  | [] => None
  | (k', v) :: d' => if String.eqb k' k then Some v else dict_lookup d' k
  end.

(** [RuleSet.get]. *)
Definition get (rs : RuleSet) (rule_id : string) : option Rule :=
  dict_lookup (_rules rs) rule_id.

(** [len(rule_set)]. *)
Definition len (rs : RuleSet) : Z := Z.of_nat (length (_rules rs)).

(** [by_category] and [by_severity]. *)
Definition by_category (rs : RuleSet) (cat : string) : list Rule :=
  List.filter (fun r => String.eqb (category r) cat) (rules rs).

Definition by_severity (rs : RuleSet) (sev : Severity) : list Rule :=
  List.filter (fun r => Severity_eqb (severity r) sev) (rules rs).

End Rules.

(** ** Paths and the file system

    A path is the string [str(path)] of a normalised [pathlib.Path].  The file
    system and the glob matcher of [pathlib] are external. *)

Module Path.

Definition slash : ascii := ascii_of_nat 47.
Definition dot : ascii := ascii_of_nat 46.

Definition parts (path : string) : list string := PyStr.split slash path.

(** [path.name]: the last component. *)
Definition name (path : string) : string := List.last (parts path) EmptyString.

(** [path.suffix]: from the last dot of the name on, unless that dot is
    the first or the last character of the name. *)
Definition suffix (path : string) : string :=
  let name := name path in
  let ext := List.last (PyStr.split dot name) EmptyString in
  if ((1 + String.length ext <? String.length name)%nat
      && (0 <? String.length ext)%nat)
  then String dot ext else EmptyString.

(** The order of [Path.__lt__]: component by component, each by code
    points. *)
Fixpoint parts_leb (a b : list string) : bool :=
  match a, b with
  | [], _ => true
  | _ :: _, [] => false
  | x :: a', y :: b' =>
      match String.compare x y with
      | Lt => true
      | Gt => false
      | Eq => parts_leb a' b'
      end
  end.

Definition leb (p q : string) : bool := parts_leb (parts p) (parts q).

Fixpoint insert (p : string) (l : list string) : list string :=
  match l with
  | [] => [p]
  | q :: l' => if leb p q then p :: l else q :: insert p l'
  end.

(** [sorted(files)]. *)
Fixpoint sorted (l : list string) : list string :=
  match l with
  | [] => []
  | p :: l' => insert p (sorted l')
  end.

Record FileSystem : Type := mkFileSystem {
  (** [path.exists()] *)
  fs_exists : string -> bool;
  (** [path.is_dir()] *)
  fs_is_dir : string -> bool;
  (** [path.read_text(encoding=...)] *)
  fs_read_text : string -> string -> result string;
  (** [list(directory.glob(pattern))] *)
  fs_glob : string -> string -> list string
}.

End Path.

(** ** Floats

    A [float] is the rational it denotes.  [fl] rounds a rational to the
    nearest binary64 value, ties to the even significand, subnormals
    included; the values met here (averages of complexities) stay far below
    the overflow threshold, which is not modelled. *)

Module Float64.

(** [floor(log2(n/d))] for positive [n] and [d]. *)
Definition ilog2 (n d : Z) : Z :=
  let c := Z.log2 n - Z.log2 d in
  if 0 <=? c
  then (if d * 2 ^ c <=? n then c else c - 1)
  else (if d <=? n * 2 ^ (- c) then c else c - 1).

(** The integer nearest to [num/den], ties to even, for positive [den]. *)
Definition round_half_even (num den : Z) : Z :=
  let f := num / den in
  let r := num mod den in
  if 2 * r <? den then f
  else if den <? 2 * r then f + 1
  else if Z.even f then f else f + 1.

Definition fl_pos (n d : Z) : Q :=
  let e := Z.max (ilog2 n d - 52) (-1074) in
  if 0 <=? e
  then inject_Z (round_half_even n (d * 2 ^ e) * 2 ^ e)
  else Qred (Qmake (round_half_even (n * 2 ^ (- e)) d) (Z.to_pos (2 ^ (- e)))).

Definition fl (x : Q) : Q :=
  match Qnum x with
  | Z0 => 0%Q
  | Zpos _ => fl_pos (Qnum x) (Zpos (Qden x))
  | Zneg _ => Qopp (fl_pos (- Qnum x) (Zpos (Qden x)))
  end.

(** [a / b] on numbers: the quotient correctly rounded. *)
Definition div (a b : Q) : Q := fl (a / b)%Q.

(** [sum(values)] over floats: the additions from left to right, each
    one rounded (the built-in of CPython up to 3.11; later versions
    compensate the rounding errors). *)
Definition sum (values : list Q) : Q :=
  fold_left (fun acc x => fl (acc + x)%Q) values 0%Q.

(** [round(x, 2)] on a float: the hundredth nearest to the value of [x],
    ties to even, as a float again. *)
Definition round2 (x : Q) : Q :=
  fl (Qred (Qmake (round_half_even (Qnum x * 100) (Zpos (Qden x))) 100)).

End Float64.

(** ** paila/reviewer.py *)

Module Reviewer.
Import Ast Models Config.

(** A [BaseAnalyzer]: its name and its [analyze] method. *)
Record Analyzer : Type := mkAnalyzer {
  name : string;
  analyze : string -> string -> option ast -> result (list Issue)
}.

(** [round(x, 2)]. *)
Definition round2 (x : Q) : Q := Float64.round2 x.

Definition sumZ (l : list Z) : Z := fold_right Z.add 0 l.
Definition sumQ (l : list Q) : Q := Float64.sum l.

(** [max(values)] of a non-empty list. *)
Definition maxZ (l : list Z) : Z :=
  match l with
  | [] => 0
  | x :: l' => fold_left Z.max l' x
  end.

(** One iteration of the loop of [_calculate_function_complexity]. *)
Definition complexity_step (complexity : Z) (child : ast) : Z :=
  if has_class If child || has_class IfExp child then complexity + 1
  else if has_class For child || has_class AsyncFor child
          || has_class While child then complexity + 1
  else if has_class ExceptHandler child then complexity + 1
  else if has_class With child || has_class AsyncWith child then complexity + 1
  else match child with
       | BoolOp values => complexity + (Complexity.lenZ values - 1)
       | comprehension _ _ ifs => complexity + Complexity.lenZ ifs
       | _ => complexity
       end.

Definition _calculate_function_complexity (node : ast) : Z :=
  fold_left complexity_step (walk node) 1.

Definition count {A : Type} (f : A -> bool) (l : list A) : Z :=
  Complexity.lenZ (List.filter f l).

Definition is_blank (line : string) : bool :=
  String.eqb (PyStr.strip line) EmptyString.

Definition is_comment (line : string) : bool :=
  PyStr.startswith (PyStr.strip line) "#".

(** The complexities collected by the walk of [_calculate_metrics], in
    walk order. *)
Definition complexity_values (tree : option ast) : list Z :=
  match tree with
  | Some tree =>
      map _calculate_function_complexity
        (List.filter is_function (walk tree))
  | None => []
  end.

Definition _calculate_metrics (code : string) (tree : option ast) : Metrics :=
  let lines := PyStr.splitlines_nl code in
  let total_lines := Complexity.lenZ lines in
  let blank_lines := count is_blank lines in
  let comment_lines := count is_comment lines in
  let code_lines := total_lines - blank_lines - comment_lines in
  let functions :=
    match tree with
    | Some tree => count is_function (walk tree)
    | None => 0
    end in
  let classes :=
    match tree with
    | Some tree =>
        count (fun node => negb (is_function node) && is_class node) (walk tree)
    | None => 0
    end in
  let complexity_values := complexity_values tree in
  let avg_complexity :=
    match complexity_values with
    | [] => 0%Q
    | _ => Float64.div (inject_Z (sumZ complexity_values))
             (inject_Z (Complexity.lenZ complexity_values))
    end in
  let max_complexity := maxZ complexity_values in
  {| lines_of_code := code_lines;
     total_lines := total_lines;
     blank_lines := blank_lines;
     comment_lines := comment_lines;
     functions := functions;
     classes := classes;
     avg_complexity := round2 avg_complexity;
     Models.max_complexity := max_complexity;
     maintainability_index := 100%Q;
     comment_ratio := 0%Q;
     duplication_ratio := 0%Q |}.

(** The dict [severity_order] of [_filter_by_severity].  Its keys are
    [Severity] members, which are looked up by their string value. *)
Definition severity_order : list (string * Z) :=
  [(Severity_value CRITICAL, 0); (Severity_value HIGH, 1);
   (Severity_value MEDIUM, 2); (Severity_value LOW, 3);
   (Severity_value INFO, 4)].

Definition severity_level (key : string) : Z :=
  dict_get String.eqb severity_order key 4.

Definition _filter_by_severity (cfg : Config) (issues : list Issue)
    : list Issue :=
  let min_level := severity_level (min_severity cfg) in
  List.filter
    (fun issue =>
       severity_level (Severity_value (severity issue)) <=? min_level)
    issues.

Section WithEnvironment.
Variable ast_parse : tree_provider.
Variable security_checks : Security.tree_checks.
Variable smell_detectors : string -> string -> ast -> result (list Issue).
Variable path_match : string -> string -> bool.
Variable fs : Path.FileSystem.

(** [analyzer_map], in the order of the dict literal. *)
Definition analyzer_map (cfg : Config) : list (string * Analyzer) :=
  [("complexity",
    mkAnalyzer "complexity" (Complexity.analyze ast_parse cfg));
   ("security",
    mkAnalyzer "security" (Security.analyze ast_parse security_checks));
   ("smells",
    mkAnalyzer "smells" (Smells.analyze ast_parse smell_detectors))].

Definition _setup_analyzers (cfg : Config) (custom_analyzers : list Analyzer)
    : list Analyzer :=
  map snd
    (List.filter (fun entry => Config.str_in (fst entry) (analyzers cfg))
       (analyzer_map cfg))
  ++ custom_analyzers.

Record Reviewer : Type := mkReviewer {
  config : Config;
  _analyzers : list Analyzer
}.

(** [Reviewer(config, custom_analyzers)]. *)
Definition new (cfg : Config) (custom_analyzers : list Analyzer) : Reviewer :=
  {| config := cfg; _analyzers := _setup_analyzers cfg custom_analyzers |}.

Definition _parse_code (code : string) : result (option ast) :=
  parse_code ast_parse code.

(** The analyzer loop of [review_code]: a failing analyzer is skipped
    (with a warning on standard output when [verbose] is set, which
    leaves the result untouched). *)
Definition run_analyzers (rv : Reviewer) (code file_path : string)
    (tree : option ast) : list Issue :=
  fold_left
    (fun issues analyzer =>
       match analyze analyzer code file_path tree with
       | Ok analyzer_issues =>
           issues ++ _filter_by_severity (config rv) analyzer_issues
       | Raise _ => issues
       end)
    (_analyzers rv) [].

Definition review_code (rv : Reviewer) (code file_path : string)
    : result FileResult :=
  match _parse_code code with
  | Raise e => Raise e
  | Ok tree =>
      let issues := run_analyzers rv code file_path tree in
      let metrics := _calculate_metrics code tree in
      Ok {| fr_file := file_path; issues := issues;
            metrics := Some metrics; skipped := false; error := None |}
  end.

Definition _should_analyze_file (rv : Reviewer) (path : string) : bool :=
  let suffix := PyStr.lower (Path.suffix path) in
  if negb (Config.str_in suffix [".py"; ".pyi"]) then false
  else if existsb (fun pattern => PyStr.contains pattern path)
            (ignore_paths (config rv)) then false
  else if existsb (fun pattern => path_match path pattern)
            (ignore_files (config rv)) then false
  else true.

(** [path.read_text] with the Latin-1 fallback of [review_file]. *)
Definition read_source (path : string) : result string :=
  match Path.fs_read_text fs path "utf-8" with
  | Raise e =>
      if is_UnicodeDecodeError e then Path.fs_read_text fs path "latin-1"
      else Raise e
  | Ok code => Ok code
  end.

Definition skipped_result (path : string) : FileResult :=
  {| fr_file := path; issues := []; metrics := Some Metrics_default;
     skipped := true; error := None |}.

Definition review_file (rv : Reviewer) (path : string) : result FileResult :=
  if negb (Path.fs_exists fs path)
  then Raise (FileNotFoundError ("File not found: " +:+ path))
  else if negb (_should_analyze_file rv path)
  then Ok (skipped_result path)
  else match read_source path with
       | Raise e => Raise e
       | Ok code => review_code rv code path
       end.

Definition _collect_files (rv : Reviewer) (directory : string)
    (recursive : bool) : list string :=
  let pattern := if recursive then "**/*.py" else "*.py" in
  Path.sorted
    (List.filter (_should_analyze_file rv)
       (Path.fs_glob fs directory pattern)).

(** What one file adds to the list of results. *)
Definition outcome (rv : Reviewer) (path : string) : list FileResult :=
  match review_file rv path with
  | Ok result => [result]
  | Raise _ => []
  end.

(** The loop shared by both ways of processing: results are appended in
    the order in which the files are taken, and a file whose review
    raises is left out. *)
Definition collect_results (rv : Reviewer) (files : list string)
    : list FileResult :=
  fold_left
    (fun results file_path =>
       match review_file rv file_path with
       | Ok result => results ++ [result]
       | Raise _ => results
       end)
    files [].

Definition _process_sequential (rv : Reviewer) (files : list string)
    : list FileResult :=
  collect_results rv files.

(** [_process_parallel]: [ThreadPoolExecutor] refuses a non-positive
    [max_workers]; [as_completed] yields the futures in the order
    [completion], some rearrangement of the submitted files. *)
Definition _process_parallel (rv : Reviewer) (files : list string)
    (max_workers : Z) (completion : list string)
    : result (list FileResult) :=
  if max_workers <=? 0 then Raise (OtherException "ValueError")
  else Ok (collect_results rv completion).

Definition bump (key : string) (d : gmap string Z) : gmap string Z :=
  <[key := default 0 (d !! key) + 1]> d.

(** The non-skipped results, in list order. *)
Definition reviewed (file_results : list FileResult) : list FileResult :=
  List.filter (fun result => negb (skipped result)) file_results.

Definition all_issues (file_results : list FileResult) : list Issue :=
  flat_map issues (reviewed file_results).

Definition aggregate_metrics (file_results : list FileResult) : Metrics :=
  let ms := omap metrics (reviewed file_results) in
  let complexity_values :=
    List.filter (fun q => negb (Qle_bool q 0)) (map avg_complexity ms) in
  let avg_complexity :=
    match complexity_values with
    | [] => 0%Q
    | _ => Float64.div (sumQ complexity_values)
             (inject_Z (Complexity.lenZ complexity_values))
    end in
  {| lines_of_code := sumZ (map lines_of_code ms);
     total_lines := sumZ (map total_lines ms);
     blank_lines := 0;
     comment_lines := 0;
     functions := sumZ (map functions ms);
     classes := sumZ (map classes ms);
     avg_complexity := round2 avg_complexity;
     Models.max_complexity := 0;
     maintainability_index := 100%Q;
     comment_ratio := 0%Q;
     duplication_ratio := 0%Q |}.

(** [_aggregate_results].  [timestamp] and [duration_seconds] of the
    result are wall-clock values and are not part of the model. *)
Definition _aggregate_results (file_results : list FileResult)
    : ReviewResult :=
  let all_issues := all_issues file_results in
  let issues_by_file :=
    fold_left
      (fun d result => <[fr_file result := issues result]> d)
      (reviewed file_results) (∅ : gmap string (list Issue)) in
  let issues_by_severity :=
    fold_left (fun d issue => bump (Severity_value (severity issue)) d)
      all_issues (∅ : gmap string Z) in
  let issues_by_type :=
    fold_left (fun d issue => bump (type issue) d)
      all_issues (∅ : gmap string Z) in
  {| files := file_results;
     total_issues := Complexity.lenZ all_issues;
     issues_by_severity := issues_by_severity;
     issues_by_type := issues_by_type;
     issues_by_file := issues_by_file;
     rr_metrics := Some (aggregate_metrics file_results) |}.

Definition empty_result : ReviewResult :=
  {| files := []; total_issues := 0; issues_by_severity := ∅;
     issues_by_type := ∅; issues_by_file := ∅; rr_metrics := None |}.

Definition review_directory (rv : Reviewer) (directory : string)
    (recursive parallel : bool) (max_workers : Z)
    (completion : list string) : result ReviewResult :=
  if negb (Path.fs_exists fs directory)
  then Raise (NotADirectoryError ("Directory not found: " +:+ directory))
  else if negb (Path.fs_is_dir fs directory)
  then Raise (NotADirectoryError ("Not a directory: " +:+ directory))
  else
    let files := _collect_files rv directory recursive in
    match files with
    | [] => Ok empty_result
    | _ =>
        if parallel && (1 <? Complexity.lenZ files)
        then match _process_parallel rv files max_workers completion with
             | Raise e => Raise e
             | Ok file_results => Ok (_aggregate_results file_results)
             end
        else Ok (_aggregate_results (_process_sequential rv files))
    end.

(** The property [Reviewer.analyzers]: the names of the active analyzers. *)
Definition analyzers (rv : Reviewer) : list string :=
  map name (_analyzers rv).

End WithEnvironment.

End Reviewer.

(** ** paila/analyzers/complexity.py: [calculate_metrics] *)

Module ComplexityMetrics.
Import Ast.

(** The dict returned by [calculate_metrics]: the error entry when there
    is no tree, the eight counters otherwise. *)
Inductive metrics_report : Type :=
| MetricsError (message : string)
| MetricsReport (total_lines code_lines blank_lines comment_lines
                 functions classes : Z) (avg_complexity : Q)
                (max_complexity : Z).

(** [ComplexityAnalyzer.calculate_metrics]. *)
Definition calculate_metrics (ast_parse : tree_provider)
    (code : string) (tree : option ast) : result metrics_report :=
  let with_tree (tree : ast) : metrics_report :=
    let complexities :=
      map Complexity._calculate_complexity (List.filter is_function (walk tree)) in
    let function_count := Complexity.lenZ (List.filter is_function (walk tree)) in
    let class_count :=
      Complexity.lenZ (List.filter (fun n => negb (is_function n) && is_class n)
              (walk tree)) in
    let avg_complexity :=
      match complexities with
      | [] => 0%Q
      | _ => Float64.div (inject_Z (Reviewer.sumZ complexities))
               (inject_Z (Complexity.lenZ complexities))
      end in
    let max_complexity :=
      match complexities with
      | [] => 0
      | _ => Reviewer.maxZ complexities
      end in
    let lines := PyStr.splitlines_nl code in
    let blank_lines :=
      Complexity.lenZ (List.filter
              (fun line => String.eqb (PyStr.strip line) EmptyString) lines) in
    let comment_lines :=
      Complexity.lenZ (List.filter
              (fun line => PyStr.startswith (PyStr.strip line) "#") lines) in
    let code_lines := Complexity.lenZ lines - blank_lines - comment_lines in
    MetricsReport (Complexity.lenZ lines) code_lines blank_lines comment_lines
      function_count class_count (Reviewer.round2 avg_complexity) max_complexity in
  match tree with
  | Some tree => Ok (with_tree tree)
  | None =>
      match parse_code ast_parse code with
      | Raise e => Raise e
      | Ok None => Ok (MetricsError "Could not parse code")
      | Ok (Some tree) => Ok (with_tree tree)
      end
  end.

End ComplexityMetrics.

(** ** The specification's own words

    Definitions that follow the prose of the specification rather than
    the code, to be compared with the embedded functions. *)

Module Spec.
Import Ast Models.

(** Severity weights: critical 15, high 10, medium 5, low 2, info 0. *)
Definition weight (s : Severity) : Z :=
  match s with
  | CRITICAL => 15 | HIGH => 10 | MEDIUM => 5 | LOW => 2 | INFO => 0
  end.

Definition deductions (l : list Issue) : Z :=
  Reviewer.sumZ (map (fun i => weight (severity i)) l).

(** Urgency: critical > high > medium > low > info. *)
Definition urgency (s : Severity) : Z :=
  match s with
  | CRITICAL => 4 | HIGH => 3 | MEDIUM => 2 | LOW => 1 | INFO => 0
  end.

Definition at_least (min s : Severity) : bool := urgency min <=? urgency s.

(** Decision points contributed by one node: conditionals, loops,
    exception handlers, context-block entries, one per additional
    operand of a boolean chain, one per comprehension filter, one per
    assertion. *)
Definition decision_points (n : ast) : Z :=
  match n with
  | Node If _ | Node IfExp _ => 1
  | Node For _ | Node AsyncFor _ | Node While _ => 1
  | Node ExceptHandler _ => 1
  | Node With _ | Node AsyncWith _ => 1
  | Node Assert _ => 1
  | BoolOp values => Z.of_nat (length values) - 1
  | comprehension _ _ ifs => Z.of_nat (length ifs)
  | _ => 0
  end.

(** The sum of [f] over a node and everything below it, by structural
    descent. *)
Fixpoint total (f : ast -> Z) (n : ast) : Z :=
  f n
  + match n with
    | Node _ children => Reviewer.sumZ (map (total f) children)
    | BoolOp values => f (Node Other []) + Reviewer.sumZ (map (total f) values)
    | comprehension target iter ifs =>
        total f target + (total f iter + Reviewer.sumZ (map (total f) ifs))
    | Constant _ => 0
    | Expr value _ _ => total f value
    | FunctionDef _ _ _ args_exprs body decorator_list returns _ _ _ =>
        (f (Node Other args_exprs) + Reviewer.sumZ (map (total f) args_exprs))
        + (Reviewer.sumZ (map (total f) body)
           + (Reviewer.sumZ (map (total f) decorator_list)
              + match returns with Some r => total f r | None => 0 end))
    | ClassDef _ bases keywords body decorator_list _ _ =>
        Reviewer.sumZ (map (total f) bases)
        + (Reviewer.sumZ (map (total f) keywords)
           + (Reviewer.sumZ (map (total f) body)
              + Reviewer.sumZ (map (total f) decorator_list)))
    end.

(** Cyclomatic complexity: one plus the decision points of the function. *)
Definition cyclomatic (fn : ast) : Z := 1 + total decision_points fn.

Definition is_assert (n : ast) : Z :=
  match n with Node Assert _ => 1 | _ => 0 end.

(** One for a variadic marker that is present. *)
Definition marker {A : Type} (o : option A) : Z :=
  match o with Some _ => 1 | None => 0 end.

Definition is_too_many_params (i : Issue) : Prop := type i = "too_many_params".

(** Every parameter that can be passed by position counts as
    positional: those before the [/] marker and the ordinary ones. *)
Definition positional (a : arguments) : Z :=
  Z.of_nat (length (posonlyargs a)) + Z.of_nat (length (args a)).

Definition parameter_count (a : arguments) : Z :=
  positional a + Z.of_nat (length (kwonlyargs a))
  + marker (vararg a) + marker (kwarg a).



(** Best-effort metrics from the raw lines alone: total, blank, comment
    and code line counts, no function and no class. *)
Definition line_metrics (code : string) : Metrics :=
  let lines := PyStr.splitlines_nl code in
  let total := Z.of_nat (length lines) in
  let blank :=
    Z.of_nat (length (List.filter
                        (fun l => String.eqb (PyStr.strip l) EmptyString)
                        lines)) in
  let comment :=
    Z.of_nat (length (List.filter
                        (fun l => PyStr.startswith (PyStr.strip l) "#")
                        lines)) in
  {| lines_of_code := total - blank - comment;
     total_lines := total;
     blank_lines := blank;
     comment_lines := comment;
     functions := 0;
     classes := 0;
     avg_complexity := 0%Q;
     max_complexity := 0;
     maintainability_index := 100%Q;
     comment_ratio := 0%Q;
     duplication_ratio := 0%Q |}.

(** What one enabled rule adds to the result of [check_all]: its issues,
    or nothing when its checker raises. *)
Definition contribution (code file_path : string) (tree : option ast)
    (r : Rules.Rule) : list Issue :=
  match Rules.checker r code file_path tree with
  | Ok found => found
  | Raise _ => []
  end.

(** The four fields of a [ReviewResult] that must not depend on the order
    in which the files were processed. *)
Definition observed (r : ReviewResult)
    : Z * gmap string Z * gmap string Z * gmap string (list Issue) :=
  (total_issues r, issues_by_severity r, issues_by_type r, issues_by_file r).

Definition result_map {A B : Type} (f : A -> B) (r : result A) : result B :=
  match r with
  | Ok a => Ok (f a)
  | Raise e => Raise e
  end.

(** The number of issues filed under [k] by the key [key]. *)
Definition count_key (key : Issue -> string) (k : string) (l : list Issue) : Z :=
  Z.of_nat (length (List.filter (fun i => String.eqb (key i) k) l)).

(** The counting loops of [_aggregate_results], from a given table on. *)
Definition count_loop (key : Issue -> string) (l : list Issue)
    (d : gmap string Z) : gmap string Z :=
  fold_left (fun d issue => Reviewer.bump (key issue) d) l d.

(** The number of newline characters of a text. *)
Fixpoint newlines (s : string) : Z :=
  match s with
  | EmptyString => 0
  | String c s' => (if Ascii.eqb c PyStr.newline then 1 else 0) + newlines s'
  end.

(** One for a node that satisfies [p]. *)
Definition indicator (p : ast -> bool) (n : ast) : Z := if p n then 1 else 0.

(** Letter grades from worst to best. *)
Definition grade_rank (g : string) : Z :=
  if String.eqb g "A" then 4
  else if String.eqb g "B" then 3
  else if String.eqb g "C" then 2
  else if String.eqb g "D" then 1
  else 0.

End Spec.

(** ** Sample inputs

    Concrete trees, sources, configurations and environments on which the
    properties below are exercised. *)

Module Fixtures.
Import Ast Models.

Definition issue_of (sev : Severity) (kind path : string) : Issue :=
  new_Issue kind sev path 1 0 "" "" "" "" [].

(** A tree provider in the manner of CPython up to 3.11: source text
    holding a NUL makes [ast.parse] raise [ValueError]; this provider
    rejects everything else with [SyntaxError]. *)
Definition nul : string := String (ascii_of_nat 0) EmptyString.

Definition rejecting_parser : tree_provider :=
  fun code =>
    if PyStr.contains nul code then Raise (OtherException "ValueError")
    else Raise SyntaxError.

Definition no_checks : Security.tree_checks :=
  Security.mkTreeChecks (fun _ _ _ => Ok []) (fun _ _ _ => Ok []).

Definition no_detectors : string -> string -> ast -> result (list Issue) :=
  fun _ _ _ => Ok [].

Definition no_match : string -> string -> bool := fun _ _ => false.

(** A file system holding the single regular file [notes.py]. *)
Definition one_file : Path.FileSystem :=
  {| Path.fs_exists := fun p => String.eqb p "notes.py";
     Path.fs_is_dir := fun _ => false;
     Path.fs_read_text := fun _ _ => Ok "x = 1";
     Path.fs_glob := fun _ _ => [] |}.

(** A directory [pkg] with two sources. *)
Definition small_tree : Path.FileSystem :=
  {| Path.fs_exists :=
       fun p => Config.str_in p ["pkg"; "pkg/a.py"; "pkg/b.py"; "pkg/data.txt"];
     Path.fs_is_dir := fun p => String.eqb p "pkg";
     Path.fs_read_text := fun _ _ => Ok "x = (";
     Path.fs_glob := fun d _ =>
       if String.eqb d "pkg" then ["pkg/b.py"; "pkg/a.py"] else [] |}.

(** [Config(min_severity=HIGH)], in capitals, everything else at its
    default. *)
Definition capital_high : Config.Config :=
  {| Config.analyzers := Config.analyzers Config.default_config;
     Config.min_severity := "HIGH";
     Config.max_complexity := 10;
     Config.max_nesting_depth := 4;
     Config.max_function_lines := 50;
     Config.max_file_lines := 500;
     Config.max_line_length := 120;
     Config.max_parameters := 5;
     Config.ignore_paths := Config.ignore_paths Config.default_config;
     Config.ignore_files := Config.ignore_files Config.default_config;
     Config.output_format := "terminal";
     Config.verbose := false |}.

Definition default_reviewer : Reviewer.Reviewer :=
  Reviewer.new rejecting_parser no_checks no_detectors
    Config.default_config [].

(** [def check(x): assert x], alone in a module. *)
Definition check_fn : ast :=
  FunctionDef false "check" (mkArguments [] ["x"] None [] None) []
    [Node Assert [Node Other []]] [] None 1 0 (Some 1).

Definition check_module : ast := Node Other [check_fn].

(** [def f(a, b, c, d, e, g, /): pass]: six positional-only parameters. *)
Definition posonly_fn : ast :=
  FunctionDef false "f"
    (mkArguments ["a"; "b"; "c"; "d"; "e"; "g"] [] None [] None) []
    [Node Other []] [] None 1 0 (Some 1).

(** [def g(a, b, *rest, key, **extra): pass]. *)
Definition mixed_fn : ast :=
  FunctionDef false "g"
    (mkArguments [] ["a"; "b"] (Some "rest") ["key"] (Some "extra")) []
    [Node Other []] [] None 1 0 (Some 1).

(** Two rules for [RuleSet]: one that finds a line, one whose checker
    raises. *)
Definition finding_rule : Rules.Rule :=
  Rules.mkRule "style/todo" "todo" "" LOW "style"
    (fun _ path _ => Ok [issue_of LOW "style/todo" path]) true [] [].

Definition raising_rule : Rules.Rule :=
  Rules.mkRule "custom/broken" "broken" "" LOW "custom"
    (fun _ _ _ => Raise (OtherException "KeyError")) true [] [].

Definition disabled_rule : Rules.Rule :=
  Rules.mkRule "style/off" "off" "" LOW "style"
    (fun _ path _ => Ok [issue_of INFO "style/off" path]) false [] [].

(** Two results that claim the same file. *)
Definition first_result : FileResult :=
  mkFileResult "a.py" [issue_of LOW "long_function" "a.py"] None false None.

Definition second_result : FileResult :=
  mkFileResult "a.py" [issue_of HIGH "eval_usage" "a.py"] None false None.

Definition other_result : FileResult :=
  mkFileResult "b.py" [issue_of HIGH "eval_usage" "b.py"] None false None.

Definition dq : string := String Security.dquote EmptyString.

(** The line [password = "secret123"]. *)
Definition secret_line : string :=
  "password = " +:+ dq +:+ "secret123" +:+ dq.

(** The line [password = "x" if debug else "hunter2222"]. *)
Definition two_literals : string :=
  "password = " +:+ dq +:+ "x" +:+ dq +:+ " if debug else "
  +:+ dq +:+ "hunter2222" +:+ dq.

End Fixtures.

(** * Properties *)

(** ** Scoring ([FileResult.score], [FileResult.grade]) *)

Section Scoring.
Import Models.

Lemma deduction_is_weight (s : Severity) :
  dict_get Severity_eqb severity_deductions s 0 = Spec.weight s.
Proof. destruct s; reflexivity. Qed.

Lemma score_loop (l : list Issue) (start : Z) :
  fold_left
    (fun score issue =>
       score - dict_get Severity_eqb severity_deductions (severity issue) 0)
    l start
  = start - Spec.deductions l.
Proof.
  revert start.
  induction l as [|i l IH]; intros start; cbn [fold_left].
  - unfold Spec.deductions; simpl; lia.
  - rewrite IH, deduction_is_weight.
    unfold Spec.deductions; simpl; lia.
Qed.

Lemma score_bounds (r : FileResult) : 0 <= score r <= 100.
Proof. unfold score; lia. Qed.

Lemma deductions_nonneg (l : list Issue) : 0 <= Spec.deductions l.
Proof.
  unfold Spec.deductions.
  induction l as [|i l IH]; simpl; [lia|].
  destruct (severity i); simpl; lia.
Qed.

(** C2.  The score of a file result is 100 minus the sum of the severity
    weights of its issues (critical 15, high 10, medium 5, low 2, info 0),
    clamped to [0, 100]; the grade is A from 90, B from 80, C from 70, D
    from 60 and F below. *)
Theorem score_and_grade (r : FileResult) :
  score r = Z.max 0 (Z.min 100 (100 - Spec.deductions (issues r)))
  /\ (grade r = "A" <-> 90 <= score r)
  /\ (grade r = "B" <-> 80 <= score r < 90)
  /\ (grade r = "C" <-> 70 <= score r < 80)
  /\ (grade r = "D" <-> 60 <= score r < 70)
  /\ (grade r = "F" <-> score r < 60).
Proof.
  split.
  - unfold score. now rewrite score_loop.
  - unfold grade.
    destruct (Z.geb_spec (score r) 90);
      [|destruct (Z.geb_spec (score r) 80);
        [|destruct (Z.geb_spec (score r) 70);
          [|destruct (Z.geb_spec (score r) 60)]]];
      repeat split; intros; try discriminate; try lia; try reflexivity.
Qed.

(** No issue at all: score 100, grade A. *)
Lemma score_clean (f : string) (m : option Metrics) :
  let r := mkFileResult f [] m false None in score r = 100 /\ grade r = "A".
Proof. split; reflexivity. Qed.

(** One more issue never raises the score. *)
Lemma score_monotone (f : string) (m : option Metrics) (sk : bool)
    (e : option string) (i : Issue) (l : list Issue) :
  score (mkFileResult f (i :: l) m sk e) <= score (mkFileResult f l m sk e).
Proof.
  unfold score; cbn [issues fold_left].
  rewrite !score_loop, deduction_is_weight.
  destruct (severity i); simpl; lia.
Qed.

End Scoring.

(** ** The severity filter ([Reviewer._filter_by_severity]) *)

Section SeverityFilter.
Import Models Config.

Lemma severity_level_value (s : Severity) :
  Reviewer.severity_level (Severity_value s) = 4 - Spec.urgency s.
Proof. destruct s; reflexivity. Qed.

Lemma filter_by_severity_spec (cfg : Config) (S : Severity)
    (l : list Issue) :
  min_severity cfg = Severity_value S ->
  Reviewer._filter_by_severity cfg l
  = List.filter (fun i => Spec.at_least S (severity i)) l.
Proof.
  intros HS. unfold Reviewer._filter_by_severity. rewrite HS.
  apply filter_ext. intros i.
  rewrite !severity_level_value. unfold Spec.at_least.
  destruct (Z.leb_spec (4 - Spec.urgency (severity i)) (4 - Spec.urgency S)),
           (Z.leb_spec (Spec.urgency S) (Spec.urgency (severity i)));
    try reflexivity; lia.
Qed.

(** With the minimum configured as the value of a severity [S] (the five
    lower-case names), the filter keeps, in their order, exactly the issues
    whose severity is at least [S] in the order
    critical > high > medium > low > info. *)
Lemma filter_by_severity_exact (cfg : Config) (S : Severity)
    (l : list Issue) :
  min_severity cfg = Severity_value S ->
  Reviewer._filter_by_severity cfg l
  = List.filter (fun i => Spec.at_least S (severity i)) l
  /\ (forall i, In i (Reviewer._filter_by_severity cfg l) <->
                In i l /\ Spec.urgency S <= Spec.urgency (severity i)).
Proof.
  intros HS. split.
  - now apply filter_by_severity_spec.
  - intros i. rewrite (filter_by_severity_spec cfg S l HS), filter_In.
    unfold Spec.at_least. now rewrite Z.leb_le.
Qed.

End SeverityFilter.

Section SeverityFilterExamples.
Import Models Config.

Lemma filter_by_severity_relaxed :
  Reviewer._filter_by_severity Config.relaxed
    [Fixtures.issue_of LOW "long_function" "a.py";
     Fixtures.issue_of CRITICAL "sql_injection" "a.py";
     Fixtures.issue_of HIGH "hardcoded_secret" "a.py";
     Fixtures.issue_of INFO "long_line" "a.py"]
  = [Fixtures.issue_of CRITICAL "sql_injection" "a.py";
     Fixtures.issue_of HIGH "hardcoded_secret" "a.py"].
Proof.
  destruct (filter_by_severity_exact Config.relaxed HIGH
              [Fixtures.issue_of LOW "long_function" "a.py";
               Fixtures.issue_of CRITICAL "sql_injection" "a.py";
               Fixtures.issue_of HIGH "hardcoded_secret" "a.py";
               Fixtures.issue_of INFO "long_line" "a.py"] eq_refl) as [H _].
  rewrite H. reflexivity.
Defined.

(** C4 at [Config(min_severity=HIGH)], spelled in capitals.  The
    configuration passes [__post_init__], and [Config] itself reads the
    option as high: [min_severity_index] is 1 and [should_report_severity]
    refuses low and info.  [_filter_by_severity] looks the option up as
    written, finds no such key, falls back to the level of info and keeps
    every issue: an info and a low issue survive a minimum of high. *)
Theorem filter_reads_min_severity_as_written :
  let cfg := Fixtures.capital_high in
  Config.post_init cfg = Ok cfg
  /\ Config.min_severity_index cfg = Ok 1
  /\ Config.should_report_severity cfg "low" = Ok false
  /\ Config.should_report_severity cfg "info" = Ok false
  /\ (forall l, Reviewer._filter_by_severity cfg l = l)
  /\ Reviewer._filter_by_severity cfg
       [Fixtures.issue_of INFO "long_line" "a.py";
        Fixtures.issue_of LOW "long_function" "a.py"]
     = [Fixtures.issue_of INFO "long_line" "a.py";
        Fixtures.issue_of LOW "long_function" "a.py"]
  /\ Spec.urgency INFO < Spec.urgency HIGH.
Proof.
  repeat split; try reflexivity.
  intros l. unfold Reviewer._filter_by_severity.
  change (Reviewer.severity_level (min_severity Fixtures.capital_high)) with 4.
  induction l as [|i l IH]; [reflexivity|].
  cbn [List.filter]. rewrite IH.
  destruct (severity i); reflexivity.
Qed.

End SeverityFilterExamples.

(** ** Reviewing one file ([review_code], [review_file]) *)

Section ReviewFile.
Import Models Config.

Variable ast_parse : tree_provider.
Variable security_checks : Security.tree_checks.
Variable smell_detectors : string -> string -> Ast.ast -> result (list Issue).
Variable path_match : string -> string -> bool.
Variable fs : Path.FileSystem.

Abbreviation review_code := (Reviewer.review_code ast_parse).
Abbreviation review_file := (Reviewer.review_file ast_parse path_match fs).
Abbreviation _should_analyze_file := (Reviewer._should_analyze_file path_match).
Abbreviation new := (Reviewer.new ast_parse security_checks smell_detectors).

Lemma existsb_false_iff {A : Type} (f : A -> bool) (l : list A) :
  existsb f l = false <-> forall x, In x l -> f x = false.
Proof.
  induction l as [|a l IH]; simpl.
  - split; [intros _ x []|reflexivity].
  - rewrite orb_false_iff, IH. split.
    + intros [Ha Hl] x [<-|Hx]; auto.
    + intros H. split; [apply H; now left|intros x Hx; apply H; now right].
Qed.

(** What [_should_analyze_file] rejects. *)
Lemma should_analyze_false (rv : Reviewer.Reviewer) (path : string) :
  _should_analyze_file rv path = false <->
  Config.str_in (PyStr.lower (Path.suffix path)) [".py"; ".pyi"] = false
  \/ (exists pattern, In pattern (ignore_paths (Reviewer.config rv))
                      /\ PyStr.contains pattern path = true)
  \/ (exists pattern, In pattern (ignore_files (Reviewer.config rv))
                      /\ path_match path pattern = true).
Proof.
  unfold Reviewer._should_analyze_file.
  destruct (Config.str_in (PyStr.lower (Path.suffix path)) [".py"; ".pyi"])
    eqn:Hsuffix; cbn [negb].
  2: { split; [now left|reflexivity]. }
  destruct (existsb (fun pattern => PyStr.contains pattern path)
              (ignore_paths (Reviewer.config rv))) eqn:Hpaths.
  { split; [|reflexivity]. intros _. right; left.
    apply existsb_exists in Hpaths. exact Hpaths. }
  destruct (existsb (fun pattern => path_match path pattern)
              (ignore_files (Reviewer.config rv))) eqn:Hfiles.
  { split; [|reflexivity]. intros _. right; right.
    apply existsb_exists in Hfiles. exact Hfiles. }
  split; [discriminate|].
  intros [H|[(pattern & Hin & H)|(pattern & Hin & H)]].
  - discriminate.
  - rewrite existsb_false_iff in Hpaths.
    specialize (Hpaths pattern Hin). cbn beta in Hpaths. congruence.
  - rewrite existsb_false_iff in Hfiles.
    specialize (Hfiles pattern Hin). cbn beta in Hfiles. congruence.
Qed.

(** C10.  For an existing path whose lower-cased extension is neither
    [.py] nor [.pyi], or whose string contains an ignore-path entry, or
    which matches an ignore-file glob, [review_file] returns the result
    with [skipped] set, no issue, no error and the default metrics.  The
    result is the same whatever reading the file, parsing it or running an
    analyzer would do: none of them is reached. *)
Theorem review_file_skips (rv : Reviewer.Reviewer) (path : string) :
  Path.fs_exists fs path = true ->
  (Config.str_in (PyStr.lower (Path.suffix path)) [".py"; ".pyi"] = false
   \/ (exists pattern, In pattern (ignore_paths (Reviewer.config rv))
                       /\ PyStr.contains pattern path = true)
   \/ (exists pattern, In pattern (ignore_files (Reviewer.config rv))
                       /\ path_match path pattern = true)) ->
  review_file rv path
  = Ok {| fr_file := path; issues := []; metrics := Some Metrics_default;
          skipped := true; error := None |}.
Proof.
  intros Hexists Hskip.
  apply should_analyze_false in Hskip.
  unfold Reviewer.review_file. now rewrite Hexists, Hskip.
Qed.

(** *** [review_code] *)

Lemma parse_code_cases (code : string) :
  (exists tree, ast_parse code = Ok tree
                /\ parse_code ast_parse code = Ok (Some tree))
  \/ (ast_parse code = Raise SyntaxError
      /\ parse_code ast_parse code = Ok None)
  \/ (exists e, ast_parse code = Raise e /\ is_SyntaxError e = false
                /\ parse_code ast_parse code = Raise e).
Proof.
  unfold parse_code.
  destruct (ast_parse code) as [tree|e] eqn:Hparse.
  - left. now exists tree.
  - destruct e; cbn [is_SyntaxError];
      try (right; right; eexists; repeat split; reflexivity).
    right; left. now split.
Qed.

(** C1 (what the code does when the tree provider fails otherwise than
    with [SyntaxError]).  [_parse_code] runs outside the [try] of the
    analyzer loop and catches [SyntaxError] only: any other exception of
    [ast.parse] leaves [review_code] as it came. *)
Theorem review_code_propagates (rv : Reviewer.Reviewer)
    (code file_path : string) (e : exception) :
  ast_parse code = Raise e ->
  is_SyntaxError e = false ->
  review_code rv code file_path = Raise e.
Proof.
  intros Hparse He.
  unfold Reviewer.review_code, Reviewer._parse_code, parse_code.
  now rewrite Hparse, He.
Qed.

(** Under the contract "a tree or [SyntaxError]" the review of a text
    always returns. *)
Lemma review_code_returns (rv : Reviewer.Reviewer)
    (code file_path : string) :
  (forall e, ast_parse code = Raise e -> e = SyntaxError) ->
  returns (review_code rv code file_path).
Proof.
  intros Hcontract.
  unfold Reviewer.review_code, Reviewer._parse_code.
  destruct (parse_code_cases code)
    as [(tree & _ & ->)|[(_ & ->)|(e & Hparse & He & _)]].
  - eexists; reflexivity.
  - eexists; reflexivity.
  - rewrite (Hcontract e Hparse) in He. discriminate.
Qed.

Lemma run_analyzers_empty (cfg : Config) (l : list Reviewer.Analyzer)
    (code file_path : string) (tree : option Ast.ast) :
  Forall (fun a => Reviewer.analyze a code file_path tree = Ok []) l ->
  Reviewer.run_analyzers (Reviewer.mkReviewer cfg l) code file_path tree = [].
Proof.
  unfold Reviewer.run_analyzers. cbn [Reviewer._analyzers Reviewer.config].
  intros H. induction H as [|a l Ha _ IH]; cbn [fold_left].
  - reflexivity.
  - rewrite Ha. exact IH.
Qed.

(** Text the provider rejects with [SyntaxError]: the three built-in
    analyzers report nothing, and the metrics are the line counts. *)
Lemma review_code_unparsable (cfg : Config) (code file_path : string) :
  ast_parse code = Raise SyntaxError ->
  review_code (new cfg []) code file_path
  = Ok {| fr_file := file_path; issues := [];
          metrics := Some (Spec.line_metrics code);
          skipped := false; error := None |}.
Proof.
  intros Hparse.
  assert (Hnone : parse_code ast_parse code = Ok None)
    by (unfold parse_code; now rewrite Hparse).
  unfold Reviewer.review_code, Reviewer._parse_code. rewrite Hnone.
  f_equal. f_equal.
  unfold Reviewer.new. apply run_analyzers_empty.
  unfold Reviewer._setup_analyzers. rewrite app_nil_r.
  apply List.Forall_map, List.Forall_forall. intros [key a] Hin.
  apply filter_In in Hin. destruct Hin as [Hin _].
  cbn [snd].
  unfold Reviewer.analyzer_map in Hin. cbn [In] in Hin.
  destruct Hin as [H|[H|[H|[]]]]; inversion H; subst;
    cbn [Reviewer.analyze];
    unfold Complexity.analyze, Security.analyze, Smells.analyze;
    now rewrite Hnone.
Qed.

End ReviewFile.

Section ReviewFileExamples.
Import Models Config.

(** A text holding a NUL reaches the caller of [review_code] as the
    provider's [ValueError]. *)
Lemma review_code_nul :
  Reviewer.review_code Fixtures.rejecting_parser Fixtures.default_reviewer
    Fixtures.nul "<string>"
  = Raise (OtherException "ValueError").
Proof.
  exact (review_code_propagates Fixtures.rejecting_parser
           Fixtures.default_reviewer Fixtures.nul "<string>"
           (OtherException "ValueError") eq_refl eq_refl).
Defined.

Lemma review_file_skips_text_file :
  Reviewer.review_file Fixtures.rejecting_parser Fixtures.no_match
    Fixtures.small_tree Fixtures.default_reviewer "pkg/data.txt"
  = Ok (Reviewer.skipped_result "pkg/data.txt").
Proof.
  apply (review_file_skips Fixtures.rejecting_parser Fixtures.no_match
           Fixtures.small_tree Fixtures.default_reviewer "pkg/data.txt").
  - reflexivity.
  - left. reflexivity.
Defined.

End ReviewFileExamples.

(** ** Entry points on paths ([review_file], [review_directory]) *)

Section ReviewTargets.
Import Models Config.

Variable ast_parse : tree_provider.
Variable path_match : string -> string -> bool.
Variable fs : Path.FileSystem.

Abbreviation review_file' := (Reviewer.review_file ast_parse path_match fs).
Abbreviation review_directory' :=
  (Reviewer.review_directory ast_parse path_match fs).

Lemma review_file_missing (rv : Reviewer.Reviewer) (path : string) :
  Path.fs_exists fs path = false ->
  review_file' rv path = Raise (FileNotFoundError ("File not found: " +:+ path)).
Proof. intros H. unfold Reviewer.review_file. now rewrite H. Qed.

Lemma review_file_returns (rv : Reviewer.Reviewer) (path : string) :
  Path.fs_exists fs path = true ->
  (Reviewer._should_analyze_file path_match rv path = false
   \/ exists code, Reviewer.read_source fs path = Ok code
                   /\ forall e, ast_parse code = Raise e -> e = SyntaxError) ->
  returns (review_file' rv path).
Proof.
  intros Hexists H. unfold Reviewer.review_file. rewrite Hexists. cbn [negb].
  destruct (Reviewer._should_analyze_file path_match rv path) eqn:Hshould;
    cbn [negb].
  - destruct H as [H|(code & Hread & Hcontract)]; [discriminate|].
    rewrite Hread. now apply review_code_returns.
  - eexists; reflexivity.
Qed.

Lemma review_directory_missing (rv : Reviewer.Reviewer) (directory : string)
    (recursive parallel : bool) (max_workers : Z) (completion : list string) :
  Path.fs_exists fs directory = false ->
  review_directory' rv directory recursive parallel max_workers completion
  = Raise (NotADirectoryError ("Directory not found: " +:+ directory)).
Proof. intros H. unfold Reviewer.review_directory. now rewrite H. Qed.

Lemma review_directory_not_dir (rv : Reviewer.Reviewer) (directory : string)
    (recursive parallel : bool) (max_workers : Z) (completion : list string) :
  Path.fs_exists fs directory = true ->
  Path.fs_is_dir fs directory = false ->
  review_directory' rv directory recursive parallel max_workers completion
  = Raise (NotADirectoryError ("Not a directory: " +:+ directory)).
Proof.
  intros H1 H2. unfold Reviewer.review_directory. now rewrite H1, H2.
Qed.

Lemma review_directory_returns (rv : Reviewer.Reviewer) (directory : string)
    (recursive parallel : bool) (max_workers : Z) (completion : list string) :
  Path.fs_exists fs directory = true ->
  Path.fs_is_dir fs directory = true ->
  0 < max_workers ->
  returns
    (review_directory' rv directory recursive parallel max_workers completion).
Proof.
  intros H1 H2 Hw. unfold Reviewer.review_directory. rewrite H1, H2.
  cbn [negb].
  destruct (Reviewer._collect_files path_match fs rv directory recursive)
    as [|f files]; [eexists; reflexivity|].
  destruct (parallel && (1 <? Complexity.lenZ (f :: files)));
    [|eexists; reflexivity].
  unfold Reviewer._process_parallel.
  destruct (Z.leb_spec max_workers 0); [lia|]. eexists; reflexivity.
Qed.

(** C8, as the code has it.  [review_file] raises [FileNotFoundError],
    before anything else, when the path does not exist; for an existing
    path it returns a result when the file is skipped, or when its text can
    be read and the tree provider accepts it or rejects it with
    [SyntaxError].  [review_directory] raises [NotADirectoryError], before
    any analysis, when the path does not exist and also when it exists but
    is not a directory; for an existing directory it returns a result
    (given a positive [max_workers]). *)
Theorem review_targets (rv : Reviewer.Reviewer) (path directory : string)
    (recursive parallel : bool) (max_workers : Z) (completion : list string) :
  (Path.fs_exists fs path = false ->
   review_file' rv path
   = Raise (FileNotFoundError ("File not found: " +:+ path)))
  /\ (Path.fs_exists fs path = true ->
      (Reviewer._should_analyze_file path_match rv path = false
       \/ exists code,
            Reviewer.read_source fs path = Ok code
            /\ forall e, ast_parse code = Raise e -> e = SyntaxError) ->
      returns (review_file' rv path))
  /\ (Path.fs_exists fs directory = false ->
      review_directory' rv directory recursive parallel max_workers completion
      = Raise (NotADirectoryError ("Directory not found: " +:+ directory)))
  /\ (Path.fs_exists fs directory = true ->
      Path.fs_is_dir fs directory = false ->
      review_directory' rv directory recursive parallel max_workers completion
      = Raise (NotADirectoryError ("Not a directory: " +:+ directory)))
  /\ (Path.fs_exists fs directory = true ->
      Path.fs_is_dir fs directory = true ->
      0 < max_workers ->
      returns (review_directory' rv directory recursive parallel
                 max_workers completion)).
Proof.
  repeat split.
  - apply review_file_missing.
  - apply review_file_returns.
  - apply review_directory_missing.
  - apply review_directory_not_dir.
  - apply review_directory_returns.
Qed.

End ReviewTargets.

Section ReviewTargetsExamples.
Import Models Config.

(** C8 as stated fails: [notes.py] exists, and [review_directory] raises
    on it. *)
Lemma review_directory_on_a_file :
  Path.fs_exists Fixtures.one_file "notes.py" = true
  /\ Reviewer.review_directory Fixtures.rejecting_parser Fixtures.no_match
       Fixtures.one_file Fixtures.default_reviewer "notes.py" true true 4 []
     = Raise (NotADirectoryError "Not a directory: notes.py").
Proof. split; reflexivity. Qed.

(** An existing file whose text cannot be read: [review_file] raises as
    well. *)
Lemma review_file_unreadable :
  let fs :=
    {| Path.fs_exists := fun _ => true;
       Path.fs_is_dir := fun _ => false;
       Path.fs_read_text := fun _ _ => Raise (OtherException "PermissionError");
       Path.fs_glob := fun _ _ => [] |} in
  Reviewer.review_file Fixtures.rejecting_parser Fixtures.no_match fs
    Fixtures.default_reviewer "locked.py"
  = Raise (OtherException "PermissionError").
Proof. reflexivity. Qed.

(** An existing directory with two sources and [max_workers=0]: the
    executor refuses to start. *)
Lemma review_directory_no_workers :
  Reviewer.review_directory Fixtures.rejecting_parser Fixtures.no_match
    Fixtures.small_tree Fixtures.default_reviewer "pkg" true true 0
    ["pkg/a.py"; "pkg/b.py"]
  = Raise (OtherException "ValueError").
Proof. reflexivity. Qed.

Lemma review_targets_small_tree :
  Reviewer.review_file Fixtures.rejecting_parser Fixtures.no_match
    Fixtures.small_tree Fixtures.default_reviewer "pkg/c.py"
  = Raise (FileNotFoundError "File not found: pkg/c.py")
  /\ returns
       (Reviewer.review_file Fixtures.rejecting_parser Fixtures.no_match
          Fixtures.small_tree Fixtures.default_reviewer "pkg/a.py")
  /\ Reviewer.review_directory Fixtures.rejecting_parser Fixtures.no_match
       Fixtures.small_tree Fixtures.default_reviewer "src" true true 4 []
     = Raise (NotADirectoryError "Directory not found: src")
  /\ Reviewer.review_directory Fixtures.rejecting_parser Fixtures.no_match
       Fixtures.small_tree Fixtures.default_reviewer "pkg/a.py" true true 4 []
     = Raise (NotADirectoryError "Not a directory: pkg/a.py")
  /\ returns
       (Reviewer.review_directory Fixtures.rejecting_parser Fixtures.no_match
          Fixtures.small_tree Fixtures.default_reviewer "pkg" true true 4
          ["pkg/b.py"; "pkg/a.py"]).
Proof.
  pose proof (review_targets Fixtures.rejecting_parser Fixtures.no_match
                Fixtures.small_tree Fixtures.default_reviewer
                "pkg/c.py" "src" true true 4 []) as (H1 & _ & H3 & _ & _).
  pose proof (review_targets Fixtures.rejecting_parser Fixtures.no_match
                Fixtures.small_tree Fixtures.default_reviewer
                "pkg/a.py" "pkg/a.py" true true 4 []) as (_ & H2 & _ & H4 & _).
  pose proof (review_targets Fixtures.rejecting_parser Fixtures.no_match
                Fixtures.small_tree Fixtures.default_reviewer
                "pkg/a.py" "pkg" true true 4 ["pkg/b.py"; "pkg/a.py"])
    as (_ & _ & _ & _ & H5).
  split; [exact (H1 eq_refl)|].
  split.
  { apply H2; [reflexivity|]. right. exists "x = (". split; [reflexivity|].
    intros e He. vm_compute in He. now inversion He. }
  split; [exact (H3 eq_refl)|].
  split; [exact (H4 eq_refl eq_refl)|].
  apply H5; [reflexivity|reflexivity|lia].
Defined.

End ReviewTargetsExamples.

(** ** Walking a tree ([ast.walk]) *)

Section Walk.
Import Ast.

Lemma sum_nat_app (l1 l2 : list nat) :
  sum_nat (l1 ++ l2) = (sum_nat l1 + sum_nat l2)%nat.
Proof. induction l1 as [|x l1 IH]; simpl; [reflexivity|]. rewrite IH; lia. Qed.

Lemma sumZ_app (l1 l2 : list Z) :
  Reviewer.sumZ (l1 ++ l2) = Reviewer.sumZ l1 + Reviewer.sumZ l2.
Proof. induction l1 as [|x l1 IH]; simpl; [reflexivity|]. rewrite IH; lia. Qed.

Lemma sum_nat_cons (x : nat) (l : list nat) :
  sum_nat (x :: l) = (x + sum_nat l)%nat.
Proof. reflexivity. Qed.

Lemma sumZ_cons (x : Z) (l : list Z) :
  Reviewer.sumZ (x :: l) = x + Reviewer.sumZ l.
Proof. reflexivity. Qed.

Ltac sums :=
  repeat first
    [ rewrite List.map_app | rewrite List.map_cons
    | rewrite sum_nat_app | rewrite sum_nat_cons
    | rewrite sumZ_app | rewrite sumZ_cons ];
  change (sum_nat []) with 0%nat; change (Reviewer.sumZ []) with 0.

(** A node counts for one more than its children. *)
Lemma size_children (n : ast) :
  size n = S (sum_nat (map size (iter_child_nodes n))).
Proof.
  destruct n as [c ch|vs|t i ifs|v|v l e|a nm ar ae b d r l c e|nm bs ks b d l c];
    cbn [size iter_child_nodes]; f_equal; try destruct r; cbn [opt_list];
    sums; cbn [size map]; sums; lia.
Qed.

(** [Spec.total] sums over the node and then over its children. *)
Lemma total_children (f : ast -> Z) (n : ast) :
  Spec.total f n
  = f n + Reviewer.sumZ (map (Spec.total f) (iter_child_nodes n)).
Proof.
  destruct n as [c ch|vs|t i ifs|v|v l e|a nm ar ae b d r l c e|nm bs ks b d l c];
    cbn [Spec.total iter_child_nodes]; f_equal; try destruct r;
    cbn [opt_list]; sums; cbn [Spec.total map]; sums; lia.
Qed.

(** With fuel for every pending node the queue loop visits each node
    below the queue exactly once. *)
Lemma walk_queue_total (f : ast -> Z) (fuel : nat) (todo : list ast) :
  (sum_nat (map size todo) <= fuel)%nat ->
  Reviewer.sumZ (map f (walk_queue fuel todo))
  = Reviewer.sumZ (map (Spec.total f) todo).
Proof.
  revert todo.
  induction fuel as [|fuel IH]; intros todo Hfuel.
  - destruct todo as [|n rest]; [reflexivity|].
    rewrite List.map_cons, sum_nat_cons, size_children in Hfuel. lia.
  - destruct todo as [|n rest]; [reflexivity|].
    cbn [walk_queue]. rewrite !List.map_cons, !sumZ_cons.
    rewrite IH.
    + rewrite List.map_app, sumZ_app, (total_children f n). lia.
    + rewrite List.map_cons, sum_nat_cons, size_children in Hfuel.
      rewrite List.map_app, sum_nat_app. lia.
Qed.

Lemma walk_total (f : ast -> Z) (n : ast) :
  Reviewer.sumZ (map f (walk n)) = Spec.total f n.
Proof.
  unfold walk. rewrite walk_queue_total.
  - cbn [map]. rewrite sumZ_cons. change (Reviewer.sumZ []) with 0. lia.
  - cbn [map]. rewrite sum_nat_cons. change (sum_nat []) with 0%nat. lia.
Qed.

(** The walk starts with the node itself. *)
Lemma walk_head (n : ast) : exists rest, walk n = n :: rest.
Proof.
  unfold walk. rewrite size_children. cbn [walk_queue]. eexists; reflexivity.
Qed.

End Walk.

(** ** Cyclomatic complexity: the analyzer and the orchestrator *)

Section Cyclomatic.
Import Ast.

Lemma analyzer_step (c : Z) (child : ast) :
  Complexity.complexity_step c child = c + Spec.decision_points child.
Proof.
  destruct child as [[] ch|vs|t i ifs|v|v l e|a nm ar ae b d r l cl e|nm bs ks b d l cl];
    cbn; unfold Complexity.lenZ; lia.
Qed.

Lemma orchestrator_step (c : Z) (child : ast) :
  Reviewer.complexity_step c child
  = c + (Spec.decision_points child - Spec.is_assert child).
Proof.
  destruct child as [[] ch|vs|t i ifs|v|v l e|a nm ar ae b d r l cl e|nm bs ks b d l cl];
    cbn; unfold Complexity.lenZ; lia.
Qed.

Lemma fold_step (step : Z -> ast -> Z) (f : ast -> Z) :
  (forall c child, step c child = c + f child) ->
  forall l start, fold_left step l start = start + Reviewer.sumZ (map f l).
Proof.
  intros Hstep l.
  induction l as [|x l IH]; intros start; cbn [fold_left map].
  - change (Reviewer.sumZ []) with 0. lia.
  - rewrite IH, Hstep, sumZ_cons. lia.
Qed.

(** The analyzer computes the complexity of the specification: one plus
    the decision points, assertions included. *)
Lemma analyzer_complexity_is_cyclomatic (fn : ast) :
  Complexity._calculate_complexity fn = Spec.cyclomatic fn.
Proof.
  unfold Complexity._calculate_complexity, Spec.cyclomatic.
  rewrite (fold_step _ _ analyzer_step), walk_total. reflexivity.
Qed.

Lemma total_minus (f g : ast -> Z) (l : list ast) :
  Reviewer.sumZ (map (fun n => f n - g n) l)
  = Reviewer.sumZ (map f l) - Reviewer.sumZ (map g l).
Proof.
  induction l as [|x l IH]; cbn [map]; [reflexivity|].
  rewrite !sumZ_cons. lia.
Qed.

(** The orchestrator's copy leaves the assertions out. *)
Lemma orchestrator_complexity (fn : ast) :
  Reviewer._calculate_function_complexity fn
  = Spec.cyclomatic fn - Spec.total Spec.is_assert fn.
Proof.
  unfold Reviewer._calculate_function_complexity, Spec.cyclomatic.
  rewrite (fold_step _ _ orchestrator_step), total_minus, !walk_total. lia.
Qed.

(** The two agree on every function without an [assert]. *)
Lemma complexity_agree_without_assert (fn : ast) :
  Spec.total Spec.is_assert fn = 0 ->
  Reviewer._calculate_function_complexity fn
  = Complexity._calculate_complexity fn.
Proof.
  intros H.
  rewrite orchestrator_complexity, analyzer_complexity_is_cyclomatic. lia.
Qed.

(** C5 at [def check(x): assert x].  The analyzer counts the assertion
    and finds complexity 2, as the specification has it; the orchestrator's
    [_calculate_function_complexity] has no branch for [ast.Assert] and
    finds 1, which is what [max_complexity] and [avg_complexity] of the
    metrics then report. *)
Theorem complexity_differs_on_assert :
  Spec.cyclomatic Fixtures.check_fn = 2
  /\ Complexity._calculate_complexity Fixtures.check_fn = 2
  /\ Reviewer._calculate_function_complexity Fixtures.check_fn = 1
  /\ Models.max_complexity
       (Reviewer._calculate_metrics "def check(x): assert x"
          (Some Fixtures.check_module)) = 1
  /\ Models.avg_complexity
       (Reviewer._calculate_metrics "def check(x): assert x"
          (Some Fixtures.check_module)) = 1%Q.
Proof. repeat split; vm_compute; reflexivity. Qed.

End Cyclomatic.

(** ** Nesting depth ([_calculate_nesting_depth]) *)

Section Nesting.
Import Ast.

(** [get_depth] visits the children in the order of [iter_child_nodes],
    one level deeper below a nesting node. *)
Lemma get_depth_children (node : ast) (current_depth : Z) :
  Complexity.get_depth node current_depth
  = fold_left
      (fun max_depth child =>
         Z.max max_depth
           (if Complexity.is_nesting child
            then Complexity.get_depth child (current_depth + 1)
            else Complexity.get_depth child current_depth))
      (iter_child_nodes node) current_depth.
Proof.
  destruct node as [c ch|vs|t i ifs|v|v l e|a nm ar ae b d r l c e|nm bs ks b d l c];
    cbn [Complexity.get_depth iter_child_nodes fold_left];
    rewrite ?fold_left_app; try reflexivity.
  destruct r; reflexivity.
Qed.

(** Five conditionals inside one another are reported as depth 5. *)
Lemma five_levels_deep :
  Complexity._calculate_nesting_depth
    (FunctionDef false "deep" (mkArguments [] [] None [] None) []
       [Node If [Node If [Node If [Node If [Node If [Node Other []]]]]]]
       [] None 1 0 (Some 6)) = 5.
Proof. reflexivity. Qed.

End Nesting.

(** ** Parameter count ([ComplexityAnalyzer._analyze_function]) *)

Section Parameters.
Import Ast Models Config.

Lemma param_count_formula (a : arguments) :
  Complexity.param_count a
  = Z.of_nat (length (args a)) + Z.of_nat (length (kwonlyargs a))
    + Spec.marker (vararg a) + Spec.marker (kwarg a).
Proof.
  unfold Complexity.param_count, Complexity.lenZ, Spec.marker.
  destruct (vararg a), (kwarg a); lia.
Qed.

(** The parameters declared before [/] are not counted. *)
Lemma param_count_misses_posonly (a : arguments) :
  Complexity.param_count a
  = Spec.parameter_count a - Z.of_nat (length (posonlyargs a)).
Proof.
  rewrite param_count_formula.
  unfold Spec.parameter_count, Spec.positional, Spec.marker. lia.
Qed.

(** An issue of type [too_many_params] is emitted exactly when the count
    of the code exceeds [max_parameters], and it carries that count. *)
Lemma too_many_params_iff (cfg : Config) (is_async : bool) (name : string)
    (a : arguments) (args_exprs body decorator_list : list ast)
    (returns : option ast) (lineno col_offset : Z) (end_lineno : option Z)
    (code file_path : string) :
  let fn := FunctionDef is_async name a args_exprs body decorator_list
              returns lineno col_offset end_lineno in
  (exists i, In i (Complexity._analyze_function cfg fn code file_path)
             /\ Spec.is_too_many_params i)
  <-> max_parameters cfg < Complexity.param_count a.
Proof.
  intros fn. unfold Complexity._analyze_function; cbn [fn].
  set (c := Complexity._calculate_complexity _).
  set (n := Complexity._calculate_nesting_depth _).
  set (fl := Complexity._count_function_lines _).
  unfold Spec.is_too_many_params.
  destruct (Z.gtb_spec (Complexity.param_count a) (max_parameters cfg)) as [Hgt|Hle].
  - split; [lia|]. intros _.
    eexists. split.
    + rewrite !in_app_iff. right; right; right. left; reflexivity.
    + reflexivity.
  - split; [|lia]. intros (i & Hin & Hty).
    rewrite !in_app_iff in Hin.
    destruct Hin as [Hin|[Hin|[Hin|Hin]]];
      [destruct (c >? max_complexity cfg)
      |destruct (n >? max_nesting_depth cfg)
      |destruct (fl >? max_function_lines cfg)
      |];
      cbn [In] in Hin; try contradiction;
      destruct Hin as [<-|[]]; discriminate Hty.
Qed.

(** For a function without positional-only parameters the count is the
    one of the specification. *)
Lemma param_count_without_posonly (a : arguments) :
  posonlyargs a = [] -> Complexity.param_count a = Spec.parameter_count a.
Proof.
  intros H. rewrite param_count_misses_posonly, H. cbn [length]. lia.
Qed.

(** C7 at [def f(a, b, c, d, e, g, /): pass] with the default
    [max_parameters] of 5.  The function has six positional parameters;
    the code reads [node.args.args] and [node.args.kwonlyargs] only, never
    [node.args.posonlyargs], counts 0 and emits no issue. *)
Theorem posonly_parameters_uncounted :
  Spec.parameter_count
    (mkArguments ["a"; "b"; "c"; "d"; "e"; "g"] [] None [] None) = 6
  /\ max_parameters default_config = 5
  /\ Complexity.param_count
       (mkArguments ["a"; "b"; "c"; "d"; "e"; "g"] [] None [] None) = 0
  /\ Complexity._analyze_function default_config Fixtures.posonly_fn
       "def f(a, b, c, d, e, g, /): pass" "f.py" = [].
Proof. repeat split; vm_compute; reflexivity. Qed.

Lemma param_count_mixed :
  Complexity.param_count
    (mkArguments [] ["a"; "b"] (Some "rest") ["key"] (Some "extra")) = 5.
Proof. reflexivity. Qed.

End Parameters.

(** ** Rule sets ([RuleSet.check_all]) *)

Section RuleSets.
Import Models Rules.

Lemma check_all_loop (code file_path : string) (tree : option Ast.ast)
    (l : list Rule) (acc : list Issue) :
  Forall (fun r => enabled r = true) l ->
  fold_left
    (fun issues rule =>
       match check rule code file_path tree with
       | Ok rule_issues => issues ++ rule_issues
       | Raise _ => issues
       end)
    l acc
  = acc ++ flat_map (Spec.contribution code file_path tree) l.
Proof.
  intros H. revert acc.
  induction H as [|r l Hr _ IH]; intros acc; cbn [fold_left flat_map].
  - now rewrite app_nil_r.
  - rewrite IH. unfold check, Spec.contribution at 2. rewrite Hr. cbn [negb].
    destruct (checker r code file_path tree).
    + now rewrite <- app_assoc.
    + reflexivity.
Qed.

Lemma enabled_rules_enabled (rs : RuleSet) :
  Forall (fun r => enabled r = true) (enabled_rules rs).
Proof.
  unfold enabled_rules. apply List.Forall_forall. intros r Hr.
  now apply filter_In in Hr.
Qed.

Lemma check_all_contributions (rs : RuleSet) (code file_path : string)
    (tree : option Ast.ast) :
  check_all rs code file_path tree
  = flat_map (Spec.contribution code file_path tree) (enabled_rules rs).
Proof.
  unfold check_all. rewrite check_all_loop by apply enabled_rules_enabled.
  reflexivity.
Qed.

Lemma enabled_rules_app (name : string) (l1 l2 : list (string * Rule)) :
  enabled_rules (mkRuleSet name (l1 ++ l2))
  = enabled_rules (mkRuleSet name l1) ++ enabled_rules (mkRuleSet name l2).
Proof.
  unfold enabled_rules, rules. cbn [_rules].
  now rewrite List.map_app, List.filter_app.
Qed.

(** C9, as the code has it.  [check_all] always returns, and what it
    returns is the concatenation, in rule order, of the issues of the
    enabled rules whose checker returns; a rule whose checker raises adds
    nothing and leaves no trace: the result is the one of the rule set
    without that rule, so the issues of the other rules are untouched. *)
Theorem check_all_swallows (code file_path : string) (tree : option Ast.ast) :
  (forall rs,
     check_all rs code file_path tree
     = flat_map (Spec.contribution code file_path tree) (enabled_rules rs))
  /\ (forall rs r, In r (enabled_rules rs) <->
                   In r (rules rs) /\ enabled r = true)
  /\ (forall name before after r e,
        checker r code file_path tree = Raise e ->
        check_all (mkRuleSet name (before ++ (id r, r) :: after))
          code file_path tree
        = check_all (mkRuleSet name (before ++ after)) code file_path tree).
Proof.
  split; [|split].
  - intros rs. apply check_all_contributions.
  - intros rs r. unfold enabled_rules. apply filter_In.
  - intros name before after r e Hraise.
    rewrite !check_all_contributions.
    change ((id r, r) :: after) with ([(id r, r)] ++ after).
    rewrite !enabled_rules_app, !flat_map_app. f_equal.
    rewrite <- (app_nil_l (flat_map _ (enabled_rules (mkRuleSet name after)))) at 2.
    f_equal.
    unfold enabled_rules, rules. cbn [_rules map List.filter snd].
    destruct (enabled r); [|reflexivity].
    cbn [flat_map]. unfold Spec.contribution. now rewrite Hraise.
Qed.

End RuleSets.

Section RuleSetsExamples.
Import Models Rules.

(** C9 as stated fails: nothing that [check_all] returns tells a set
    with a failing rule from a set without one, so the failure is not
    recorded. *)
Lemma check_all_keeps_no_record :
  ~ exists recorded : list Issue -> bool,
      forall rs code file_path tree,
        recorded (check_all rs code file_path tree) = true <->
        exists r e, In r (enabled_rules rs)
                    /\ checker r code file_path tree = Raise e.
Proof.
  intros (recorded & Hrec).
  pose proof (Hrec (mkRuleSet "default" [("custom/broken", Fixtures.raising_rule)])
                "x = 1" "a.py" None) as [_ Hfail].
  pose proof (Hrec (mkRuleSet "default" []) "x = 1" "a.py" None) as [Hnone _].
  assert (Hr : recorded [] = true).
  { apply Hfail. exists Fixtures.raising_rule, (OtherException "KeyError").
    split; [now left|reflexivity]. }
  destruct (Hnone Hr) as (r & e & [] & _).
Qed.

Lemma check_all_sample :
  check_all
    (mkRuleSet "default"
       ([("style/off", Fixtures.disabled_rule)]
        ++ ("custom/broken", Fixtures.raising_rule)
           :: [("style/todo", Fixtures.finding_rule)]))
    "x = 1" "a.py" None
  = [Fixtures.issue_of LOW "style/todo" "a.py"].
Proof.
  destruct (check_all_swallows "x = 1" "a.py" None) as (_ & _ & H).
  etransitivity.
  - exact (H "default" [("style/off", Fixtures.disabled_rule)]
             [("style/todo", Fixtures.finding_rule)]
             Fixtures.raising_rule (OtherException "KeyError") eq_refl).
  - reflexivity.
Defined.

End RuleSetsExamples.

(** ** Aggregation and the order of completion ([_aggregate_results]) *)

Section Aggregation.
Import Models.

Lemma bump_comm (k1 k2 : string) (d : gmap string Z) :
  Reviewer.bump k1 (Reviewer.bump k2 d) = Reviewer.bump k2 (Reviewer.bump k1 d).
Proof.
  unfold Reviewer.bump.
  destruct (decide (k1 = k2)) as [->|Hne]; [reflexivity|].
  rewrite !lookup_insert_ne by congruence.
  now apply insert_insert_ne.
Qed.

(** Counting by key does not depend on the order of the issues. *)
Lemma count_by_perm (key : Issue -> string) (l1 l2 : list Issue) :
  Permutation l1 l2 ->
  forall d,
    fold_left (fun d issue => Reviewer.bump (key issue) d) l1 d
    = fold_left (fun d issue => Reviewer.bump (key issue) d) l2 d.
Proof.
  induction 1 as [|x l1 l2 _ IH|x y l|l1 l2 l3 _ IH1 _ IH2];
    intros d; cbn [fold_left].
  - reflexivity.
  - apply IH.
  - now rewrite bump_comm.
  - now rewrite IH1, IH2.
Qed.

(** Filing by path does not depend on the order of the results as long
    as no two results carry the same path. *)
Lemma by_file_perm (l1 l2 : list FileResult) :
  Permutation l1 l2 ->
  NoDup (map fr_file l1) ->
  forall d : gmap string (list Issue),
    fold_left (fun d result => <[fr_file result := issues result]> d) l1 d
    = fold_left (fun d result => <[fr_file result := issues result]> d) l2 d.
Proof.
  induction 1 as [|x l1 l2 Hp IH|x y l|l1 l2 l3 Hp1 IH1 Hp2 IH2];
    intros Hnd d; cbn [fold_left].
  - reflexivity.
  - apply IH. cbn [map] in Hnd. now apply NoDup_cons in Hnd.
  - cbn [map] in Hnd. apply NoDup_cons in Hnd. destruct Hnd as [Hnotin _].
    rewrite insert_insert_ne; [reflexivity|].
    intros Heq. apply Hnotin. rewrite Heq. now left.
  - rewrite IH1 by exact Hnd. apply IH2.
    now rewrite <- (Permutation_map fr_file Hp1).
Qed.

Lemma reviewed_perm (l1 l2 : list FileResult) :
  Permutation l1 l2 ->
  Permutation (Reviewer.reviewed l1) (Reviewer.reviewed l2).
Proof.
  unfold Reviewer.reviewed.
  induction 1 as [|x l1 l2 _ IH|x y l|l1 l2 l3 _ IH1 _ IH2];
    cbn [List.filter].
  - constructor.
  - destruct (negb (skipped x)); [now constructor|exact IH].
  - destruct (negb (skipped x)), (negb (skipped y));
      try reflexivity; apply perm_swap.
  - now transitivity (List.filter (fun r => negb (skipped r)) l2).
Qed.

Lemma all_issues_perm (l1 l2 : list FileResult) :
  Permutation l1 l2 ->
  Permutation (Reviewer.all_issues l1) (Reviewer.all_issues l2).
Proof.
  intros H. unfold Reviewer.all_issues.
  apply Permutation_flat_map. now apply reviewed_perm.
Qed.

(** The order-independent part of the aggregate. *)
Lemma aggregate_perm (l1 l2 : list FileResult) :
  Permutation l1 l2 ->
  total_issues (Reviewer._aggregate_results l1)
  = total_issues (Reviewer._aggregate_results l2)
  /\ issues_by_severity (Reviewer._aggregate_results l1)
     = issues_by_severity (Reviewer._aggregate_results l2)
  /\ issues_by_type (Reviewer._aggregate_results l1)
     = issues_by_type (Reviewer._aggregate_results l2)
  /\ (NoDup (map fr_file (Reviewer.reviewed l1)) ->
      issues_by_file (Reviewer._aggregate_results l1)
      = issues_by_file (Reviewer._aggregate_results l2)).
Proof.
  intros Hp. pose proof (all_issues_perm _ _ Hp) as Hi.
  unfold Reviewer._aggregate_results;
    cbn [total_issues issues_by_severity issues_by_type issues_by_file].
  repeat split.
  - unfold Complexity.lenZ. now rewrite (Permutation_length Hi).
  - now apply count_by_perm.
  - now apply count_by_perm.
  - intros Hnd. apply by_file_perm; [now apply reviewed_perm|exact Hnd].
Qed.

Lemma observed_perm (l1 l2 : list FileResult) :
  Permutation l1 l2 ->
  NoDup (map fr_file (Reviewer.reviewed l1)) ->
  Spec.observed (Reviewer._aggregate_results l1)
  = Spec.observed (Reviewer._aggregate_results l2).
Proof.
  intros Hp Hnd. destruct (aggregate_perm l1 l2 Hp) as (H1 & H2 & H3 & H4).
  unfold Spec.observed. now rewrite H1, H2, H3, (H4 Hnd).
Qed.

End Aggregation.

Section DirectoryOrder.
Import Models Config.

Variable ast_parse : tree_provider.
Variable path_match : string -> string -> bool.
Variable fs : Path.FileSystem.

Abbreviation review_file'' := (Reviewer.review_file ast_parse path_match fs).
Abbreviation collect_results' :=
  (Reviewer.collect_results ast_parse path_match fs).
Abbreviation review_directory'' :=
  (Reviewer.review_directory ast_parse path_match fs).
Abbreviation outcome := (Reviewer.outcome ast_parse path_match fs).

Lemma collect_results_outcomes (rv : Reviewer.Reviewer) (files : list string) :
  collect_results' rv files = flat_map (outcome rv) files.
Proof.
  unfold Reviewer.collect_results.
  enough (H : forall acc,
             fold_left
               (fun results file_path =>
                  match review_file'' rv file_path with
                  | Ok result => results ++ [result]
                  | Raise _ => results
                  end) files acc
             = acc ++ flat_map (outcome rv) files) by apply (H []).
  induction files as [|p files IH]; intros acc; cbn [fold_left flat_map].
  - now rewrite app_nil_r.
  - rewrite IH. unfold Reviewer.outcome at 2.
    destruct (review_file'' rv p); [now rewrite <- app_assoc|reflexivity].
Qed.

(** A result carries the path it was asked for. *)
Lemma review_file_path (rv : Reviewer.Reviewer) (path : string)
    (r : FileResult) :
  review_file'' rv path = Ok r -> fr_file r = path.
Proof.
  unfold Reviewer.review_file.
  destruct (negb (Path.fs_exists fs path)); [discriminate|].
  destruct (negb (Reviewer._should_analyze_file path_match rv path)).
  { intros H; inversion H; reflexivity. }
  destruct (Reviewer.read_source fs path) as [code|e]; [|discriminate].
  unfold Reviewer.review_code.
  destruct (Reviewer._parse_code ast_parse code); [|discriminate].
  intros H; inversion H; reflexivity.
Qed.

Lemma outcome_paths (rv : Reviewer.Reviewer) (files : list string) (p : string) :
  In p (map fr_file (flat_map (outcome rv) files)) -> In p files.
Proof.
  induction files as [|q files IH]; cbn [flat_map]; [intros []|].
  rewrite List.map_app, in_app_iff. intros [H|H].
  - left. unfold Reviewer.outcome in H.
    destruct (review_file'' rv q) as [r|e] eqn:Hr; [|destruct H].
    destruct H as [<-|[]]. symmetry. now apply review_file_path with rv.
  - right. now apply IH.
Qed.

Lemma outcome_distinct (rv : Reviewer.Reviewer) (files : list string) :
  NoDup files -> NoDup (map fr_file (flat_map (outcome rv) files)).
Proof.
  induction 1 as [|p files Hnotin _ IH]; cbn [flat_map]; [constructor|].
  rewrite List.map_app.
  unfold Reviewer.outcome at 1.
  destruct (review_file'' rv p) as [r|e] eqn:Hr; cbn [map app]; [|exact IH].
  constructor; [|exact IH].
  rewrite (review_file_path rv p r Hr).
  intros Hin. apply Hnotin. apply list_elem_of_In.
  apply outcome_paths with rv. now apply list_elem_of_In.
Qed.

Lemma NoDup_list_filter {A : Type} (f : A -> bool) (l : list A) :
  NoDup l -> NoDup (List.filter f l).
Proof.
  induction 1 as [|x l Hnotin _ IH]; cbn [List.filter]; [constructor|].
  destruct (f x); [|exact IH].
  constructor; [|exact IH].
  intros Hin. apply Hnotin. apply list_elem_of_In.
  apply list_elem_of_In in Hin. now apply filter_In in Hin.
Qed.

Lemma insert_perm (p : string) (l : list string) :
  Permutation (Path.insert p l) (p :: l).
Proof.
  induction l as [|q l IH]; cbn [Path.insert]; [reflexivity|].
  destruct (Path.leb p q); [reflexivity|].
  rewrite IH. apply perm_swap.
Qed.

Lemma sorted_perm (l : list string) : Permutation (Path.sorted l) l.
Proof.
  induction l as [|p l IH]; cbn [Path.sorted]; [reflexivity|].
  rewrite insert_perm. now constructor.
Qed.

Lemma collect_files_distinct (rv : Reviewer.Reviewer) (directory : string)
    (recursive : bool) :
  (forall pattern, NoDup (Path.fs_glob fs directory pattern)) ->
  NoDup (Reviewer._collect_files path_match fs rv directory recursive).
Proof.
  intros Hglob. unfold Reviewer._collect_files.
  rewrite sorted_perm. apply NoDup_list_filter, Hglob.
Qed.

Lemma reviewed_sublist_distinct (l : list FileResult) :
  NoDup (map fr_file l) -> NoDup (map fr_file (Reviewer.reviewed l)).
Proof.
  unfold Reviewer.reviewed.
  induction l as [|r l IH]; cbn [map List.filter]; [constructor|].
  intros Hnd. apply NoDup_cons in Hnd. destruct Hnd as [Hnotin Hnd].
  destruct (negb (skipped r)); cbn [map]; [|now apply IH].
  constructor; [|now apply IH].
  intros Hin. apply Hnotin.
  apply list_elem_of_In in Hin. apply list_elem_of_In.
  apply in_map_iff in Hin. destruct Hin as (r' & <- & Hin).
  apply filter_In in Hin. apply in_map, Hin.
Qed.

(** The two ways of processing a directory agree on the four fields. *)
Lemma review_directory_order (rv : Reviewer.Reviewer) (directory : string)
    (recursive : bool) (max_workers : Z) (completion : list string) :
  (forall pattern, NoDup (Path.fs_glob fs directory pattern)) ->
  Permutation completion
    (Reviewer._collect_files path_match fs rv directory recursive) ->
  0 < max_workers ->
  Spec.result_map Spec.observed
    (review_directory'' rv directory recursive true max_workers completion)
  = Spec.result_map Spec.observed
      (review_directory'' rv directory recursive false max_workers completion).
Proof.
  intros Hglob Hperm Hw. unfold Reviewer.review_directory.
  destruct (negb (Path.fs_exists fs directory)); [reflexivity|].
  destruct (negb (Path.fs_is_dir fs directory)); [reflexivity|].
  pose proof (collect_files_distinct rv directory recursive Hglob) as Hnd.
  destruct (Reviewer._collect_files path_match fs rv directory recursive)
    as [|f files] eqn:Hfiles; [reflexivity|].
  cbn [andb]. destruct (1 <? Complexity.lenZ (f :: files)); [|reflexivity].
  unfold Reviewer._process_parallel, Reviewer._process_sequential.
  destruct (Z.leb_spec max_workers 0); [lia|].
  cbn [Spec.result_map]. f_equal.
  rewrite !collect_results_outcomes.
  apply observed_perm.
  - now apply Permutation_flat_map.
  - apply reviewed_sublist_distinct, outcome_distinct.
    now rewrite Hperm.
Qed.

(** C3, as the code has it.  Applied to two arrangements of the same
    file results, [_aggregate_results] gives the same [total_issues],
    [issues_by_severity] and [issues_by_type]; it gives the same
    [issues_by_file] when the results that are not skipped carry pairwise
    distinct paths.  The results of one directory review do, so reviewing
    a directory in parallel, whatever the order of completion, and
    sequentially agree on all four fields. *)
Theorem aggregation_order_independent :
  (forall l1 l2 : list FileResult,
     Permutation l1 l2 ->
     total_issues (Reviewer._aggregate_results l1)
     = total_issues (Reviewer._aggregate_results l2)
     /\ issues_by_severity (Reviewer._aggregate_results l1)
        = issues_by_severity (Reviewer._aggregate_results l2)
     /\ issues_by_type (Reviewer._aggregate_results l1)
        = issues_by_type (Reviewer._aggregate_results l2)
     /\ (NoDup (map fr_file (Reviewer.reviewed l1)) ->
         issues_by_file (Reviewer._aggregate_results l1)
         = issues_by_file (Reviewer._aggregate_results l2)))
  /\ (forall rv directory recursive max_workers completion,
        (forall pattern, NoDup (Path.fs_glob fs directory pattern)) ->
        Permutation completion
          (Reviewer._collect_files path_match fs rv directory recursive) ->
        0 < max_workers ->
        Spec.result_map Spec.observed
          (review_directory'' rv directory recursive true max_workers
             completion)
        = Spec.result_map Spec.observed
            (review_directory'' rv directory recursive false max_workers
               completion)).
Proof.
  split.
  - apply aggregate_perm.
  - apply review_directory_order.
Qed.

End DirectoryOrder.

Section DirectoryOrderExamples.
Import Models Config.

(** C3 as stated fails: two results for the same path, taken in the two
    possible orders, leave different entries in [issues_by_file]. *)
Lemma aggregate_same_path_twice :
  Permutation [Fixtures.first_result; Fixtures.second_result]
              [Fixtures.second_result; Fixtures.first_result]
  /\ issues_by_file
       (Reviewer._aggregate_results
          [Fixtures.first_result; Fixtures.second_result])
     <> issues_by_file
          (Reviewer._aggregate_results
             [Fixtures.second_result; Fixtures.first_result]).
Proof.
  split; [apply perm_swap|].
  intros Heq.
  assert (H : issues_by_file
                (Reviewer._aggregate_results
                   [Fixtures.first_result; Fixtures.second_result]) !! "a.py"
              = issues_by_file
                  (Reviewer._aggregate_results
                     [Fixtures.second_result; Fixtures.first_result]) !! "a.py")
    by now rewrite Heq.
  unfold Reviewer._aggregate_results in H.
  cbn [issues_by_file Reviewer.reviewed List.filter Fixtures.first_result
       Fixtures.second_result skipped negb fold_left fr_file issues] in H.
  rewrite !lookup_insert_eq in H. discriminate H.
Qed.

Lemma aggregate_two_files :
  Spec.observed
    (Reviewer._aggregate_results [Fixtures.first_result; Fixtures.other_result])
  = Spec.observed
      (Reviewer._aggregate_results [Fixtures.other_result; Fixtures.first_result])
  /\ Spec.result_map Spec.observed
       (Reviewer.review_directory Fixtures.rejecting_parser Fixtures.no_match
          Fixtures.small_tree Fixtures.default_reviewer "pkg" true true 4
          ["pkg/b.py"; "pkg/a.py"])
     = Spec.result_map Spec.observed
         (Reviewer.review_directory Fixtures.rejecting_parser Fixtures.no_match
            Fixtures.small_tree Fixtures.default_reviewer "pkg" true false 4
            ["pkg/b.py"; "pkg/a.py"]).
Proof.
  destruct (aggregation_order_independent Fixtures.rejecting_parser
              Fixtures.no_match Fixtures.small_tree) as [Hagg Hdir].
  split.
  - destruct (Hagg [Fixtures.first_result; Fixtures.other_result]
                [Fixtures.other_result; Fixtures.first_result]
                (perm_swap _ _ _)) as (H1 & H2 & H3 & H4).
    unfold Spec.observed. rewrite H1, H2, H3, H4; [reflexivity|].
    cbn. repeat constructor; rewrite ?list_elem_of_In; cbn; intuition discriminate.
  - apply Hdir.
    + intros pattern. cbn.
      repeat constructor; rewrite ?list_elem_of_In; cbn; intuition discriminate.
    + vm_compute. apply perm_swap.
    + lia.
Defined.

End DirectoryOrderExamples.

(** ** Masking of secrets ([_mask_secret], [_check_hardcoded_secrets]) *)

Section MaskSecret.
Import Security.

Lemma app_nil (y : string) : EmptyString +:+ y = y.
Proof. reflexivity. Qed.

Lemma app_cons (c : ascii) (x y : string) :
  String c x +:+ y = String c (x +:+ y).
Proof. reflexivity. Qed.

Lemma length_app (x y : string) :
  String.length (x +:+ y) = (String.length x + String.length y)%nat.
Proof.
  induction x as [|c x IH]; [reflexivity|].
  rewrite app_cons. cbn [String.length]. rewrite IH. reflexivity.
Qed.

Lemma substring_app (x y : string) :
  String.substring 0 (String.length x) (x +:+ y) = x.
Proof.
  induction x as [|c x IH]; [now destruct y|].
  rewrite app_cons. cbn [String.length String.substring]. now rewrite IH.
Qed.

Lemma consumed_app (x y : string) : Re.consumed (x +:+ y) y = x.
Proof.
  unfold Re.consumed. rewrite length_app.
  replace (String.length x + String.length y - String.length y)%nat
    with (String.length x) by lia.
  apply substring_app.
Qed.

Lemma no_quote_cons (c : ascii) (x : string) :
  no_quote (String c x) <-> is_quote c = false /\ no_quote x.
Proof.
  unfold no_quote. cbn [PyStr.all_chars]. rewrite andb_true_iff, negb_true_iff.
  reflexivity.
Qed.


Abbreviation NQ := (Re.NoneOf quotes).

Lemma NQ_matches (c : ascii) :
  Re.atom_matches false NQ c = negb (is_quote c).
Proof. reflexivity. Qed.


Lemma repeat_short {R : Type} (n : nat) (x y : string) (g : Re.groups) (k : @Re.cont R) :
  (String.length x < n)%nat -> at_quote y ->
  Re.repeat false n NQ (x +:+ y) g k = None.
Proof.
  revert n. induction x as [|c x IH]; intros n Hn Hy.
  - rewrite app_nil. destruct n; [cbn in Hn; lia|]. cbn [Re.repeat].
    destruct y as [|c y]; [reflexivity|].
    cbn [at_quote] in Hy. now rewrite NQ_matches, Hy.
  - rewrite app_cons. destruct n; [cbn in Hn; lia|]. cbn [Re.repeat].
    destruct (Re.atom_matches false NQ c); [|reflexivity].
    apply IH; [cbn in Hn; lia|exact Hy].
Qed.



(** When the rest of the pattern fails after every shorter run, the star
    fails. *)
Lemma star_none {R : Type} (u rest : string) (g : Re.groups) (k : @Re.cont R) :
  no_quote u -> at_quote rest ->
  (forall v, no_quote v -> (String.length v <= String.length u)%nat ->
             k (v +:+ rest) g = None) ->
  Re.star false NQ (u +:+ rest) g k = None.
Proof.
  intros Hu Hrest. induction u as [|c u IH]; intros Hk.
  - rewrite app_nil. specialize (Hk EmptyString eq_refl). rewrite app_nil in Hk.
    destruct rest as [|q rest']; cbn [Re.star]; [apply Hk; cbn; lia|].
    cbn [at_quote] in Hrest. rewrite NQ_matches, Hrest. cbn [negb].
    apply Hk; cbn; lia.
  - apply no_quote_cons in Hu. destruct Hu as [Hc Hu].
    rewrite app_cons. cbn [Re.star]. rewrite NQ_matches, Hc. cbn [negb].
    rewrite (IH Hu).
    + rewrite <- app_cons. apply Hk; [|lia]. now apply no_quote_cons.
    + intros v Hv Hlen. apply Hk; [exact Hv|]. cbn [String.length]. lia.
Qed.

Lemma prefix_char (q c : ascii) (s : string) :
  String.prefix (String q EmptyString) (String c s) = Ascii.eqb q c.
Proof.
  cbn [String.prefix].
  destruct (ascii_dec q c) as [->|Hne].
  - rewrite Ascii.eqb_refl. now destruct s.
  - symmetry. now apply Ascii.eqb_neq.
Qed.

Lemma quote_not_nonquote (q c : ascii) :
  is_quote q = true -> is_quote c = false -> Ascii.eqb q c = false.
Proof.
  intros Hq Hc. apply Ascii.eqb_neq. intros ->. congruence.
Qed.

(** After the star: a run that is not exactly two characters long before
    the next quote cannot be closed. *)
Lemma tail_k_none {R : Type} (q : ascii) (v rest : string) (g : Re.groups)
    (k : @Re.cont R) :
  is_quote q = true -> Re.lookup 1 g = Some (String q EmptyString) ->
  no_quote v -> (String.length v <> 2)%nat -> at_quote rest ->
  tail_k k (v +:+ rest) g = None.
Proof.
  intros Hq Hg Hv Hlen Hrest. unfold tail_k. cbn [Re.step].
  destruct v as [|c1 [|c2 [|c3 v]]].
  - apply repeat_short; [cbn; lia|exact Hrest].
  - apply repeat_short; [cbn; lia|exact Hrest].
  - now contradiction Hlen.
  - apply no_quote_cons in Hv. destruct Hv as [H1 Hv].
    apply no_quote_cons in Hv. destruct Hv as [H2 Hv].
    apply no_quote_cons in Hv. destruct Hv as [H3 Hv].
    rewrite !app_cons. cbn [Re.repeat]. rewrite !NQ_matches, H1, H2.
    cbn [negb Re.lookup Nat.eqb]. rewrite Hg, prefix_char.
    now rewrite (quote_not_nonquote q c3 Hq H3).
Qed.



(** The pattern at an opening quote: group 1 is read, and the run that
    follows is handed to the rest of the pattern. *)
Lemma match_at_quote (q : ascii) (t : string) :
  is_quote q = true ->
  Re.match_at false mask_pattern (String q t)
  = Re.step false (Re.Group 2 [Re.Repeat 4 NQ]) t
      [(1%nat, String q EmptyString)]
      (fun s g => Re.star false NQ s g (tail_k final)).
Proof.
  intros Hq. unfold Re.match_at, mask_pattern. cbn [Re.seq Re.step].
  cbn [Re.atom_matches]. fold (is_quote q). rewrite Hq.
  change (String q t) with (String q EmptyString +:+ t).
  rewrite consumed_app. reflexivity.
Qed.


Lemma match_at_short (q : ascii) (lit rest : string) :
  is_quote q = true -> no_quote lit -> (String.length lit < 6)%nat ->
  at_quote rest ->
  Re.match_at false mask_pattern (String q (lit +:+ rest)) = None.
Proof.
  intros Hq Hlit Hlen Hrest.
  rewrite match_at_quote by exact Hq. cbn [Re.step].
  destruct (Nat.lt_ge_cases (String.length lit) 4) as [Hlt|Hge].
  - now apply repeat_short.
  - destruct lit as [|c1 [|c2 [|c3 [|c4 u]]]]; try (cbn in Hge; lia).
    apply no_quote_cons in Hlit. destruct Hlit as [H1 Hlit].
    apply no_quote_cons in Hlit. destruct Hlit as [H2 Hlit].
    apply no_quote_cons in Hlit. destruct Hlit as [H3 Hlit].
    apply no_quote_cons in Hlit. destruct Hlit as [H4 Hu].
    rewrite !app_cons. cbn [Re.repeat]. rewrite !NQ_matches, H1, H2, H3, H4.
    cbn [negb].
    apply star_none; [exact Hu|exact Hrest|].
    intros v Hv Hvlen. apply (tail_k_none q); try assumption; [reflexivity|].
    cbn [String.length] in Hlen. lia.
Qed.

Lemma match_at_nonquote (c : ascii) (s : string) :
  is_quote c = false -> Re.match_at false mask_pattern (String c s) = None.
Proof.
  intros Hc. unfold Re.match_at, mask_pattern. cbn [Re.seq Re.step].
  cbn [Re.atom_matches]. fold (is_quote c). now rewrite Hc.
Qed.

Abbreviation mask_loop := (Re.sub_loop false mask_pattern mask_template).


Lemma mask_loop_nonquote (c : ascii) (s : string) :
  is_quote c = false -> mask_loop (String c s) 0 = String c (mask_loop s 0).
Proof.
  intros Hc. cbn [Re.sub_loop]. now rewrite match_at_nonquote.
Qed.

Lemma mask_loop_prefix (pre s : string) :
  no_quote pre -> mask_loop (pre +:+ s) 0 = pre +:+ mask_loop s 0.
Proof.
  induction pre as [|c pre IH]; intros Hpre; [reflexivity|].
  apply no_quote_cons in Hpre. destruct Hpre as [Hc Hpre].
  rewrite !app_cons, mask_loop_nonquote by exact Hc. now rewrite IH.
Qed.


Lemma mask_loop_short (q : ascii) (lit rest : string) :
  is_quote q = true -> no_quote lit -> (String.length lit < 6)%nat ->
  at_quote rest ->
  mask_loop (String q (lit +:+ rest)) 0
  = String q (lit +:+ mask_loop rest 0).
Proof.
  intros Hq Hlit Hlen Hrest.
  cbn [Re.sub_loop]. rewrite match_at_short by assumption.
  now rewrite mask_loop_prefix.
Qed.

Lemma enumerate_In {A : Type} (l : list A) (start i : Z) (x : A) :
  In (i, x) (Complexity.enumerate start l) -> In x l.
Proof.
  revert start. induction l as [|y l IH]; intros start; cbn [Complexity.enumerate In].
  - tauto.
  - intros [H|H]; [inversion H; now left|right; now apply IH with (start + 1)].
Qed.

Lemma enumerate_spec {A : Type} (l : list A) (default : A) :
  forall (start i : Z) (x : A),
    In (i, x) (Complexity.enumerate start l) ->
    start <= i < start + Z.of_nat (length l)
    /\ nth (Z.to_nat (i - start)) l default = x.
Proof.
  induction l as [|y l IH]; intros start i x; cbn [Complexity.enumerate In length].
  - intros [].
  - intros [H|H].
    + inversion H; subst. split; [lia|].
      now replace (Z.to_nat (i - i)) with 0%nat by lia.
    + destruct (IH (start + 1) i x H) as [Hr Hn]. split; [lia|].
      replace (Z.to_nat (i - start)) with (S (Z.to_nat (i - (start + 1)))) by lia.
      exact Hn.
Qed.







End MaskSecret.

Section MaskSecretExamples.



(** The issue reported for that line carries this snippet: the second
    literal is in the clear. *)
Remark second_literal_in_the_clear :
  map Models.code
    (Security._check_hardcoded_secrets Fixtures.two_literals "settings.py")
  = ["password = " +:+ Fixtures.dq +:+ "x" +:+ Fixtures.dq +:+ " if ****e "
     +:+ Fixtures.dq +:+ "hunter2222" +:+ Fixtures.dq].
Proof. vm_compute. reflexivity. Qed.

(** A literal secret is reported once, at severity high; a placeholder is
    not reported. *)
Lemma secret_reported_placeholder_not :
  map (fun i => (Models.type i, Models.severity i, Models.line i))
    (Security._check_hardcoded_secrets Fixtures.secret_line "settings.py")
  = [("hardcoded_secret", Models.HIGH, 1)]
  /\ Security._check_hardcoded_secrets
       ("password = " +:+ Fixtures.dq +:+ "your_password_here" +:+ Fixtures.dq)
       "settings.py" = [].
Proof. split; vm_compute; reflexivity. Qed.

End MaskSecretExamples.

(** * Further properties of the code *)

(** ** Scores of file results and of aggregates *)

Section Scores.
Import Models.

Lemma calculate_grade_rank (s : Z) :
  Spec.grade_rank (calculate_grade s)
  = if s >=? 90 then 4 else if s >=? 80 then 3
    else if s >=? 70 then 2 else if s >=? 60 then 1 else 0.
Proof.
  unfold calculate_grade.
  destruct (s >=? 90); [reflexivity|].
  destruct (s >=? 80); [reflexivity|].
  destruct (s >=? 70); [reflexivity|].
  destruct (s >=? 60); reflexivity.
Qed.

(** X1.  [calculate_grade] is monotone: a score that is not lower never gets
    a worse letter. *)
Theorem calculate_grade_monotone (s1 s2 : Z) :
  s1 <= s2 ->
  Spec.grade_rank (calculate_grade s1) <= Spec.grade_rank (calculate_grade s2).
Proof.
  intros H. rewrite !calculate_grade_rank.
  destruct (Z.geb_spec s1 90), (Z.geb_spec s2 90),
           (Z.geb_spec s1 80), (Z.geb_spec s2 80),
           (Z.geb_spec s1 70), (Z.geb_spec s2 70),
           (Z.geb_spec s1 60), (Z.geb_spec s2 60); lia.
Qed.

Lemma calculate_grade_monotone_example :
  Spec.grade_rank (calculate_grade 59) <= Spec.grade_rank (calculate_grade 60).
Proof. apply calculate_grade_monotone. lia. Defined.

Lemma deductions_app (l l' : list Issue) :
  Spec.deductions (l ++ l') = Spec.deductions l + Spec.deductions l'.
Proof.
  unfold Spec.deductions. now rewrite List.map_app, sumZ_app.
Qed.

Lemma grade_is_calculate_grade (r : FileResult) :
  grade r = calculate_grade (score r).
Proof. reflexivity. Qed.

(** X2.  Issues only ever cost points: a file result with further issues
    has a score and a grade that are not better, whatever the issues are. *)
Theorem more_issues_never_help (f : string) (m : option Metrics) (sk : bool)
    (e : option string) (l l' : list Issue) :
  score (mkFileResult f (l ++ l') m sk e) <= score (mkFileResult f l m sk e)
  /\ Spec.grade_rank (grade (mkFileResult f (l ++ l') m sk e))
     <= Spec.grade_rank (grade (mkFileResult f l m sk e)).
Proof.
  assert (H : score (mkFileResult f (l ++ l') m sk e)
              <= score (mkFileResult f l m sk e)).
  { unfold score; cbn [issues]. rewrite !score_loop, deductions_app.
    pose proof (deductions_nonneg l'). lia. }
  split; [exact H|].
  rewrite !grade_is_calculate_grade, !calculate_grade_rank.
  set (s1 := score (mkFileResult f (l ++ l') m sk e)) in *.
  set (s2 := score (mkFileResult f l m sk e)) in *.
  destruct (Z.geb_spec s1 90), (Z.geb_spec s2 90),
           (Z.geb_spec s1 80), (Z.geb_spec s2 80),
           (Z.geb_spec s1 70), (Z.geb_spec s2 70),
           (Z.geb_spec s1 60), (Z.geb_spec s2 60); lia.
Qed.

Lemma bump_lookup (k' k : string) (d : gmap string Z) :
  Reviewer.bump k' d !! k
  = if String.eqb k' k then Some (default 0 (d !! k) + 1) else d !! k.
Proof.
  unfold Reviewer.bump.
  destruct (String.eqb_spec k' k) as [->|Hne].
  - apply lookup_insert_eq.
  - now apply lookup_insert_ne.
Qed.

(** After the counting loop an entry holds the number of issues filed
    under its key, and there is no entry for a key without issues. *)
Lemma count_loop_lookup (key : Issue -> string) (l : list Issue) :
  forall (d : gmap string Z) (k : string),
    (forall n, d !! k = Some n -> 0 < n) ->
    Spec.count_loop key l d !! k
    = if (0 <? default 0 (d !! k) + Spec.count_key key k l)
      then Some (default 0 (d !! k) + Spec.count_key key k l) else None.
Proof.
  unfold Spec.count_loop, Spec.count_key.
  induction l as [|i l IH]; intros d k Hpos.
  - simpl. destruct (d !! k) as [n|] eqn:Hd; simpl; unfold id; [|reflexivity].
    specialize (Hpos n eq_refl). rewrite Z.add_0_r.
    destruct (Z.ltb_spec 0 n); [reflexivity|lia].
  - cbn [fold_left]. rewrite IH.
    + rewrite bump_lookup. simpl (List.filter _ (i :: l)).
      destruct (String.eqb (key i) k); [|reflexivity].
      cbn [length]. rewrite Nat2Z.inj_succ.
      set (c := Z.of_nat (length (List.filter _ l))).
      change (default 0 (Some (default 0 (d !! k) + 1)))
        with (default 0 (d !! k) + 1).
      replace (default 0 (d !! k) + 1 + c)
        with (default 0 (d !! k) + Z.succ c) by lia.
      reflexivity.
    + intros n. rewrite bump_lookup.
      destruct (String.eqb (key i) k); [|apply Hpos].
      intros H; inversion H; subst.
      destruct (d !! k) as [m|] eqn:Hd; simpl; unfold id; [|lia].
      specialize (Hpos m eq_refl). lia.
Qed.

(** Folding over a count table that one [bump] has changed. *)
Lemma fold_bump (f : string -> Z -> Z -> Z) (step : string -> Z -> Z)
    (b : Z) (k : string) (d : gmap string Z) :
  (forall j1 j2 z1 z2 y, f j1 z1 (f j2 z2 y) = f j2 z2 (f j1 z1 y)) ->
  (forall key acc, f key 1 acc = step key acc) ->
  (forall key c acc, f key (c + 1) acc = step key (f key c acc)) ->
  map_fold f b (Reviewer.bump k d) = step k (map_fold f b d).
Proof.
  intros Hcomm Hone Hnext. unfold Reviewer.bump.
  destruct (d !! k) as [c|] eqn:Hd;
    [change (default 0 (Some c)) with c|change (default 0 (@None Z)) with 0].
  - rewrite (map_fold_delete_L f b k c d) by (intros; apply Hcomm || exact Hd).
    rewrite <- (insert_delete_eq d).
    rewrite map_fold_insert_L;
      [apply Hnext|intros; apply Hcomm|apply lookup_delete_eq].
  - rewrite map_fold_insert_L; [apply Hone|intros; apply Hcomm|exact Hd].
Qed.

Lemma fold_count_loop (f : string -> Z -> Z -> Z) (step : string -> Z -> Z)
    (key : Issue -> string) (b : Z) (l : list Issue) :
  (forall j1 j2 z1 z2 y, f j1 z1 (f j2 z2 y) = f j2 z2 (f j1 z1 y)) ->
  (forall key acc, f key 1 acc = step key acc) ->
  (forall key c acc, f key (c + 1) acc = step key (f key c acc)) ->
  forall d,
    map_fold f b (Spec.count_loop key l d)
    = fold_left (fun acc i => step (key i) acc) l (map_fold f b d).
Proof.
  intros Hcomm Hone Hnext. unfold Spec.count_loop.
  induction l as [|i l IH]; intros d; cbn [fold_left]; [reflexivity|].
  now rewrite IH, (fold_bump f step).
Qed.

Lemma weighted_loop (w : string -> Z) (key : Issue -> string) (b : Z)
    (l : list Issue) (d : gmap string Z) :
  map_fold (fun k count acc => acc - w k * count) b (Spec.count_loop key l d)
  = map_fold (fun k count acc => acc - w k * count) b d
    - Reviewer.sumZ (map (fun i => w (key i)) l).
Proof.
  rewrite (fold_count_loop _ (fun k acc => acc - w k)) by (intros; lia).
  generalize (map_fold (fun k count acc => acc - w k * count) b d).
  induction l as [|i l IH]; intros z; cbn [fold_left map].
  - change (Reviewer.sumZ []) with 0. lia.
  - rewrite IH, sumZ_cons. lia.
Qed.

Lemma counts_sum (key : Issue -> string) (l : list Issue) :
  map_fold (fun _ count acc => acc + count) 0 (Spec.count_loop key l ∅)
  = Z.of_nat (length l).
Proof.
  rewrite (fold_count_loop _ (fun _ acc => acc + 1)) by (intros; lia).
  rewrite map_fold_empty.
  replace (Z.of_nat (length l)) with (0 + Z.of_nat (length l)) by lia.
  generalize 0.
  induction l as [|i l IH]; intros z; cbn [fold_left length].
  - lia.
  - rewrite IH. lia.
Qed.

Lemma name_deduction_is_weight (s : Severity) :
  dict_get String.eqb name_deductions (Severity_value s) 0 = Spec.weight s.
Proof. destruct s; reflexivity. Qed.

(** X3.  The score of an aggregated review is the file-level formula
    applied to all issues of the reviewed files at once: it equals the score
    of a single file result holding them all, and so does the grade. *)
Theorem aggregate_score_is_file_score (l : list FileResult) (f : string)
    (m : option Metrics) (sk : bool) (e : option string) :
  ReviewResult_score (Reviewer._aggregate_results l)
  = score (mkFileResult f (Reviewer.all_issues l) m sk e)
  /\ ReviewResult_grade (Reviewer._aggregate_results l)
     = grade (mkFileResult f (Reviewer.all_issues l) m sk e).
Proof.
  assert (H : ReviewResult_score (Reviewer._aggregate_results l)
              = score (mkFileResult f (Reviewer.all_issues l) m sk e)).
  { unfold ReviewResult_score, Reviewer._aggregate_results, score.
    cbn [issues_by_severity issues]. rewrite score_loop.
    change (fold_left _ (Reviewer.all_issues l) ∅)
      with (Spec.count_loop (fun i => Severity_value (severity i))
              (Reviewer.all_issues l) ∅).
    rewrite (weighted_loop
               (fun sev => dict_get String.eqb name_deductions sev 0)).
    rewrite map_fold_empty. unfold Spec.deductions.
    do 4 f_equal. apply map_ext. intros i. apply name_deduction_is_weight. }
  split; [exact H|].
  unfold ReviewResult_grade, grade. now rewrite H.
Qed.

(** X4.  The two breakdowns of an aggregated review are exact: the entry of
    a type (of a severity) is the number of issues of that type (severity)
    in the reviewed files, a type or severity without issues has no entry,
    and the counts of either breakdown add up to [total_issues]. *)
Theorem aggregate_breakdowns_exact (l : list FileResult) :
  let r := Reviewer._aggregate_results l in
  (forall t, issues_by_type r !! t
             = if 0 <? Spec.count_key type t (Reviewer.all_issues l)
               then Some (Spec.count_key type t (Reviewer.all_issues l))
               else None)
  /\ (forall s, issues_by_severity r !! s
                = if 0 <? Spec.count_key
                            (fun i => Severity_value (severity i)) s
                            (Reviewer.all_issues l)
                  then Some (Spec.count_key
                               (fun i => Severity_value (severity i)) s
                               (Reviewer.all_issues l))
                  else None)
  /\ map_fold (fun _ count acc => acc + count) 0 (issues_by_type r)
     = total_issues r
  /\ map_fold (fun _ count acc => acc + count) 0 (issues_by_severity r)
     = total_issues r.
Proof.
  cbn zeta. unfold Reviewer._aggregate_results.
  cbn [issues_by_type issues_by_severity total_issues].
  repeat split.
  - intros t.
    change (fold_left _ (Reviewer.all_issues l) ∅)
      with (Spec.count_loop type (Reviewer.all_issues l) ∅).
    rewrite count_loop_lookup by (intros n; rewrite lookup_empty; discriminate).
    rewrite lookup_empty. reflexivity.
  - intros s.
    change (fold_left _ (Reviewer.all_issues l) ∅)
      with (Spec.count_loop (fun i => Severity_value (severity i))
              (Reviewer.all_issues l) ∅).
    rewrite count_loop_lookup by (intros n; rewrite lookup_empty; discriminate).
    rewrite lookup_empty. reflexivity.
  - apply (counts_sum type).
  - apply (counts_sum (fun i => Severity_value (severity i))).
Qed.

Lemma score_loop_bounds (l : list Issue) :
  fold_left
    (fun score issue =>
       score - dict_get Severity_eqb severity_deductions (severity issue) 0)
    l 100 <= 100.
Proof. rewrite score_loop. pose proof (deductions_nonneg l). lia. Qed.

(** X5.  [calculate_score] without metrics is the score of a file result;
    metrics can only lower it, by at most 20 points before clamping, and the
    result stays between 0 and 100. *)
Theorem calculate_score_penalties (l : list Issue) (m : Metrics)
    (f : string) (sk : bool) (e : option string) :
  calculate_score l None = score (mkFileResult f l None sk e)
  /\ calculate_score l (Some m) <= calculate_score l None
  /\ calculate_score l None - 20 <= calculate_score l (Some m)
  /\ 0 <= calculate_score l (Some m) <= 100.
Proof.
  unfold calculate_score, score; cbn [issues].
  set (s := fold_left _ l 100).
  repeat split; try reflexivity;
    destruct (Qltb (maintainability_index m) 50),
             (Qltb (maintainability_index m) 65),
             (max_complexity m >? 20), (max_complexity m >? 10); lia.
Qed.

End Scores.

(** ** Severity names in the configuration ([Config]) *)

Section ConfigSeverity.
Import Models Config.

Lemma index_of_value (S : Severity) :
  list_index (Severity_value S) severity_order = Ok (4 - Spec.urgency S).
Proof. destruct S; reflexivity. Qed.

Lemma str_in_valid (s : string) :
  str_in s valid_severities = true -> exists S, s = Severity_value S.
Proof.
  unfold str_in, valid_severities. cbn [existsb].
  rewrite !orb_true_iff, !String.eqb_eq.
  intros [H|[H|[H|[H|[H|H]]]]]; try discriminate H;
    [exists CRITICAL|exists HIGH|exists MEDIUM|exists LOW|exists INFO];
    exact H.
Qed.

Lemma index_invalid (s : string) :
  str_in s valid_severities = false ->
  list_index s severity_order = Raise (OtherException "ValueError").
Proof.
  unfold str_in, valid_severities, severity_order.
  cbn [existsb list_index]. rewrite !orb_false_iff.
  intros (H1 & H2 & H3 & H4 & H5 & _).
  rewrite (String.eqb_sym "critical"), H1, (String.eqb_sym "high"), H2,
    (String.eqb_sym "medium"), H3, (String.eqb_sym "low"), H4,
    (String.eqb_sym "info"), H5.
  reflexivity.
Qed.

(** X6.  A configuration accepted by [__post_init__] always has a
    [min_severity_index].  [should_report_severity] reads both names without
    regard to case: for a severity spelled in any case it answers whether
    that severity is at least the configured minimum, and for any other
    string it raises [ValueError]. *)
Theorem should_report_severity_spec (c c' : Config) (name : string) :
  post_init c = Ok c' ->
  exists Smin,
    PyStr.lower (min_severity c) = Severity_value Smin
    /\ min_severity_index c = Ok (4 - Spec.urgency Smin)
    /\ (forall S, PyStr.lower name = Severity_value S ->
                  should_report_severity c name = Ok (Spec.at_least Smin S))
    /\ (str_in (PyStr.lower name) valid_severities = false ->
        should_report_severity c name = Raise (OtherException "ValueError")).
Proof.
  unfold post_init.
  destruct (str_in (PyStr.lower (min_severity c)) valid_severities) eqn:Hmin;
    cbn [negb]; [|discriminate].
  intros _. destruct (str_in_valid _ Hmin) as [Smin HS].
  exists Smin.
  assert (Hidx : min_severity_index c = Ok (4 - Spec.urgency Smin))
    by (unfold min_severity_index; rewrite HS; apply index_of_value).
  repeat split; try assumption.
  - intros S Hname. unfold should_report_severity.
    rewrite Hname, index_of_value, Hidx. f_equal. unfold Spec.at_least.
    destruct (Z.leb_spec (4 - Spec.urgency S) (4 - Spec.urgency Smin)),
             (Z.leb_spec (Spec.urgency Smin) (Spec.urgency S));
      try reflexivity; lia.
  - intros Hbad. unfold should_report_severity. now rewrite index_invalid.
Qed.

End ConfigSeverity.

Section ConfigSeverityExamples.
Import Models Config.

Lemma should_report_relaxed :
  should_report_severity relaxed "CRITICAL" = Ok true
  /\ should_report_severity relaxed "Low" = Ok false
  /\ should_report_severity relaxed "urgent"
     = Raise (OtherException "ValueError").
Proof.
  destruct (should_report_severity_spec relaxed relaxed "CRITICAL" eq_refl)
    as (S1 & H1 & _ & Hyes & _).
  destruct (should_report_severity_spec relaxed relaxed "Low" eq_refl)
    as (S2 & H2 & _ & Hno & _).
  destruct (should_report_severity_spec relaxed relaxed "urgent" eq_refl)
    as (S3 & _ & _ & _ & Hbad).
  assert (S1 = HIGH) by (destruct S1; vm_compute in H1; congruence).
  assert (S2 = HIGH) by (destruct S2; vm_compute in H2; congruence).
  subst.
  split; [exact (Hyes CRITICAL eq_refl)|].
  split; [exact (Hno LOW eq_refl)|].
  exact (Hbad eq_refl).
Defined.

End ConfigSeverityExamples.

(** ** Lines of a source text ([BaseAnalyzer.get_code_line],
    [get_code_snippet]) *)

Section SourceLines.
Import BaseAnalyzer.

Abbreviation nl := (String PyStr.newline EmptyString).

Lemma split_nonempty (sep : ascii) (s : string) : PyStr.split sep s <> [].
Proof.
  destruct s as [|c s]; cbn [PyStr.split]; [discriminate|].
  destruct (Ascii.eqb c sep); [discriminate|].
  destruct (PyStr.split sep s); discriminate.
Qed.

Lemma join_two (sep p q : string) (l : list string) :
  PyStr.join sep (p :: q :: l) = p +:+ sep +:+ PyStr.join sep (q :: l).
Proof. reflexivity. Qed.

(** Joining the lines again gives the text back. *)
Lemma join_split (s : string) :
  PyStr.join nl (PyStr.splitlines_nl s) = s.
Proof.
  unfold PyStr.splitlines_nl.
  induction s as [|c s IH]; [reflexivity|].
  cbn [PyStr.split].
  pose proof (split_nonempty PyStr.newline s) as Hne.
  destruct (Ascii.eqb_spec c PyStr.newline) as [->|Hc].
  - destruct (PyStr.split PyStr.newline s) as [|w ws]; [contradiction|].
    rewrite join_two, IH. reflexivity.
  - destruct (PyStr.split PyStr.newline s) as [|w ws]; [contradiction|].
    destruct ws as [|w' ws].
    + cbn [PyStr.join] in *. now rewrite IH.
    + rewrite join_two in *. rewrite app_cons. now rewrite IH.
Qed.

Lemma split_lines_clean (s line : string) :
  In line (PyStr.splitlines_nl s) ->
  PyStr.all_chars (fun c => negb (Ascii.eqb c PyStr.newline)) line = true.
Proof.
  unfold PyStr.splitlines_nl. revert line.
  induction s as [|c s IH]; intros line; cbn [PyStr.split].
  - intros [<-|[]]. reflexivity.
  - pose proof (split_nonempty PyStr.newline s) as Hne.
    destruct (Ascii.eqb c PyStr.newline) eqn:Hc.
    + intros [<-|H]; [reflexivity|now apply IH].
    + destruct (PyStr.split PyStr.newline s) as [|w ws]; [contradiction|].
      intros [<-|H].
      * cbn [PyStr.all_chars]. rewrite Hc. cbn [negb andb].
        apply IH. now left.
      * apply IH. now right.
Qed.

Lemma lstrip_keeps (p : ascii -> bool) (s : string) :
  PyStr.all_chars p s = true -> PyStr.all_chars p (PyStr.lstrip s) = true.
Proof.
  induction s as [|c s IH]; cbn [PyStr.lstrip]; [reflexivity|].
  destruct (PyStr.isspace c); [|tauto].
  cbn [PyStr.all_chars]. rewrite andb_true_iff. intros [_ H]. now apply IH.
Qed.

Lemma rstrip_keeps (p : ascii -> bool) (s : string) :
  PyStr.all_chars p s = true -> PyStr.all_chars p (PyStr.rstrip s) = true.
Proof.
  induction s as [|c s IH]; cbn [PyStr.rstrip]; [reflexivity|].
  cbn [PyStr.all_chars]. rewrite andb_true_iff. intros [Hc H].
  specialize (IH H).
  destruct (PyStr.rstrip s) as [|c' r].
  - destruct (PyStr.isspace c); [reflexivity|].
    cbn [PyStr.all_chars]. now rewrite Hc.
  - cbn [PyStr.all_chars] in *. now rewrite Hc, IH.
Qed.

Lemma strip_keeps (p : ascii -> bool) (s : string) :
  PyStr.all_chars p s = true -> PyStr.all_chars p (PyStr.strip s) = true.
Proof. intros H. unfold PyStr.strip. now apply rstrip_keeps, lstrip_keeps. Qed.

(** X7.  [get_code_line] never fails: outside the lines of the text (below
    1 or beyond the last line) it returns the empty string, and what it
    returns never holds a newline. *)
Theorem get_code_line_total (code : string) (line_number : Z) :
  (line_number < 1
   \/ Z.of_nat (length (PyStr.splitlines_nl code)) < line_number ->
   get_code_line code line_number = EmptyString)
  /\ PyStr.all_chars (fun c => negb (Ascii.eqb c PyStr.newline))
       (get_code_line code line_number) = true.
Proof.
  unfold get_code_line. split.
  - intros H.
    destruct (Z.leb_spec 1 line_number),
             (Z.leb_spec line_number
                (Z.of_nat (length (PyStr.splitlines_nl code))));
      cbn [andb]; try reflexivity; lia.
  - destruct ((1 <=? line_number)
              && (line_number <=? Z.of_nat (length (PyStr.splitlines_nl code))))
      eqn:Hin; [|reflexivity].
    apply andb_true_iff in Hin. destruct Hin as [H1 H2].
    apply Z.leb_le in H1, H2.
    apply strip_keeps, (split_lines_clean code), nth_In. lia.
Qed.

Lemma get_code_line_outside :
  get_code_line "a = 1" 0 = EmptyString /\ get_code_line "a = 1" 2 = EmptyString.
Proof.
  split.
  - apply (proj1 (get_code_line_total "a = 1" 0)). left. lia.
  - apply (proj1 (get_code_line_total "a = 1" 2)). right.
    vm_compute. reflexivity.
Defined.

Lemma slice_whole {A : Type} (l : list A) (stop : Z) :
  Z.of_nat (length l) <= stop ->
  py_slice l 0 (Z.min (Z.of_nat (length l)) stop) = l.
Proof.
  intros H. unfold py_slice, slice_index.
  rewrite Z.min_l by exact H.
  destruct (Z.ltb_spec 0 0); [lia|].
  destruct (Z.ltb_spec (Z.of_nat (length l)) 0); [lia|].
  replace (Z.to_nat (Z.min 0 (Z.of_nat (length l)))) with 0%nat by lia.
  replace (Z.to_nat (Z.min (Z.of_nat (length l)) (Z.of_nat (length l))
                     - Z.min 0 (Z.of_nat (length l))))
    with (length l) by lia.
  cbn [skipn]. apply firstn_all.
Qed.

(** X8.  Asked for the lines from the first one (or before) to the last
    one (or beyond), [get_code_snippet] returns the text unchanged. *)
Theorem snippet_of_everything (code : string) (start_line end_line max_lines : Z) :
  start_line <= 1 ->
  Z.of_nat (length (PyStr.splitlines_nl code)) <= end_line ->
  get_code_snippet code start_line (Some end_line) max_lines = code.
Proof.
  intros Hs He. unfold get_code_snippet, snippet_lines.
  rewrite Z.max_l by lia.
  rewrite slice_whole by exact He. apply join_split.
Qed.

Lemma snippet_of_everything_example :
  get_code_snippet "import os

x = 1" 1 (Some 3) 5 = "import os

x = 1".
Proof.
  apply snippet_of_everything; [lia|vm_compute; discriminate].
Defined.

Lemma in_firstn {A : Type} (n : nat) (l : list A) (x : A) :
  In x (firstn n l) -> In x l.
Proof.
  intros H. rewrite <- (firstn_skipn n l). apply in_or_app. now left.
Qed.

Lemma in_skipn {A : Type} (n : nat) (l : list A) (x : A) :
  In x (skipn n l) -> In x l.
Proof.
  intros H. rewrite <- (firstn_skipn n l). apply in_or_app. now right.
Qed.

(** X9.  With a first line of at least 1 and no last line given,
    [get_code_snippet] takes at most [max_lines] lines, all of them lines of
    the text. *)
Theorem snippet_at_most_max_lines (code : string) (start_line max_lines : Z) :
  1 <= start_line -> 0 <= max_lines ->
  Z.of_nat (length (snippet_lines code start_line None max_lines)) <= max_lines
  /\ forall line, In line (snippet_lines code start_line None max_lines) ->
                  In line (PyStr.splitlines_nl code).
Proof.
  intros Hs Hm. unfold snippet_lines, py_slice.
  set (lines := PyStr.splitlines_nl code).
  set (n := Z.of_nat (length lines)).
  split.
  - rewrite length_firstn. unfold slice_index.
    destruct (Z.ltb_spec (Z.min n (Z.min (start_line + max_lines - 1) n)) 0),
             (Z.ltb_spec (Z.max 0 (start_line - 1)) 0); lia.
  - intros line Hin. apply in_firstn in Hin. now apply in_skipn in Hin.
Qed.

Lemma snippet_at_most_max_lines_example :
  Z.of_nat (length (snippet_lines "a
b
c
d" 2 None 2)) <= 2.
Proof.
  apply (proj1 (snippet_at_most_max_lines _ 2 2 ltac:(lia) ltac:(lia))).
Defined.

(** The bound needs the first line to be positive: from line -3 on, two
    lines are asked for and three are returned. *)
Remark snippet_negative_start :
  snippet_lines "a
b
c
d
e" (-3) None 2 = ["a"; "b"; "c"].
Proof. reflexivity. Qed.

End SourceLines.

(** ** Thresholds of the complexity analyzer *)

Section ComplexityChecks.
Import Ast Models Config.

(** X10.  A function is reported for high complexity exactly when one plus
    its decision points exceeds [max_complexity]: at the threshold itself
    nothing is reported, one decision point more is.  The issue is of
    severity medium up to complexity 15 and high above, and sits on the line
    of the definition. *)
Theorem high_complexity_iff (cfg : Config) (is_async : bool) (name : string)
    (a : arguments) (args_exprs body decorator_list : list ast)
    (returns : option ast) (lineno col_offset : Z) (end_lineno : option Z)
    (code file_path : string) :
  let fn := FunctionDef is_async name a args_exprs body decorator_list
              returns lineno col_offset end_lineno in
  ((exists i, In i (Complexity._analyze_function cfg fn code file_path)
              /\ type i = "high_complexity")
   <-> max_complexity cfg < Spec.cyclomatic fn)
  /\ (forall i, In i (Complexity._analyze_function cfg fn code file_path) ->
                type i = "high_complexity" ->
                line i = lineno
                /\ (severity i = HIGH <-> 15 < Spec.cyclomatic fn)
                /\ (severity i = MEDIUM <-> Spec.cyclomatic fn <= 15)).
Proof.
  intros fn. unfold Complexity._analyze_function; cbn [fn].
  rewrite (analyzer_complexity_is_cyclomatic fn). fold fn.
  set (c := Spec.cyclomatic fn).
  set (n := Complexity._calculate_nesting_depth _).
  set (fl := Complexity._count_function_lines _).
  set (pc := Complexity.param_count a).
  assert (Hothers :
            forall i,
              In i ((if n >? max_nesting_depth cfg
                     then [Complexity.deep_nesting_issue cfg name lineno
                             col_offset n file_path] else [])
                    ++ (if fl >? max_function_lines cfg
                        then [Complexity.long_function_issue cfg name lineno
                                col_offset fl file_path] else [])
                    ++ (if pc >? max_parameters cfg
                        then [Complexity.too_many_params_issue cfg name a
                                lineno col_offset pc file_path] else [])) ->
              type i <> "high_complexity").
  { intros i Hin. rewrite !in_app_iff in Hin.
    destruct Hin as [Hin|[Hin|Hin]];
      [destruct (n >? max_nesting_depth cfg)
      |destruct (fl >? max_function_lines cfg)
      |destruct (pc >? max_parameters cfg)];
      cbn [In] in Hin; try contradiction;
      destruct Hin as [<-|[]]; discriminate. }
  destruct (Z.gtb_spec c (max_complexity cfg)) as [Hgt|Hle].
  - split.
    + split; [lia|]. intros _. eexists. split; [left; reflexivity|reflexivity].
    + intros i [<-|Hin] Hty; [|now apply Hothers in Hin].
      cbn [Complexity.high_complexity_issue new_Issue line severity].
      split; [reflexivity|].
      destruct (Z.leb_spec c 15); split; split; intros; try discriminate;
        try lia; reflexivity.
  - split.
    + split; [|lia]. intros (i & Hin & Hty). now apply Hothers in Hin.
    + intros i Hin Hty. now apply Hothers in Hin.
Qed.

Lemma visit_ge (g : ast -> Z) (l : list ast) (m : Z) :
  m <= fold_left (fun max_depth child => Z.max max_depth (g child)) l m.
Proof.
  revert m. induction l as [|x l IH]; intros m; cbn [fold_left]; [lia|].
  specialize (IH (Z.max m (g x))). lia.
Qed.

Lemma get_depth_ge (node : ast) (d : Z) : d <= Complexity.get_depth node d.
Proof. rewrite get_depth_children. apply visit_ge. Qed.

Lemma child_smaller (n c : ast) :
  In c (iter_child_nodes n) -> (size c < size n)%nat.
Proof.
  rewrite (size_children n).
  induction (iter_child_nodes n) as [|x l IH]; [intros []|].
  rewrite List.map_cons, sum_nat_cons. intros [<-|H]; [lia|].
  specialize (IH H). lia.
Qed.

Lemma visit_shift (g g' : ast -> Z) (k : Z) (l : list ast) :
  (forall c, In c l -> g' c = g c + k) ->
  forall m,
    fold_left (fun max_depth child => Z.max max_depth (g' child)) l (m + k)
    = fold_left (fun max_depth child => Z.max max_depth (g child)) l m + k.
Proof.
  induction l as [|x l IH]; intros Hg m; cbn [fold_left]; [reflexivity|].
  rewrite (Hg x) by now left.
  replace (Z.max (m + k) (g x + k)) with (Z.max m (g x) + k) by lia.
  apply IH. intros c Hc. apply Hg. now right.
Qed.

(** Starting deeper shifts the result by as much. *)
Lemma get_depth_shift (node : ast) :
  forall d k, Complexity.get_depth node (d + k) = Complexity.get_depth node d + k.
Proof.
  remember (size node) as sz eqn:Hsz.
  revert node Hsz.
  induction sz as [sz IH] using lt_wf_ind. intros node Hsz d k.
  rewrite !get_depth_children.
  apply visit_shift. intros c Hc.
  assert (Hlt : (size c < sz)%nat) by (subst sz; now apply child_smaller).
  destruct (Complexity.is_nesting c).
  - replace (d + k + 1) with (d + 1 + k) by lia.
    now apply (IH (size c) Hlt c).
  - now apply (IH (size c) Hlt c).
Qed.

(** The classes of [nesting_nodes]. *)
Lemma is_nesting_kinds (x : ast) :
  Complexity.is_nesting x = true <->
  is_function x = true \/ is_class x = true
  \/ exists c ch, x = Node c ch
                  /\ In c [If; For; AsyncFor; While; With; AsyncWith; Try].
Proof.
  split.
  - destruct x as [c ch| | | | | |]; try discriminate;
      [|intros _; left; reflexivity|intros _; right; left; reflexivity].
    intros H. right. right. exists c, ch. split; [reflexivity|].
    destruct c; try discriminate H; cbn [In]; auto 8.
  - intros [H|[H|(c & ch & -> & Hin)]].
    + destruct x; try discriminate H. reflexivity.
    + destruct x; try discriminate H. reflexivity.
    + cbn [In] in Hin.
      destruct Hin as [<-|[<-|[<-|[<-|[<-|[<-|[<-|[]]]]]]]]; reflexivity.
Qed.

(** X11.  The nesting depth of a function is never negative, it does not
    depend on the depth the recursion starts from, and a construct that
    introduces nesting lies exactly one level above what it holds: a node
    with the single child [x] is as deep as [x], plus one exactly when [x]
    is an [if], a [for] or [async for], a [while], a [with] or
    [async with], a [try], or a function or class definition.  Any other
    node, an [except] handler for one, adds no level. *)
Theorem nesting_depth_levels (node x : ast) (cls : node_class) (d k : Z) :
  0 <= Complexity._calculate_nesting_depth node
  /\ Complexity.get_depth node (d + k) = Complexity.get_depth node d + k
  /\ Complexity.get_depth (Node cls [x]) d
     = Complexity.get_depth x d + (if Complexity.is_nesting x then 1 else 0)
  /\ (Complexity.is_nesting x = true <->
      is_function x = true \/ is_class x = true
      \/ exists c ch, x = Node c ch
                      /\ In c [If; For; AsyncFor; While; With; AsyncWith; Try])
  /\ (forall handler_body,
        Complexity.get_depth (Node cls [Node ExceptHandler handler_body]) d
        = Complexity.get_depth (Node ExceptHandler handler_body) d).
Proof.
  assert (Hone : forall y,
             Complexity.get_depth (Node cls [y]) d
             = Complexity.get_depth y d
               + (if Complexity.is_nesting y then 1 else 0)).
  { intros y. cbn [Complexity.get_depth fold_left].
    pose proof (get_depth_ge y d) as Hge.
    destruct (Complexity.is_nesting y).
    - rewrite get_depth_shift. lia.
    - lia. }
  split; [apply get_depth_ge|].
  split; [apply get_depth_shift|].
  split; [apply Hone|].
  split; [apply is_nesting_kinds|].
  intros handler_body. rewrite Hone.
  change (Complexity.is_nesting (Node ExceptHandler handler_body)) with false.
  cbv iota. lia.
Qed.

Lemma substring_length (n : nat) (s : string) :
  (String.length (String.substring 0 n s) <= n)%nat.
Proof.
  revert s. induction n as [|n IH]; intros s.
  - destruct s; cbn; lia.
  - destruct s as [|c s]; cbn [String.substring String.length]; [lia|].
    specialize (IH s). lia.
Qed.

(** X12.  Every long-line issue points at a line of the text: its number is
    between 1 and the number of lines, the line there is longer than
    [max_line_length] and mentions no URL, and the snippet shown is at most
    83 characters long. *)
Theorem long_line_issues_sound (cfg : Config) (code file_path : string)
    (i : Issue) :
  In i (Complexity._check_line_lengths cfg code file_path) ->
  let lines := PyStr.splitlines_nl code in
  let text := nth (Z.to_nat (line i - 1)) lines EmptyString in
  1 <= line i <= Z.of_nat (length lines)
  /\ max_line_length cfg < PyStr.len text
  /\ PyStr.contains "http://" text = false
  /\ PyStr.contains "https://" text = false
  /\ type i = "long_line" /\ severity i = INFO
  /\ PyStr.len (Models.code i) <= 83.
Proof.
  intros Hin lines text.
  unfold Complexity._check_line_lengths in Hin.
  apply in_flat_map in Hin. destruct Hin as ([n ln] & Hline & Hin).
  destruct (enumerate_spec _ EmptyString _ _ _ Hline) as [Hrange Hnth].
  destruct (Z.gtb_spec (PyStr.len ln) (max_line_length cfg)) as [Hlong|];
    [|destruct Hin].
  destruct (PyStr.contains "http://" ln) eqn:Hhttp; [destruct Hin|].
  destruct (PyStr.contains "https://" ln) eqn:Hhttps; [destruct Hin|].
  cbn [orb] in Hin.
  destruct (PyStr.startswith (PyStr.strip ln) "import "
            || PyStr.startswith (PyStr.strip ln) "from "); [destruct Hin|].
  destruct Hin as [<-|[]].
  subst text lines.
  cbn [new_Issue line type severity Models.code].
  rewrite Hnth.
  repeat split; try lia; try assumption; try reflexivity.
  destruct (Z.gtb_spec (PyStr.len ln) 80) as [H80|H80]; [|lia].
  unfold PyStr.len. rewrite length_app. cbn [String.length].
  pose proof (substring_length 80 ln). lia.
Qed.

End ComplexityChecks.

Section ComplexityChecksExamples.
Import Ast Models Config.

(** [def check(x): assert x] under [max_complexity = 1]. *)
Lemma high_complexity_iff_example :
  exists i,
    In i (Complexity._analyze_function
            (mkConfig [] "info" 1 4 50 500 120 5 [] [] "terminal" false)
            Fixtures.check_fn "def check(x): assert x" "a.py")
    /\ type i = "high_complexity".
Proof.
  apply (proj2 (proj1 (high_complexity_iff
                         (mkConfig [] "info" 1 4 50 500 120 5 [] []
                            "terminal" false)
                         false "check" (mkArguments [] ["x"] None [] None) []
                         [Node Assert [Node Other []]] [] None 1 0 (Some 1)
                         "def check(x): assert x" "a.py"))).
  vm_compute. reflexivity.
Defined.

(** Two lines under [max_line_length = 5]: the second one is too long. *)
Lemma long_line_issues_sound_example :
  let found :=
    Complexity._check_line_lengths
      (mkConfig [] "info" 10 4 50 500 5 5 [] [] "terminal" false)
      "x = 1
total = a + b" "a.py" in
  let i := hd (Fixtures.issue_of INFO "none" "none") found in
  In i found /\ 1 <= line i <= 2.
Proof.
  intros found i.
  assert (Hin : In i found) by (vm_compute; left; reflexivity).
  split; [exact Hin|].
  exact (proj1 (long_line_issues_sound _ _ _ i Hin)).
Defined.

End ComplexityChecksExamples.

(** ** Metrics: the orchestrator and the analyzer *)

Section MetricsCounts.
Import Ast Models Config.

Lemma split_length (s : string) :
  Complexity.lenZ (PyStr.splitlines_nl s) = 1 + Spec.newlines s.
Proof.
  unfold PyStr.splitlines_nl, Complexity.lenZ.
  induction s as [|c s IH]; [reflexivity|].
  cbn [PyStr.split Spec.newlines].
  pose proof (split_nonempty PyStr.newline s) as Hne.
  destruct (Ascii.eqb c PyStr.newline).
  - cbn [length]. lia.
  - destruct (PyStr.split PyStr.newline s) as [|w ws]; [contradiction|].
    cbn [length] in *. lia.
Qed.

Lemma newlines_nonneg (s : string) : 0 <= Spec.newlines s.
Proof.
  induction s as [|c s IH]; cbn [Spec.newlines]; [lia|].
  destruct (Ascii.eqb c PyStr.newline); lia.
Qed.

(** X13.  A text has one line more than it has newline characters, and
    [_check_file_length] reports it, once and at line 1 with that number of
    lines, exactly when this exceeds [max_file_lines]. *)
Theorem large_file_iff (cfg : Config) (code file_path : string) :
  (1 + Spec.newlines code <= max_file_lines cfg ->
   Complexity._check_file_length cfg code file_path = [])
  /\ (max_file_lines cfg < 1 + Spec.newlines code ->
      exists i, Complexity._check_file_length cfg code file_path = [i]
                /\ type i = "large_file" /\ line i = 1
                /\ metadata i = [("lines", VInt (1 + Spec.newlines code))]).
Proof.
  unfold Complexity._check_file_length. cbv zeta.
  rewrite split_length.
  destruct (Z.gtb_spec (1 + Spec.newlines code) (max_file_lines cfg)).
  - split; [lia|]. intros _. eexists. split; [reflexivity|]. now cbn.
  - split; [reflexivity|lia].
Qed.

Lemma blank_not_comment (l : string) :
  Reviewer.is_blank l = true -> Reviewer.is_comment l = false.
Proof.
  unfold Reviewer.is_blank, Reviewer.is_comment.
  intros H. apply String.eqb_eq in H. now rewrite H.
Qed.

Lemma count_cons {A : Type} (f : A -> bool) (x : A) (l : list A) :
  Reviewer.count f (x :: l) = (if f x then 1 else 0) + Reviewer.count f l.
Proof.
  unfold Reviewer.count, Complexity.lenZ. simpl (List.filter f (x :: l)).
  destruct (f x); cbn [length]; lia.
Qed.

Lemma count_nonneg {A : Type} (f : A -> bool) (l : list A) :
  0 <= Reviewer.count f l.
Proof. unfold Reviewer.count, Complexity.lenZ. lia. Qed.

Lemma count_lines (lines : list string) :
  Complexity.lenZ lines - Reviewer.count Reviewer.is_blank lines
  - Reviewer.count Reviewer.is_comment lines
  = Reviewer.count
      (fun l => negb (Reviewer.is_blank l) && negb (Reviewer.is_comment l))
      lines.
Proof.
  induction lines as [|l lines IH]; [reflexivity|].
  rewrite !count_cons.
  replace (Complexity.lenZ (l :: lines)) with (1 + Complexity.lenZ lines)
    by (unfold Complexity.lenZ; cbn [length]; lia).
  pose proof (blank_not_comment l) as Hbc.
  destruct (Reviewer.is_blank l); [rewrite Hbc by reflexivity|];
    destruct (Reviewer.is_comment l); cbn [negb andb]; lia.
Qed.

Lemma count_indicator (p : ast -> bool) (l : list ast) :
  Reviewer.count p l = Reviewer.sumZ (map (Spec.indicator p) l).
Proof.
  induction l as [|x l IH]; [reflexivity|].
  rewrite count_cons, List.map_cons, sumZ_cons, IH. reflexivity.
Qed.

(** X14.  In the metrics of [_calculate_metrics] no line is counted twice:
    a blank line is never a comment line, so [lines_of_code] is the number
    of lines that are neither, and is never negative; the three counts add
    up to [total_lines], which is one more than the number of newline
    characters.  [functions] and [classes] count the definitions anywhere
    in the tree, nested ones included. *)
Theorem metrics_counts (code : string) (tree : ast) :
  let m := Reviewer._calculate_metrics code (Some tree) in
  let lines := PyStr.splitlines_nl code in
  lines_of_code m
  = Reviewer.count
      (fun l => negb (Reviewer.is_blank l) && negb (Reviewer.is_comment l))
      lines
  /\ 0 <= lines_of_code m
  /\ lines_of_code m + blank_lines m + comment_lines m = total_lines m
  /\ total_lines m = 1 + Spec.newlines code
  /\ functions m = Spec.total (Spec.indicator is_function) tree
  /\ classes m
     = Spec.total
         (Spec.indicator (fun n => negb (is_function n) && is_class n)) tree.
Proof.
  intros m lines.
  assert (Hloc : lines_of_code m
                 = Reviewer.count
                     (fun l => negb (Reviewer.is_blank l)
                               && negb (Reviewer.is_comment l)) lines)
    by (cbn [m Reviewer._calculate_metrics lines_of_code]; apply count_lines).
  split; [exact Hloc|].
  split; [rewrite Hloc; apply count_nonneg|].
  split; [cbn [m Reviewer._calculate_metrics lines_of_code blank_lines
               comment_lines total_lines]; lia|].
  split; [cbn [m Reviewer._calculate_metrics total_lines]; apply split_length|].
  split; cbn [m Reviewer._calculate_metrics functions classes];
    rewrite count_indicator; apply walk_total.
Qed.

Lemma sumZ_nonneg (l : list Z) :
  (forall x, In x l -> 0 <= x) -> 0 <= Reviewer.sumZ l.
Proof.
  induction l as [|x l IH]; intros H; [cbn; lia|].
  rewrite sumZ_cons. specialize (H x (or_introl eq_refl)) as Hx.
  assert (0 <= Reviewer.sumZ l) by (apply IH; intros y Hy; apply H; now right).
  lia.
Qed.

Lemma total_nonneg (f : ast -> Z) :
  (forall n, 0 <= f n) -> forall n, 0 <= Spec.total f n.
Proof.
  intros Hf n. rewrite <- walk_total. apply sumZ_nonneg.
  intros x Hx. apply in_map_iff in Hx. destruct Hx as (y & <- & _). apply Hf.
Qed.

Lemma sumZ_In (l : list Z) (x : Z) :
  (forall y, In y l -> 0 <= y) -> In x l -> x <= Reviewer.sumZ l.
Proof.
  induction l as [|y l IH]; intros Hl Hx; [destruct Hx|].
  rewrite sumZ_cons.
  assert (0 <= y) by (apply Hl; now left).
  assert (Hl' : forall z, In z l -> 0 <= z) by (intros z Hz; apply Hl; now right).
  destruct Hx as [->|Hx].
  - pose proof (sumZ_nonneg l Hl'). lia.
  - specialize (IH Hl' Hx). lia.
Qed.

Lemma child_total (f : ast -> Z) (n c : ast) :
  (forall n, 0 <= f n) ->
  In c (iter_child_nodes n) -> Spec.total f c <= Spec.total f n.
Proof.
  intros Hf Hc. rewrite (total_children f n).
  assert (Spec.total f c
          <= Reviewer.sumZ (map (Spec.total f) (iter_child_nodes n))).
  { apply sumZ_In.
    - intros y Hy. apply in_map_iff in Hy. destruct Hy as (z & <- & _).
      now apply total_nonneg.
    - now apply in_map. }
  specialize (Hf n). lia.
Qed.

(** Every node the walk visits lies below a node of the queue. *)
Lemma walk_queue_below (f : ast -> Z) (fuel : nat) :
  (forall n, 0 <= f n) ->
  forall todo n,
    In n (walk_queue fuel todo) ->
    exists t, In t todo /\ Spec.total f n <= Spec.total f t.
Proof.
  intros Hf.
  induction fuel as [|fuel IH]; intros todo n Hin.
  - destruct todo; destruct Hin.
  - destruct todo as [|t rest]; [destruct Hin|].
    cbn [walk_queue] in Hin. destruct Hin as [<-|Hin].
    + exists t. split; [now left|lia].
    + destruct (IH _ _ Hin) as (t' & Ht' & Hle).
      apply in_app_iff in Ht'. destruct Ht' as [Ht'|Ht'].
      * exists t'. split; [now right|exact Hle].
      * exists t. split; [now left|].
        pose proof (child_total f t t' Hf Ht'). lia.
Qed.

Lemma walk_below (f : ast -> Z) (tree n : ast) :
  (forall n, 0 <= f n) ->
  In n (walk tree) -> Spec.total f n <= Spec.total f tree.
Proof.
  intros Hf Hin. unfold walk in Hin.
  destruct (walk_queue_below f _ Hf _ _ Hin) as (t & [<-|[]] & Hle).
  exact Hle.
Qed.

Lemma is_assert_nonneg (n : ast) : 0 <= Spec.is_assert n.
Proof. destruct n as [[] ?| | | | | |]; cbn; lia. Qed.

Lemma fold_max_le (l l' : list Z) :
  Forall2 Z.le l l' ->
  forall x x', x <= x' -> fold_left Z.max l x <= fold_left Z.max l' x'.
Proof.
  induction 1 as [|y y' l l' Hy Hl IH]; intros x x' Hx; cbn [fold_left]; [exact Hx|].
  apply IH. lia.
Qed.

Lemma maxZ_le (l l' : list Z) :
  Forall2 Z.le l l' -> Reviewer.maxZ l <= Reviewer.maxZ l'.
Proof.
  intros H. destruct H as [|y y' l l' Hy Hl]; [cbn; lia|].
  cbn [Reviewer.maxZ]. now apply fold_max_le.
Qed.

Lemma Forall2_map_same {A : Type} (f g : A -> Z) (l : list A) :
  (forall x, In x l -> f x <= g x) -> Forall2 Z.le (map f l) (map g l).
Proof.
  induction l as [|x l IH]; intros H; cbn [map]; constructor.
  - apply H. now left.
  - apply IH. intros y Hy. apply H. now right.
Qed.

Lemma maxZ_guard (l : list Z) :
  match l with [] => 0 | _ :: _ => Reviewer.maxZ l end = Reviewer.maxZ l.
Proof. now destruct l. Qed.

(** X15.  [ComplexityAnalyzer.calculate_metrics] and
    [Reviewer._calculate_metrics] report the same line counts and the same
    numbers of functions and classes for every text and tree.  The maximal
    complexity of the orchestrator is never above the analyzer's, and on a
    tree without any [assert] the maximal and the average complexity agree
    as well. *)
Theorem metrics_agree (ast_parse : tree_provider) (code : string) (tree : ast) :
  let m := Reviewer._calculate_metrics code (Some tree) in
  exists avg mx,
    ComplexityMetrics.calculate_metrics ast_parse code (Some tree)
    = Ok (ComplexityMetrics.MetricsReport
            (total_lines m) (lines_of_code m) (blank_lines m)
            (comment_lines m) (functions m) (classes m) avg mx)
    /\ Models.max_complexity m <= mx
    /\ (Spec.total Spec.is_assert tree = 0 ->
        mx = Models.max_complexity m /\ avg = avg_complexity m).
Proof.
  intros m. eexists _, _. split; [reflexivity|].
  cbn [m Reviewer._calculate_metrics Models.max_complexity avg_complexity].
  unfold Reviewer.complexity_values.
  set (fns := List.filter is_function (walk tree)).
  assert (Hfns : forall fn, In fn fns -> In fn (walk tree)).
  { intros fn Hfn. unfold fns in Hfn. apply List.filter_In in Hfn. tauto. }
  rewrite maxZ_guard.
  split.
  - apply maxZ_le, Forall2_map_same. intros x _.
    rewrite orchestrator_complexity, analyzer_complexity_is_cyclomatic.
    pose proof (total_nonneg _ is_assert_nonneg x). lia.
  - intros Hno.
    assert (Heq : map Complexity._calculate_complexity fns
                  = map Reviewer._calculate_function_complexity fns).
    { apply map_ext_in. intros fn Hfn. symmetry.
      apply complexity_agree_without_assert.
      pose proof (walk_below _ tree fn is_assert_nonneg (Hfns fn Hfn)).
      pose proof (total_nonneg _ is_assert_nonneg fn). lia. }
    rewrite Heq.
    destruct (map Reviewer._calculate_function_complexity fns); split; reflexivity.
Qed.

End MetricsCounts.

Section MetricsCountsExamples.
Import Ast Models Config.

(** Three lines under [max_file_lines = 2]. *)
Lemma large_file_iff_example :
  exists i,
    Complexity._check_file_length
      (mkConfig [] "info" 10 4 50 2 120 5 [] [] "terminal" false)
      "a
b
c" "a.py" = [i]
    /\ type i = "large_file" /\ line i = 1
    /\ metadata i = [("lines", VInt 3)].
Proof.
  apply (proj2 (large_file_iff
                  (mkConfig [] "info" 10 4 50 2 120 5 [] [] "terminal" false)
                  "a
b
c" "a.py")).
  vm_compute. reflexivity.
Defined.

(** A module with one function and no [assert]. *)
Lemma metrics_agree_example :
  let code := "def g(a, b, *rest, key, **extra): pass" in
  let tree := Node Other [Fixtures.mixed_fn] in
  exists avg mx,
    ComplexityMetrics.calculate_metrics Fixtures.rejecting_parser code
      (Some tree)
    = Ok (ComplexityMetrics.MetricsReport 1 1 0 0 1 0 avg mx)
    /\ mx = Models.max_complexity
              (Reviewer._calculate_metrics code (Some tree)).
Proof.
  intros code tree.
  destruct (metrics_agree Fixtures.rejecting_parser code tree)
    as (avg & mx & Heq & _ & Hno).
  exists avg, mx. split; [exact Heq|].
  exact (proj1 (Hno eq_refl)).
Defined.

(** The average is rounded as a float: 43/40 lies just below 1.075 as a
    binary64 value, and is shown as 1.07. *)
Remark average_rounds_the_float :
  Reviewer.round2 (Float64.div 43 40) = Float64.fl (107 # 100)
  /\ Reviewer.round2 (Float64.div 43 40) <> Float64.fl (108 # 100).
Proof. split; [vm_compute; reflexivity|vm_compute; discriminate]. Qed.

End MetricsCountsExamples.

(** ** The scan for hard-coded secrets *)

Section SecretScan.
Import Models Security.

Lemma scan_patterns_sound (pats : list (Re.pattern * string))
    (file_path : string) (n : Z) (text : string) (i : Issue) :
  In i (scan_patterns pats file_path n text) ->
  existsb (fun placeholder => PyStr.contains placeholder (PyStr.lower text))
    placeholders = false
  /\ exists pattern description,
       In (pattern, description) pats
       /\ Re.search true pattern text = true
       /\ i = hardcoded_secret_issue file_path n text description.
Proof.
  induction pats as [|[p d] pats IH]; cbn [scan_patterns]; [intros []|].
  destruct (Re.search true p text) eqn:Hs.
  - destruct (existsb _ placeholders) eqn:Hp.
    + intros H. destruct (IH H) as (Hp' & p' & d' & Hin & Hs' & Hi).
      split; [exact Hp'|]. exists p', d'. split; [now right|tauto].
    + intros [<-|[]]. split; [reflexivity|].
      exists p, d. split; [now left|tauto].
  - intros H. destruct (IH H) as (Hp' & p' & d' & Hin & Hs' & Hi).
    split; [exact Hp'|]. exists p', d'. split; [now right|tauto].
Qed.

(** The inner loop stops at the first issue. *)
Lemma scan_patterns_at_most_one (pats : list (Re.pattern * string))
    (file_path : string) (n : Z) (text : string) :
  (length (scan_patterns pats file_path n text) <= 1)%nat.
Proof.
  induction pats as [|[p d] pats IH]; cbn [scan_patterns]; [cbn; lia|].
  destruct (Re.search true p text); [|exact IH].
  destruct (existsb _ placeholders); [exact IH|cbn; lia].
Qed.

(** X16.  Every hard-coded-secret issue points at a line of the text that
    is not a comment, holds none of the placeholder words in any case, and
    is matched by one of the secret patterns, whose description the message
    carries; the issue is of severity high. *)
Theorem secret_issues_sound (code file_path : string) (i : Issue) :
  In i (_check_hardcoded_secrets code file_path) ->
  let lines := PyStr.splitlines_nl code in
  let text := nth (Z.to_nat (line i - 1)) lines EmptyString in
  1 <= line i <= Z.of_nat (length lines)
  /\ PyStr.startswith (PyStr.strip text) "#" = false
  /\ (forall placeholder,
        In placeholder placeholders ->
        PyStr.contains placeholder (PyStr.lower text) = false)
  /\ (exists pattern description,
        In (pattern, description) SECRET_PATTERNS
        /\ Re.search true pattern text = true
        /\ message i = "Potential " +:+ description +:+ " found")
  /\ type i = "hardcoded_secret" /\ severity i = HIGH.
Proof.
  intros Hin lines text.
  unfold _check_hardcoded_secrets in Hin.
  apply in_flat_map in Hin. destruct Hin as ([n ln] & Hline & Hin).
  destruct (enumerate_spec _ EmptyString _ _ _ Hline) as [Hrange Hnth].
  destruct (PyStr.startswith (PyStr.strip ln) "#") eqn:Hc; [destruct Hin|].
  destruct (scan_patterns_sound _ _ _ _ _ Hin) as (Hp & p & d & Hpd & Hs & ->).
  subst text lines.
  cbn [hardcoded_secret_issue new_Issue line type severity message].
  rewrite Hnth.
  split; [lia|]. split; [exact Hc|].
  split.
  - intros ph Hph.
    rewrite existsb_false_iff in Hp. now apply Hp.
  - split; [|split; reflexivity].
    exists p, d. tauto.
Qed.

Lemma flat_map_lines_sorted {A : Type} (g : Z * A -> list Issue) (l : list A) :
  (forall n x, (length (g (n, x)) <= 1)%nat) ->
  (forall n x i, In i (g (n, x)) -> line i = n) ->
  forall start,
    StronglySorted Z.lt (map line (flat_map g (Complexity.enumerate start l)))
    /\ Forall (fun n => start <= n)
         (map line (flat_map g (Complexity.enumerate start l))).
Proof.
  intros Hone Hline.
  induction l as [|x l IH]; intros start;
    cbn [Complexity.enumerate flat_map map].
  - split; constructor.
  - destruct (IH (start + 1)) as [Hs Hf].
    specialize (Hone start x). specialize (Hline start x).
    destruct (g (start, x)) as [|i [|j rest]]; cbn [length] in Hone; [| |lia].
    + cbn [app]. split; [exact Hs|].
      eapply List.Forall_impl; [|exact Hf]. cbn; intros; lia.
    + cbn [app map].
      rewrite (Hline i (or_introl eq_refl)).
      split.
      * constructor; [exact Hs|].
        eapply List.Forall_impl; [|exact Hf]. cbn; intros; lia.
      * constructor; [lia|].
        eapply List.Forall_impl; [|exact Hf]. cbn; intros; lia.
Qed.

(** X17.  A line is reported at most once for a hard-coded secret, whatever
    the number of patterns that match it, and at most once for its length:
    the line numbers of the issues of either scan increase strictly. *)
Theorem one_issue_per_line (cfg : Config.Config) (code file_path : string) :
  StronglySorted Z.lt (map line (_check_hardcoded_secrets code file_path))
  /\ StronglySorted Z.lt
       (map line (Complexity._check_line_lengths cfg code file_path)).
Proof.
  split.
  - apply (flat_map_lines_sorted
             (fun '(i, line) =>
                if PyStr.startswith (PyStr.strip line) "#" then []
                else scan_patterns SECRET_PATTERNS file_path i line)).
    + intros n x. destruct (PyStr.startswith (PyStr.strip x) "#"); [cbn; lia|].
      apply scan_patterns_at_most_one.
    + intros n x i.
      destruct (PyStr.startswith (PyStr.strip x) "#"); [intros []|].
      intros H. apply scan_patterns_sound in H.
      destruct H as (_ & p & d & _ & _ & ->). reflexivity.
  - unfold Complexity._check_line_lengths.
    apply flat_map_lines_sorted.
    + intros n x.
      destruct (PyStr.len x >? _); [|cbn; lia].
      destruct (_ || _); [cbn; lia|].
      destruct (_ || _); cbn; lia.
    + intros n x i.
      destruct (PyStr.len x >? _); [|intros []].
      destruct (_ || _); [intros []|].
      destruct (_ || _); [intros []|].
      intros [<-|[]]. reflexivity.
Qed.


End SecretScan.

Section SecretScanExamples.
Import Models Security.

Lemma secret_issues_sound_example :
  let found := _check_hardcoded_secrets Fixtures.secret_line "settings.py" in
  let i := hd (Fixtures.issue_of INFO "none" "none") found in
  In i found /\ 1 <= line i <= 1 /\ severity i = HIGH.
Proof.
  intros found i.
  assert (Hin : In i found) by (vm_compute; left; reflexivity).
  destruct (secret_issues_sound Fixtures.secret_line "settings.py" i Hin)
    as (Hl & _ & _ & _ & _ & Hs).
  split; [exact Hin|]. split; [exact Hl|exact Hs].
Defined.


End SecretScanExamples.

(** ** Rule sets as tables *)

Section RuleTables.
Import Models Rules.

Lemma dict_lookup_set_eq (d : list (string * Rule)) (k : string) (v : Rule) :
  dict_lookup (dict_set d k v) k = Some v.
Proof.
  induction d as [|[k' v'] d IH]; cbn [dict_set dict_lookup].
  - now rewrite String.eqb_refl.
  - destruct (String.eqb k' k) eqn:Hk; cbn [dict_lookup]; now rewrite Hk.
Qed.

Lemma dict_lookup_set_ne (d : list (string * Rule)) (k k0 : string) (v : Rule) :
  k0 <> k -> dict_lookup (dict_set d k v) k0 = dict_lookup d k0.
Proof.
  intros Hne.
  induction d as [|[k' v'] d IH]; cbn [dict_set dict_lookup].
  - apply String.eqb_neq in Hne. rewrite String.eqb_sym in Hne. now rewrite Hne.
  - destruct (String.eqb k' k) eqn:Hk; cbn [dict_lookup].
    + apply String.eqb_eq in Hk. subst k'.
      apply String.eqb_neq in Hne. rewrite String.eqb_sym in Hne.
      now rewrite Hne.
    + now rewrite IH.
Qed.

Lemma dict_set_length (d : list (string * Rule)) (k : string) (v : Rule) :
  length (dict_set d k v)
  = match dict_lookup d k with
    | Some _ => length d
    | None => S (length d)
    end.
Proof.
  induction d as [|[k' v'] d IH]; cbn [dict_set dict_lookup]; [reflexivity|].
  destruct (String.eqb k' k); cbn [length]; [reflexivity|].
  rewrite IH. now destruct (dict_lookup d k).
Qed.

(** X19.  A rule that was added is the one [get] returns for its id,
    whatever was stored under that id before; every other id is unaffected;
    and the set grows by one exactly when the id is new. *)
Theorem add_then_get (rs : RuleSet) (rule : Rule) :
  get (add rs rule) (id rule) = Some rule
  /\ (forall rule_id, rule_id <> id rule ->
                      get (add rs rule) rule_id = get rs rule_id)
  /\ len (add rs rule)
     = match get rs (id rule) with
       | Some _ => len rs
       | None => len rs + 1
       end.
Proof.
  unfold get, add, len. cbn [_rules].
  split; [apply dict_lookup_set_eq|].
  split; [intros k Hk; now apply dict_lookup_set_ne|].
  rewrite dict_set_length. destruct (dict_lookup (_rules rs) (id rule)); lia.
Qed.

Lemma dict_lookup_remove (d : list (string * Rule)) (k k0 : string) :
  dict_lookup (List.filter (fun kv => negb (String.eqb (fst kv) k)) d) k0
  = if String.eqb k0 k then None else dict_lookup d k0.
Proof.
  induction d as [|[k' v'] d IH]; cbn [List.filter dict_lookup fst].
  - now destruct (String.eqb k0 k).
  - destruct (String.eqb_spec k' k) as [->|Hk]; cbn [negb].
    + rewrite IH. rewrite (String.eqb_sym k k0).
      now destruct (String.eqb k0 k).
    + cbn [dict_lookup]. rewrite IH.
      destruct (String.eqb_spec k' k0) as [->|Hk0]; [|reflexivity].
      destruct (String.eqb_spec k0 k); [contradiction|reflexivity].
Qed.

Lemma filter_all {A : Type} (f : A -> bool) (l : list A) :
  (forall x, In x l -> f x = true) -> List.filter f l = l.
Proof.
  induction l as [|x l IH]; intros H; [reflexivity|].
  simpl (List.filter f (x :: l)). rewrite (H x) by now left.
  f_equal. apply IH. intros y Hy. apply H. now right.
Qed.

Lemma dict_lookup_none (d : list (string * Rule)) (k : string) :
  dict_lookup d k = None -> forall kv, In kv d -> String.eqb (fst kv) k = false.
Proof.
  induction d as [|[k' v'] d IH]; cbn [dict_lookup]; [intros _ kv []|].
  destruct (String.eqb k' k) eqn:Hk; [discriminate|].
  intros H kv [<-|Hin]; [exact Hk|now apply IH].
Qed.

(** X20.  After [remove] the id is unknown to [get] and every other id is
    answered as before; removing an id that is not in the set changes
    nothing. *)
Theorem remove_then_get (rs : RuleSet) (rule_id : string) :
  get (remove rs rule_id) rule_id = None
  /\ (forall other, other <> rule_id ->
                    get (remove rs rule_id) other = get rs other)
  /\ (get rs rule_id = None -> remove rs rule_id = rs).
Proof.
  unfold get, remove. cbn [_rules].
  split; [rewrite dict_lookup_remove; now rewrite String.eqb_refl|].
  split.
  - intros other Hne. rewrite dict_lookup_remove.
    now destruct (String.eqb_spec other rule_id).
  - intros Hnone. destruct rs as [nm d]. cbn [_rules rs_name] in *.
    f_equal. apply filter_all. intros kv Hkv.
    now rewrite (dict_lookup_none d rule_id Hnone kv Hkv).
Qed.

Lemma enabled_update_false (d : list (string * Rule)) (k : string) :
  List.filter enabled
    (map snd
       (map (fun kv => if String.eqb (fst kv) k
                       then (fst kv, set_enabled false (snd kv)) else kv) d))
  = List.filter enabled
      (map snd (List.filter (fun kv => negb (String.eqb (fst kv) k)) d)).
Proof.
  induction d as [|[k' v'] d IH]; [reflexivity|].
  cbn [map fst snd]. simpl (List.filter (fun kv => negb _) (_ :: d)).
  cbn [fst].
  destruct (String.eqb k' k); cbn [negb snd map].
  - simpl (List.filter enabled (_ :: _)). cbn [set_enabled enabled]. exact IH.
  - simpl (List.filter enabled (_ :: _)). rewrite IH. reflexivity.
Qed.

Lemma update_update (b b' : bool) (d : list (string * Rule)) (k : string) :
  map (fun kv => if String.eqb (fst kv) k
                 then (fst kv, set_enabled b (snd kv)) else kv)
    (map (fun kv => if String.eqb (fst kv) k
                    then (fst kv, set_enabled b' (snd kv)) else kv) d)
  = map (fun kv => if String.eqb (fst kv) k
                   then (fst kv, set_enabled b (snd kv)) else kv) d.
Proof.
  rewrite List.map_map. apply map_ext. intros [k' v']. cbn [fst snd].
  destruct (String.eqb k' k) eqn:Hk; cbn [fst snd]; now rewrite Hk.
Qed.

(** X21.  For [check_all] a disabled rule is as good as a removed one: the
    issues of the set with [rule_id] disabled are those of the set with
    [rule_id] removed.  Disabling keeps the rule in the set, though, and
    enabling it afterwards gives the same set as enabling it at once. *)
Theorem disable_is_remove_for_check_all (rs : RuleSet) (rule_id : string)
    (code file_path : string) (tree : option Ast.ast) :
  check_all (disable rs rule_id) code file_path tree
  = check_all (remove rs rule_id) code file_path tree
  /\ len (disable rs rule_id) = len rs
  /\ map id (rules (disable rs rule_id)) = map id (rules rs)
  /\ enable (disable rs rule_id) rule_id = enable rs rule_id.
Proof.
  split; [|split; [|split]].
  - unfold check_all, enabled_rules, rules, disable, update_enabled, remove.
    cbn [_rules]. now rewrite enabled_update_false.
  - unfold len, disable, update_enabled. cbn [_rules].
    now rewrite length_map.
  - unfold rules, disable, update_enabled. cbn [_rules].
    rewrite !List.map_map. apply map_ext. intros [k v]. cbn [fst snd].
    now destruct (String.eqb k rule_id).
  - unfold enable, disable, update_enabled. cbn [_rules rs_name].
    now rewrite update_update.
Qed.

Lemma Severity_eqb_eq (a b : Severity) : Severity_eqb a b = true <-> a = b.
Proof. destruct a, b; cbn; split; intros H; try reflexivity; discriminate. Qed.

(** X22.  [by_severity] sorts the rules into five bins without losing or
    repeating one: a rule of the set is listed under its own severity and
    under no other, and the sizes of the five bins add up to the size of
    the set. *)
Theorem by_severity_partition (rs : RuleSet) :
  (forall r sev, In r (by_severity rs sev) <->
                 In r (rules rs) /\ severity r = sev)
  /\ Reviewer.sumZ
       (map (fun sev => Z.of_nat (length (by_severity rs sev)))
          [CRITICAL; HIGH; MEDIUM; LOW; INFO])
     = len rs.
Proof.
  split.
  - intros r sev. unfold by_severity. rewrite List.filter_In.
    now rewrite Severity_eqb_eq.
  - unfold by_severity, len, rules. rewrite <- (length_map snd (_rules rs)).
    induction (map snd (_rules rs)) as [|r l IH]; [reflexivity|].
    cbn [map] in *. rewrite !sumZ_cons in *.
    change (Reviewer.sumZ []) with 0 in *.
    simpl (List.filter _ (r :: l)).
    destruct (severity r); cbn [Severity_eqb length]; lia.
Qed.

End RuleTables.

Section RuleTablesExamples.
Import Models Rules.

Lemma add_then_get_example :
  get (add (add (empty "default") Fixtures.finding_rule) Fixtures.raising_rule)
    "style/todo" = Some Fixtures.finding_rule.
Proof.
  etransitivity.
  - apply (proj1 (proj2 (add_then_get (add (empty "default") Fixtures.finding_rule)
                           Fixtures.raising_rule))).
    discriminate.
  - apply (proj1 (add_then_get (empty "default") Fixtures.finding_rule)).
Defined.

Lemma remove_then_get_example :
  remove (add (empty "default") Fixtures.finding_rule) "custom/broken"
  = add (empty "default") Fixtures.finding_rule.
Proof.
  apply (proj2 (proj2 (remove_then_get _ "custom/broken"))). reflexivity.
Defined.

End RuleTablesExamples.

(** ** The orchestrator: analyzers, files and directories *)

Section Membership.
Import Config.

Lemma str_in_In (s : string) (l : list string) :
  str_in s l = true <-> In s l.
Proof.
  unfold str_in. rewrite existsb_exists. split.
  - intros (x & Hx & Heq). apply String.eqb_eq in Heq. now subst.
  - intros H. exists s. split; [exact H|apply String.eqb_refl].
Qed.

Lemma str_in_ext (s : string) (l l' : list string) :
  (In s l <-> In s l') -> str_in s l = str_in s l'.
Proof.
  intros H. pose proof (str_in_In s l). pose proof (str_in_In s l').
  destruct (str_in s l), (str_in s l'); intuition congruence.
Qed.

End Membership.

Section Orchestration.
Import Models Config.

Variable ast_parse : tree_provider.
Variable security_checks : Security.tree_checks.
Variable smell_detectors : string -> string -> Ast.ast -> result (list Issue).
Variable path_match : string -> string -> bool.
Variable fs : Path.FileSystem.

Abbreviation new := (Reviewer.new ast_parse security_checks smell_detectors).
Abbreviation review_code := (Reviewer.review_code ast_parse).
Abbreviation review_file := (Reviewer.review_file ast_parse path_match fs).
Abbreviation collect_results :=
  (Reviewer.collect_results ast_parse path_match fs).
Abbreviation _collect_files := (Reviewer._collect_files path_match fs).
Abbreviation _should_analyze_file := (Reviewer._should_analyze_file path_match).
Abbreviation review_directory :=
  (Reviewer.review_directory ast_parse path_match fs).

(** X23.  The built-in analyzers run in the fixed order complexity,
    security, smells, whatever the order, the repetitions or the unknown
    names of [config.analyzers]; the custom analyzers follow.  Two
    configurations that name the same built-in analyzers activate the same
    ones. *)
Theorem analyzers_follow_membership (cfg cfg' : Config)
    (custom : list Reviewer.Analyzer) :
  (forall n, In n ["complexity"; "security"; "smells"] ->
             (In n (analyzers cfg) <-> In n (analyzers cfg'))) ->
  Reviewer.analyzers (new cfg custom)
  = List.filter (fun n => str_in n (analyzers cfg))
      ["complexity"; "security"; "smells"]
    ++ map Reviewer.name custom
  /\ Reviewer.analyzers (new cfg custom) = Reviewer.analyzers (new cfg' custom).
Proof.
  intros Hsame.
  assert (Hnames : forall c,
             Reviewer.analyzers (new c custom)
             = List.filter (fun n => str_in n (analyzers c))
                 ["complexity"; "security"; "smells"]
               ++ map Reviewer.name custom).
  { intros c. unfold Reviewer.analyzers, Reviewer.new, Reviewer._setup_analyzers,
      Reviewer.analyzer_map.
    cbn [Reviewer._analyzers]. rewrite List.map_app. f_equal.
    simpl List.filter. cbn [fst].
    destruct (str_in "complexity" (analyzers c)),
             (str_in "security" (analyzers c)),
             (str_in "smells" (analyzers c)); reflexivity. }
  split; [apply Hnames|].
  rewrite !Hnames. f_equal.
  apply filter_ext_in. intros n Hn. apply str_in_ext, Hsame, Hn.
Qed.

(** What one analyzer adds to the issues of [review_code]. *)
Lemma run_analyzers_flat (cfg : Config) (l : list Reviewer.Analyzer)
    (code file_path : string) (tree : option Ast.ast) :
  Reviewer.run_analyzers (Reviewer.mkReviewer cfg l) code file_path tree
  = flat_map
      (fun a =>
         match Reviewer.analyze a code file_path tree with
         | Ok found => Reviewer._filter_by_severity cfg found
         | Raise _ => []
         end) l.
Proof.
  unfold Reviewer.run_analyzers. cbn [Reviewer._analyzers Reviewer.config].
  set (g := fun a =>
              match Reviewer.analyze a code file_path tree with
              | Ok found => Reviewer._filter_by_severity cfg found
              | Raise _ => []
              end).
  change (flat_map g l) with ([] ++ flat_map g l).
  generalize (@nil Issue) as acc.
  induction l as [|a l IH]; intros acc; cbn [fold_left flat_map].
  - now rewrite List.app_nil_r.
  - rewrite IH. unfold g at 2.
    destruct (Reviewer.analyze a code file_path tree).
    + now rewrite <- List.app_assoc.
    + reflexivity.
Qed.

(** X24.  An analyzer that raises is contained: [review_code] returns what
    it returns without that analyzer, the issues of the analyzers before
    and after it included. *)
Theorem review_code_contains_analyzer_failure (cfg : Config)
    (before after : list Reviewer.Analyzer) (a : Reviewer.Analyzer)
    (code file_path : string) :
  (forall tree, parse_code ast_parse code = Ok tree ->
                exists e, Reviewer.analyze a code file_path tree = Raise e) ->
  review_code (Reviewer.mkReviewer cfg (before ++ a :: after)) code file_path
  = review_code (Reviewer.mkReviewer cfg (before ++ after)) code file_path.
Proof.
  intros Hfail. unfold Reviewer.review_code, Reviewer._parse_code.
  destruct (parse_code ast_parse code) as [tree|e]; [|reflexivity].
  rewrite !run_analyzers_flat, !flat_map_app. cbn [flat_map].
  destruct (Hfail tree eq_refl) as [e ->]. reflexivity.
Qed.

(** X25.  [review_code] invents nothing: each issue of its result was found
    by one of the active analyzers on the parsed tree and has passed the
    level test of [_filter_by_severity].  When [min_severity] is spelled as
    the value of a severity [S] (one of the five lower-case names), this
    means that no issue of the result is less urgent than [S].  The result
    carries the path it was given and is never marked as skipped. *)
Theorem review_code_result (rv : Reviewer.Reviewer) (code file_path : string)
    (r : FileResult) :
  review_code rv code file_path = Ok r ->
  fr_file r = file_path /\ skipped r = false /\ error r = None
  /\ exists tree,
       parse_code ast_parse code = Ok tree
       /\ metrics r = Some (Reviewer._calculate_metrics code tree)
       /\ forall i,
            In i (issues r) ->
            Reviewer.severity_level (Severity_value (severity i))
            <= Reviewer.severity_level (min_severity (Reviewer.config rv))
            /\ (forall S,
                  min_severity (Reviewer.config rv) = Severity_value S ->
                  Spec.urgency S <= Spec.urgency (severity i))
            /\ exists a found,
                 In a (Reviewer._analyzers rv)
                 /\ Reviewer.analyze a code file_path tree = Ok found
                 /\ In i found.
Proof.
  unfold Reviewer.review_code, Reviewer._parse_code.
  destruct (parse_code ast_parse code) as [tree|e]; [|discriminate].
  intros H. inversion H; subst r; clear H.
  cbn [fr_file skipped error metrics issues].
  split; [reflexivity|]. split; [reflexivity|]. split; [reflexivity|].
  exists tree. split; [reflexivity|]. split; [reflexivity|].
  intros i H. destruct rv as [cfg l]. rewrite run_analyzers_flat in H.
  apply in_flat_map in H. destruct H as (a & Ha & Hi).
  destruct (Reviewer.analyze a code file_path tree) as [found|] eqn:Hf;
    [|destruct Hi].
  unfold Reviewer._filter_by_severity in Hi. apply List.filter_In in Hi.
  destruct Hi as [Hi Hlevel]. apply Z.leb_le in Hlevel.
  cbn [Reviewer.config Reviewer._analyzers].
  split; [exact Hlevel|]. split.
  - intros S HS. rewrite HS, !severity_level_value in Hlevel. lia.
  - exists a, found. split; [exact Ha|]. split; [exact Hf|exact Hi].
Qed.

Lemma collect_results_flat (rv : Reviewer.Reviewer) (files : list string) :
  collect_results rv files
  = flat_map (Reviewer.outcome ast_parse path_match fs rv) files.
Proof. apply collect_results_outcomes. Qed.

(** X26.  A file whose review raises (unreadable, or rejected by the parser
    with something else than a syntax error) is left out of the results of
    a directory, which are otherwise those of the remaining files in the
    same order; the results are exactly the files whose review returned,
    each under its own path. *)
Theorem failing_files_left_out (rv : Reviewer.Reviewer)
    (before after : list string) (path : string) (e : exception) :
  review_file rv path = Raise e ->
  collect_results rv (before ++ path :: after)
  = collect_results rv (before ++ after)
  /\ forall files,
       map fr_file (collect_results rv files)
       = List.filter
           (fun p => match review_file rv p with
                     | Ok _ => true
                     | Raise _ => false
                     end) files.
Proof.
  intros Hfail. split.
  - rewrite !collect_results_flat, !flat_map_app. cbn [flat_map].
    unfold Reviewer.outcome at 2. now rewrite Hfail.
  - intros files. rewrite collect_results_flat.
    induction files as [|p files IH]; [reflexivity|].
    cbn [flat_map]. simpl (List.filter _ (p :: files)).
    rewrite List.map_app, IH. unfold Reviewer.outcome at 1.
    destruct (review_file rv p) as [r|] eqn:Hr; [|reflexivity].
    cbn [map app]. now rewrite (review_file_path _ _ _ _ _ _ Hr).
Qed.

Lemma compare_refl (x : string) : String.compare x x = Eq.
Proof. now apply OrderedTypeEx.String_as_OT.cmp_eq. Qed.

Lemma parts_leb_total (a : list string) :
  forall b, Path.parts_leb a b = false -> Path.parts_leb b a = true.
Proof.
  induction a as [|x a IH]; intros [|y b]; cbn [Path.parts_leb];
    try discriminate; try reflexivity.
  rewrite (String.compare_antisym x y).
  destruct (String.compare y x); cbn [CompOpp]; try discriminate;
    try reflexivity.
  apply IH.
Qed.

Lemma parts_leb_trans (a : list string) :
  forall b c, Path.parts_leb a b = true -> Path.parts_leb b c = true ->
              Path.parts_leb a c = true.
Proof.
  induction a as [|x a IH]; intros [|y b] [|z c]; cbn [Path.parts_leb];
    try discriminate; try reflexivity.
  destruct (String.compare x y) eqn:Hxy; try discriminate;
    destruct (String.compare y z) eqn:Hyz; try discriminate; intros Hab Hbc.
  - apply OrderedTypeEx.String_as_OT.cmp_eq in Hxy, Hyz. subst.
    rewrite compare_refl. now apply (IH b c).
  - apply OrderedTypeEx.String_as_OT.cmp_eq in Hxy. subst. now rewrite Hyz.
  - apply OrderedTypeEx.String_as_OT.cmp_eq in Hyz. subst. now rewrite Hxy.
  - apply OrderedTypeEx.String_as_OT.cmp_lt in Hxy, Hyz.
    pose proof (OrderedTypeEx.String_as_OT.lt_trans _ _ _ Hxy Hyz) as Hxz.
    apply OrderedTypeEx.String_as_OT.cmp_lt in Hxz.
    unfold OrderedTypeEx.String_as_OT.cmp in Hxz. now rewrite Hxz.
Qed.

Lemma insert_sorted (p : string) (l : list string) :
  StronglySorted (fun a b => Path.leb a b = true) l ->
  StronglySorted (fun a b => Path.leb a b = true) (Path.insert p l).
Proof.
  induction 1 as [|q l Hs IH Hq]; cbn [Path.insert].
  - repeat constructor.
  - destruct (Path.leb p q) eqn:Hpq.
    + constructor; [now constructor|].
      constructor; [exact Hpq|].
      eapply List.Forall_impl; [|exact Hq].
      cbn. intros z Hz. unfold Path.leb in *.
      now apply (parts_leb_trans _ (Path.parts q)).
    + constructor; [exact IH|].
      rewrite List.Forall_forall. intros z Hz.
      apply (Permutation_in _ (insert_perm p l)) in Hz.
      destruct Hz as [<-|Hz].
      * unfold Path.leb in *. now apply parts_leb_total.
      * rewrite List.Forall_forall in Hq. now apply Hq.
Qed.

Lemma sorted_sorted (l : list string) :
  StronglySorted (fun a b => Path.leb a b = true) (Path.sorted l).
Proof.
  induction l as [|p l IH]; cbn [Path.sorted]; [constructor|].
  now apply insert_sorted.
Qed.

(** X27.  The files of a directory review are taken in ascending path
    order, component by component, whatever order the file system lists
    them in, and they are exactly the listed files that pass
    [_should_analyze_file]. *)
Theorem collect_files_sorted (rv : Reviewer.Reviewer) (directory : string)
    (recursive : bool) :
  StronglySorted (fun a b => Path.leb a b = true)
    (_collect_files rv directory recursive)
  /\ forall p,
       In p (_collect_files rv directory recursive) <->
       In p (Path.fs_glob fs directory
               (if recursive then "**/*.py" else "*.py"))
       /\ _should_analyze_file rv p = true.
Proof.
  unfold Reviewer._collect_files. split; [apply sorted_sorted|].
  intros p. rewrite <- List.filter_In. split; intros H.
  - now apply (Permutation_in _ (sorted_perm _)).
  - now apply (Permutation_in _ (Permutation_sym (sorted_perm _))).
Qed.

(** X28.  With at most one file to review, [review_directory] does not use
    the thread pool: [parallel], [max_workers] and the completion order are
    without effect, so that even [max_workers = 0] is accepted.  With no
    file at all in an existing directory the result is the empty
    [ReviewResult]. *)
Theorem review_directory_few_files (rv : Reviewer.Reviewer) (directory : string)
    (recursive parallel : bool) (max_workers : Z) (completion : list string) :
  (length (_collect_files rv directory recursive) <= 1)%nat ->
  review_directory rv directory recursive parallel max_workers completion
  = review_directory rv directory recursive false 1 []
  /\ (Path.fs_exists fs directory = true ->
      Path.fs_is_dir fs directory = true ->
      _collect_files rv directory recursive = [] ->
      review_directory rv directory recursive parallel max_workers completion
      = Ok Reviewer.empty_result).
Proof.
  intros Hlen. unfold Reviewer.review_directory. split.
  - destruct (Path.fs_exists fs directory); [|reflexivity].
    destruct (Path.fs_is_dir fs directory); [|reflexivity].
    cbn [negb].
    destruct (_collect_files rv directory recursive) as [|f [|g l]];
      [reflexivity| |cbn [length] in Hlen; lia].
    change (1 <? Complexity.lenZ [f]) with false.
    now rewrite andb_false_r.
  - intros -> -> ->. reflexivity.
Qed.

End Orchestration.

Section OrchestrationExamples.
Import Models Config.

Lemma analyzers_follow_membership_example :
  let listed :=
    mkConfig ["smells"; "style"; "complexity"; "smells"] "info" 10 4 50
      500 120 5 [] [] "terminal" false in
  let plain :=
    mkConfig ["complexity"; "smells"] "info" 10 4 50
      500 120 5 [] [] "terminal" false in
  Reviewer.analyzers
    (Reviewer.new Fixtures.rejecting_parser Fixtures.no_checks
       Fixtures.no_detectors listed [])
  = ["complexity"; "smells"]
  /\ Reviewer.analyzers
       (Reviewer.new Fixtures.rejecting_parser Fixtures.no_checks
          Fixtures.no_detectors listed [])
     = Reviewer.analyzers
         (Reviewer.new Fixtures.rejecting_parser Fixtures.no_checks
            Fixtures.no_detectors plain []).
Proof.
  intros listed plain.
  apply (analyzers_follow_membership Fixtures.rejecting_parser
           Fixtures.no_checks Fixtures.no_detectors listed plain []).
  intros n Hn. cbn [listed plain analyzers].
  destruct Hn as [<-|[<-|[<-|[]]]]; cbn [In]; split; intros H;
    repeat destruct H as [H|H]; auto; discriminate.
Defined.

(** An analyzer that always raises. *)
Lemma review_code_contains_analyzer_failure_example :
  let broken :=
    Reviewer.mkAnalyzer "broken"
      (fun _ _ _ => Raise (OtherException "KeyError")) in
  let finds :=
    Reviewer.mkAnalyzer "finds"
      (fun _ path _ => Ok [Fixtures.issue_of HIGH "eval_usage" path]) in
  Reviewer.review_code Fixtures.rejecting_parser
    (Reviewer.mkReviewer default_config ([] ++ broken :: [finds])) "x = (" "a.py"
  = Reviewer.review_code Fixtures.rejecting_parser
      (Reviewer.mkReviewer default_config ([] ++ [finds])) "x = (" "a.py".
Proof.
  intros broken finds.
  apply (review_code_contains_analyzer_failure Fixtures.rejecting_parser
           default_config [] [finds] broken "x = (" "a.py").
  intros tree _. exists (OtherException "KeyError"). reflexivity.
Defined.

(** An analyzer that reports a high and a low issue, under a minimum of
    [high]. *)
Lemma review_code_result_example :
  let finds :=
    Reviewer.mkAnalyzer "finds"
      (fun _ path _ => Ok [Fixtures.issue_of HIGH "eval_usage" path;
                           Fixtures.issue_of LOW "long_function" path]) in
  let rv := Reviewer.mkReviewer Config.relaxed [finds] in
  exists r,
    Reviewer.review_code Fixtures.rejecting_parser rv "x = (" "a.py" = Ok r
    /\ fr_file r = "a.py" /\ skipped r = false
    /\ issues r = [Fixtures.issue_of HIGH "eval_usage" "a.py"]
    /\ forall i, In i (issues r) ->
                 Spec.urgency HIGH <= Spec.urgency (severity i).
Proof.
  intros finds rv. eexists. split; [reflexivity|].
  destruct (review_code_result Fixtures.rejecting_parser rv "x = (" "a.py"
              _ eq_refl)
    as (Hf & Hs & _ & tree & _ & _ & Hall).
  split; [exact Hf|]. split; [exact Hs|]. split; [reflexivity|].
  intros i Hi. destruct (Hall i Hi) as (_ & Hurgent & _).
  exact (Hurgent HIGH eq_refl).
Defined.

(** A file system whose only source cannot be read. *)
Lemma failing_files_left_out_example :
  let fs :=
    {| Path.fs_exists := fun _ => true;
       Path.fs_is_dir := fun _ => false;
       Path.fs_read_text :=
         fun p _ => if String.eqb p "locked.py"
                    then Raise (OtherException "PermissionError")
                    else Ok "x = (";
       Path.fs_glob := fun _ _ => [] |} in
  map fr_file
    (Reviewer.collect_results Fixtures.rejecting_parser Fixtures.no_match fs
       Fixtures.default_reviewer (["a.py"] ++ "locked.py" :: ["b.py"]))
  = ["a.py"; "b.py"].
Proof.
  intros fs.
  rewrite (proj1 (failing_files_left_out Fixtures.rejecting_parser
                    Fixtures.no_match fs Fixtures.default_reviewer
                    ["a.py"] ["b.py"] "locked.py"
                    (OtherException "PermissionError") eq_refl)).
  reflexivity.
Defined.

(** A directory whose only source lies below [venv/]. *)
Lemma review_directory_few_files_example :
  let fs :=
    {| Path.fs_exists := fun _ => true;
       Path.fs_is_dir := fun p => String.eqb p "proj";
       Path.fs_read_text := fun _ _ => Ok "x = 1";
       Path.fs_glob := fun _ _ => ["proj/venv/lib.py"] |} in
  Reviewer.review_directory Fixtures.rejecting_parser Fixtures.no_match fs
    Fixtures.default_reviewer "proj" true true 0 []
  = Ok Reviewer.empty_result.
Proof.
  intros fs.
  apply (proj2 (review_directory_few_files Fixtures.rejecting_parser
                  Fixtures.no_match fs Fixtures.default_reviewer "proj" true
                  true 0 [] ltac:(vm_compute; lia)));
    reflexivity.
Defined.

End OrchestrationExamples.

(** ** What the complexity analyzer can report *)

Section ComplexityIssues.
Import Ast Models Config.

Lemma analyze_function_issues (cfg : Config) (node : ast)
    (code file_path : string) (i : Issue) :
  In i (Complexity._analyze_function cfg node code file_path) ->
  file i = file_path /\ severity i <> CRITICAL
  /\ String.prefix "complexity/" (rule i) = true.
Proof.
  destruct node as [| | | | |a nm ar ae b d r l c e|]; try (intros []).
  cbn [Complexity._analyze_function]. rewrite !in_app_iff.
  intros [H|[H|[H|H]]];
    match type of H with
    | In _ (if ?c then _ else _) => destruct c
    end; cbn [In] in H; try contradiction; destruct H as [<-|[]];
    cbn; repeat split; try discriminate.
  destruct (_ <=? 15); discriminate.
Qed.

Lemma filter_none {A : Type} (f : A -> bool) (l : list A) :
  (forall x, In x l -> f x = false) -> List.filter f l = [].
Proof.
  induction l as [|x l IH]; intros H; [reflexivity|].
  simpl (List.filter f (x :: l)). rewrite (H x) by now left.
  apply IH. intros y Hy. apply H. now right.
Qed.

(** X29.  Whatever the tree and the text, every issue of the complexity
    analyzer is filed under the path it was given and under a rule of the
    [complexity/] family, and none is critical: under
    [min_severity = critical] nothing the complexity analyzer finds is
    ever reported. *)
Theorem complexity_issues_never_critical (cfg : Config)
    (code file_path : string) (tree : ast) :
  (forall i, In i (Complexity.analyze_tree cfg code file_path tree) ->
             file i = file_path /\ severity i <> CRITICAL
             /\ String.prefix "complexity/" (rule i) = true)
  /\ (min_severity cfg = "critical" ->
      Reviewer._filter_by_severity cfg
        (Complexity.analyze_tree cfg code file_path tree) = []).
Proof.
  assert (Hall : forall i,
             In i (Complexity.analyze_tree cfg code file_path tree) ->
             file i = file_path /\ severity i <> CRITICAL
             /\ String.prefix "complexity/" (rule i) = true).
  { intros i. unfold Complexity.analyze_tree. rewrite !in_app_iff.
    intros [H|[H|H]].
    - apply in_flat_map in H. destruct H as (node & _ & H).
      destruct (is_function node); [now apply analyze_function_issues in H|].
      destruct (is_class node); [|destruct H].
      destruct node as [| | | | | |nm bs ks b d l c]; try (destruct H).
      cbn [Complexity._analyze_class] in H.
      destruct (_ >? 20); [|destruct H].
      destruct H as [<-|[]]. cbn. repeat split; discriminate.
    - unfold Complexity._check_line_lengths in H.
      apply in_flat_map in H. destruct H as ([n ln] & _ & H).
      destruct (PyStr.len ln >? _); [|destruct H].
      destruct (_ || _); [destruct H|].
      destruct (_ || _); [destruct H|].
      destruct H as [<-|[]]. cbn. repeat split; discriminate.
    - unfold Complexity._check_file_length in H.
      destruct (_ >? _); [|destruct H].
      destruct H as [<-|[]]. cbn. repeat split; discriminate. }
  split; [exact Hall|].
  intros Hmin. unfold Reviewer._filter_by_severity. rewrite Hmin.
  apply filter_none. intros i Hi.
  destruct (Hall i Hi) as (_ & Hsev & _).
  rewrite severity_level_value.
  change (Reviewer.severity_level "critical") with 0.
  destruct (severity i); [contradiction| | | |]; reflexivity.
Qed.

End ComplexityIssues.

Section ComplexityIssuesExamples.
Import Ast Models Config.

Lemma complexity_issues_never_critical_example :
  let cfg := mkConfig ["complexity"] "critical" 1 4 50 500 5 5 [] []
               "terminal" false in
  Complexity.analyze_tree cfg "def check(x): assert x" "a.py"
    Fixtures.check_module <> []
  /\ Reviewer._filter_by_severity cfg
       (Complexity.analyze_tree cfg "def check(x): assert x" "a.py"
          Fixtures.check_module) = [].
Proof.
  intros cfg. split; [vm_compute; discriminate|].
  apply (proj2 (complexity_issues_never_critical cfg
                  "def check(x): assert x" "a.py" Fixtures.check_module)).
  reflexivity.
Defined.

End ComplexityIssuesExamples.
